(** * An MCP conversational agent: orchestration loop and context selection

    Shallow embedding of [ch3/13_use_prompt/agent.py] (class [Agent]) and
    [ch3/13_use_prompt/client.py] (class [MCPClient]).

    Python values are modelled as follows.
    - [str] is a [string] holding the UTF-8 encoding of the text.  The
      byte of an ASCII character never occurs inside a multi-byte
      sequence, so [find], [rfind], slicing at the positions they return
      and comparison with ASCII literals agree with the code-point
      operations of Python.
    - a [dict] is an insertion-ordered association list with unique keys.
    - decoded JSON is the inductive [json].
    - the LLM API, the MCP session and standard input are oracles of an
      environment [Env]; what the program did to them is logged in the
      state [World].
    - a coroutine is a computation in the state-and-exception monad [M];
      the two [while True] loops take a bound on their iterations and
      answer [Timeout] when it is used up.
    The [[DEBUG]] diagnostics the program prints are not part of the
    modelled standard output; interpreter resource limits (recursion
    depth, memory) are not modelled. *)

From Stdlib Require Import String Ascii List Arith NArith ZArith Bool Lia.
From Stdlib Require Import DecimalString.
Import ListNotations.
Open Scope string_scope.
Open Scope list_scope.
Open Scope nat_scope.

(** String concatenation, as [+] on [str] and the holes of an f-string. *)
Infix "+++" := String.append (right associativity, at level 60).

(** ** Python strings *)
Module PyStr.

Definition code (a : ascii) : nat := nat_of_ascii a.

(** [s.find(c)] for a one-character needle; -1 when absent. *)
Fixpoint find_from (c : ascii) (i : Z) (s : string) : Z :=
  match s with
  | EmptyString => (-1)%Z
  | String a r => if Ascii.eqb a c then i else find_from c (i + 1)%Z r
  end.

Definition find (c : ascii) (s : string) : Z := find_from c 0%Z s.

(** [s.rfind(c)]: the last occurrence; -1 when absent. *)
Fixpoint rfind_from (c : ascii) (i : Z) (s : string) : Z :=
  match s with
  | EmptyString => (-1)%Z
  | String a r =>
      let j := rfind_from c (i + 1)%Z r in
      if (0 <=? j)%Z then j else if Ascii.eqb a c then i else (-1)%Z
  end.

Definition rfind (c : ascii) (s : string) : Z := rfind_from c 0%Z s.

(** [c in s]. *)
Definition contains (c : ascii) (s : string) : bool := (0 <=? find c s)%Z.

(** One bound of a slice: negative bounds count from the end, and the
    result is clamped to [0, len]. *)
Definition clamp (len i : Z) : nat :=
  let i' := if (i <? 0)%Z then (i + len)%Z else i in
  Z.to_nat (Z.min len (Z.max 0 i')).

(** [s[start:stop]]. *)
Definition slice (start stop : Z) (s : string) : string :=
  let len := Z.of_nat (String.length s) in
  let a := clamp len start in
  let b := clamp len stop in
  substring a (b - a) s.

(** Whitespace as [str.isspace] has it, by UTF-8 encoding: the ASCII
    characters 09-0D, 1C-1F and 20, then U+0085, U+00A0 (two bytes),
    U+1680, U+2000-U+200A, U+2028, U+2029, U+202F, U+205F and U+3000
    (three bytes). *)
Definition ws1 (a : ascii) : bool :=
  let n := code a in
  ((9 <=? n) && (n <=? 13)) || ((28 <=? n) && (n <=? 32)).

Definition ws2 (a b : ascii) : bool :=
  (code a =? 194) && ((code b =? 133) || (code b =? 160)).

Definition ws3 (a b c : ascii) : bool :=
  let x := code a in
  let y := code b in
  let z := code c in
  ((x =? 225) && (y =? 154) && (z =? 128))
  || ((x =? 226) && (y =? 128)
      && (((128 <=? z) && (z <=? 138)) || (z =? 168) || (z =? 169) || (z =? 175)))
  || ((x =? 226) && (y =? 129) && (z =? 159))
  || ((x =? 227) && (y =? 128) && (z =? 128)).

(** Drop leading whitespace.  With [back] the input is a reversed string
    and the multi-byte patterns are read backwards. *)
Fixpoint lstrip_gen (back : bool) (s : string) : string :=
  match s with
  | EmptyString => s
  | String a r =>
      if ws1 a then lstrip_gen back r
      else
        match r with
        | EmptyString => s
        | String b r2 =>
            if (if back then ws2 b a else ws2 a b) then lstrip_gen back r2
            else
              match r2 with
              | EmptyString => s
              | String c r3 =>
                  if (if back then ws3 c b a else ws3 a b c)
                  then lstrip_gen back r3
                  else s
              end
        end
  end.

Fixpoint rev_append (s acc : string) : string :=
  match s with
  | EmptyString => acc
  | String a r => rev_append r (String a acc)
  end.

Definition rev (s : string) : string := rev_append s EmptyString.

(** [s.strip()]. *)
Definition strip (s : string) : string :=
  rev (lstrip_gen true (rev (lstrip_gen false s))).

(** [s.lower()]; only the ASCII letters are folded.  The two commands it
    is compared with, ["goodbye"] and ["refresh"], contain no letter that
    is the lower case of a non-ASCII character, so the comparison is the
    one Python makes. *)
Definition lower_char (a : ascii) : ascii :=
  let n := code a in
  if (65 <=? n) && (n <=? 90) then ascii_of_nat (n + 32) else a.

Fixpoint lower (s : string) : string :=
  match s with
  | EmptyString => EmptyString
  | String a r => String (lower_char a) (lower r)
  end.

(** [sep.join(l)]. *)
Definition join (sep : string) (l : list string) : string := String.concat sep l.

(** [str(n)] for a length. *)
Definition of_nat (n : nat) : string := NilEmpty.string_of_uint (Nat.to_uint n).

(** The characters of a string, as iteration yields them: every byte
    that is not a continuation byte starts a new character. *)
Definition is_continuation (a : ascii) : bool :=
  (128 <=? code a) && (code a <? 192).

Fixpoint chars (s : string) : list string :=
  match s with
  | EmptyString => []
  | String a r =>
      match r with
      | String b _ =>
          if is_continuation b then
            match chars r with
            | h :: t => String a h :: t
            | [] => [String a EmptyString]
            end
          else String a EmptyString :: chars r
      | EmptyString => [String a EmptyString]
      end
  end.

End PyStr.

(** ** Python dictionaries with string keys *)
Module Dict.

Definition dict (V : Type) : Type := list (string * V).

Definition empty {V : Type} : dict V := [].

(** [not d] *)
Definition is_empty {V : Type} (d : dict V) : bool :=
  match d with [] => true | _ :: _ => false end.

(** [d.get(k)] *)
Fixpoint get {V : Type} (k : string) (d : dict V) : option V :=
  match d with
  | [] => None
  | (k', v) :: r => if String.eqb k' k then Some v else get k r
  end.

(** [k in d] *)
Definition mem {V : Type} (k : string) (d : dict V) : bool :=
  match get k d with Some _ => true | None => false end.

(** [d[k] = v]: an existing key keeps its place, a new one goes last. *)
Fixpoint set {V : Type} (k : string) (v : V) (d : dict V) : dict V :=
  match d with
  | [] => [(k, v)]
  | (k', v') :: r =>
      if String.eqb k' k then (k', v) :: r else (k', v') :: set k v r
  end.

(** [{key(x): x for x in l}] *)
Definition of_list {V : Type} (key : V -> string) (l : list V) : dict V :=
  fold_left (fun d x => set (key x) x d) l empty.

Definition keys {V : Type} (d : dict V) : list string := map fst d.
Definition values {V : Type} (d : dict V) : list V := map snd d.

End Dict.

(** ** Decoded JSON and [json.loads] *)
Module Json.

#[local] Set Warnings "-register-all".

(** What [json.loads] returns: [None], [bool], a number (kept as its
    lexeme: the program never computes with one), [str], [list], [dict]. *)
Inductive json : Type :=
| JNull
| JBool (b : bool)
| JNumber (lexeme : string)
| JString (s : string)
| JArray (items : list json)
| JObject (members : Dict.dict json).

Definition is_ws (a : ascii) : bool :=
  let n := PyStr.code a in
  (n =? 32) || (n =? 9) || (n =? 10) || (n =? 13).

Fixpoint skip_ws (s : string) : string :=
  match s with
  | String a r => if is_ws a then skip_ws r else s
  | EmptyString => s
  end.

Definition is_digit (a : ascii) : bool :=
  (48 <=? PyStr.code a) && (PyStr.code a <=? 57).

(** The longest run of digits at the head of [s], and what follows. *)
Fixpoint span_digits (s : string) : string * string :=
  match s with
  | String a r =>
      if is_digit a then let (d, t) := span_digits r in (String a d, t)
      else (EmptyString, s)
  | EmptyString => (EmptyString, s)
  end.

Definition hex_val (a : ascii) : option N :=
  let n := PyStr.code a in
  if (48 <=? n) && (n <=? 57) then Some (N.of_nat (n - 48))
  else if (65 <=? n) && (n <=? 70) then Some (N.of_nat (n - 55))
  else if (97 <=? n) && (n <=? 102) then Some (N.of_nat (n - 87))
  else None.

(** The four hexadecimal digits of a [\uXXXX] escape. *)
Definition hex4 (s : string) : option (N * string) :=
  match s with
  | String a (String b (String c (String d r))) =>
      match hex_val a, hex_val b, hex_val c, hex_val d with
      | Some x, Some y, Some z, Some t =>
          Some ((((x * 16 + y) * 16 + z) * 16 + t)%N, r)
      | _, _, _, _ => None
      end
  | _ => None
  end.

Definition byte (n : N) : ascii := ascii_of_N n.

(** [chr(cp)] in UTF-8; a lone surrogate gets the three-byte form. *)
Definition utf8 (cp : N) : string :=
  (if cp <? 128 then String (byte cp) EmptyString
   else if cp <? 2048 then
     String (byte (192 + cp / 64)) (String (byte (128 + cp mod 64)) EmptyString)
   else if cp <? 65536 then
     String (byte (224 + cp / 4096))
       (String (byte (128 + (cp / 64) mod 64))
          (String (byte (128 + cp mod 64)) EmptyString))
   else
     String (byte (240 + cp / 262144))
       (String (byte (128 + (cp / 4096) mod 64))
          (String (byte (128 + (cp / 64) mod 64))
             (String (byte (128 + cp mod 64)) EmptyString))))%N.

(** The character a one-letter escape stands for. *)
Definition backslash (e : ascii) : option ascii :=
  let n := PyStr.code e in
  if n =? 34 then Some e
  else if n =? 92 then Some e
  else if n =? 47 then Some e
  else if n =? 98 then Some (ascii_of_nat 8)
  else if n =? 102 then Some (ascii_of_nat 12)
  else if n =? 110 then Some (ascii_of_nat 10)
  else if n =? 114 then Some (ascii_of_nat 13)
  else if n =? 116 then Some (ascii_of_nat 9)
  else None.

Definition cons_string (p : string) (x : option (string * string))
  : option (string * string) :=
  match x with
  | Some (v, r) => Some (p +++ v, r)
  | None => None
  end.

(** [scanstring], strict: the text after an opening quote, up to the
    closing one.  A control character, an unknown escape or the end of
    the text is an error. *)
Fixpoint scanstring (fuel : nat) (s : string) : option (string * string) :=
  match fuel with
  | O => None
  | S f =>
      match s with
      | EmptyString => None
      | String a r =>
          if PyStr.code a =? 34 then Some (EmptyString, r)
          else if PyStr.code a =? 92 then
            match r with
            | EmptyString => None
            | String e r2 =>
                if PyStr.code e =? 117 then
                  match hex4 r2 with
                  | None => None
                  | Some (uni, r3) =>
                      let single := cons_string (utf8 uni) (scanstring f r3) in
                      if ((55296 <=? uni) && (uni <=? 56319))%N then
                        match r3 with
                        | String b1 (String b2 r4) =>
                            if (PyStr.code b1 =? 92) && (PyStr.code b2 =? 117) then
                              match hex4 r4 with
                              | None => None
                              | Some (uni2, r5) =>
                                  if ((56320 <=? uni2) && (uni2 <=? 57343))%N then
                                    cons_string
                                      (utf8 (65536 + ((uni - 55296) * 1024
                                                      + (uni2 - 56320)))%N)
                                      (scanstring f r5)
                                  else single
                              end
                            else single
                        | _ => single
                        end
                      else single
                  end
                else
                  match backslash e with
                  | Some c => cons_string (String c EmptyString) (scanstring f r2)
                  | None => None
                  end
            end
          else if PyStr.code a <? 32 then None
          else cons_string (String a EmptyString) (scanstring f r)
      end
  end.

(** The number pattern: an optional minus sign, then 0 or a nonzero digit
    and digits; optionally a point and one digit or more; optionally e or
    E, an optional sign and one digit or more.  The lexeme matched at the
    head of [s], and what follows. *)
Definition scan_int (s : string) : option (string * string) :=
  match s with
  | String a r =>
      if PyStr.code a =? 48 then Some (String a EmptyString, r)
      else if is_digit a then let (d, t) := span_digits r in Some (String a d, t)
      else None
  | EmptyString => None
  end.

Definition scan_frac (s : string) : string * string :=
  match s with
  | String a r =>
      if PyStr.code a =? 46 then
        match span_digits r with
        | (EmptyString, _) => (EmptyString, s)
        | (d, t) => (String a d, t)
        end
      else (EmptyString, s)
  | EmptyString => (EmptyString, s)
  end.

Definition scan_exp (s : string) : string * string :=
  match s with
  | String a r =>
      if (PyStr.code a =? 101) || (PyStr.code a =? 69) then
        let (sign, r') :=
          match r with
          | String b r2 =>
              if (PyStr.code b =? 45) || (PyStr.code b =? 43)
              then (String b EmptyString, r2) else (EmptyString, r)
          | EmptyString => (EmptyString, r)
          end in
        match span_digits r' with
        | (EmptyString, _) => (EmptyString, s)
        | (d, t) => (String a (sign +++ d), t)
        end
      else (EmptyString, s)
  | EmptyString => (EmptyString, s)
  end.

Definition scan_number (s : string) : option (string * string) :=
  let (neg, r) :=
    match s with
    | String a r => if PyStr.code a =? 45 then ("-", r) else ("", s)
    | EmptyString => ("", s)
    end in
  match scan_int r with
  | None => None
  | Some (i, r1) =>
      let (fr, r2) := scan_frac r1 in
      let (ex, r3) := scan_exp r2 in
      Some (neg +++ i +++ fr +++ ex, r3)
  end.

(** [s.startswith(p)], with what follows the prefix. *)
Fixpoint strip_prefix (p s : string) : option string :=
  match p, s with
  | EmptyString, _ => Some s
  | String a p', String b s' => if Ascii.eqb a b then strip_prefix p' s' else None
  | String _ _, EmptyString => None
  end.

Definition literal (p : string) (v : json) (s : string) : option (json * string) :=
  match strip_prefix p s with
  | Some r => Some (v, r)
  | None => None
  end.

Definition first_some {A : Type} (x y : option A) : option A :=
  match x with Some _ => x | None => y end.

(** [scan_once], with the array and object loops.  Keys of an object are
    entered in a [dict] as they are read, so a repeated key keeps its
    first place and its last value. *)
Fixpoint scan_once (fuel : nat) (s : string) : option (json * string) :=
  match fuel with
  | O => None
  | S f =>
      match s with
      | EmptyString => None
      | String a r =>
          let n := PyStr.code a in
          if n =? 34 then
            match scanstring (S (String.length r)) r with
            | Some (v, t) => Some (JString v, t)
            | None => None
            end
          else if n =? 123 then
            match skip_ws r with
            | String b t =>
                if PyStr.code b =? 125 then Some (JObject Dict.empty, t)
                else parse_object f (String b t) Dict.empty
            | EmptyString => None
            end
          else if n =? 91 then
            match skip_ws r with
            | String b t =>
                if PyStr.code b =? 93 then Some (JArray [], t)
                else parse_array f (String b t) []
            | EmptyString => None
            end
          else
            first_some (literal "null" JNull s)
              (first_some (literal "true" (JBool true) s)
                 (first_some (literal "false" (JBool false) s)
                    (first_some
                       (match scan_number s with
                        | Some (l, t) => Some (JNumber l, t)
                        | None => None
                        end)
                       (first_some (literal "NaN" (JNumber "NaN") s)
                          (first_some (literal "Infinity" (JNumber "Infinity") s)
                             (literal "-Infinity" (JNumber "-Infinity") s))))))
      end
  end

with parse_array (fuel : nat) (s : string) (acc : list json)
  : option (json * string) :=
  match fuel with
  | O => None
  | S f =>
      match scan_once f s with
      | None => None
      | Some (v, r) =>
          match skip_ws r with
          | String b t =>
              if PyStr.code b =? 93 then Some (JArray (List.rev (v :: acc)), t)
              else if PyStr.code b =? 44 then parse_array f (skip_ws t) (v :: acc)
              else None
          | EmptyString => None
          end
      end
  end

with parse_object (fuel : nat) (s : string) (acc : Dict.dict json)
  : option (json * string) :=
  match fuel with
  | O => None
  | S f =>
      match s with
      | EmptyString => None
      | String q r =>
          if PyStr.code q =? 34 then
            match scanstring (S (String.length r)) r with
            | None => None
            | Some (key, r1) =>
                match skip_ws r1 with
                | EmptyString => None
                | String c r2 =>
                    if PyStr.code c =? 58 then
                      match scan_once f (skip_ws r2) with
                      | None => None
                      | Some (v, r3) =>
                          match skip_ws r3 with
                          | String b t =>
                              if PyStr.code b =? 125
                              then Some (JObject (Dict.set key v acc), t)
                              else if PyStr.code b =? 44
                              then parse_object f (skip_ws t) (Dict.set key v acc)
                              else None
                          | EmptyString => None
                          end
                      end
                    else None
                end
            end
          else None
      end
  end.

(** [json.loads(s)]: one value, surrounded by whitespace at most.
    [None] stands for [JSONDecodeError]. *)
Definition loads (s : string) : option json :=
  match scan_once (2 * String.length s + 2) (skip_ws s) with
  | Some (v, r) =>
      match skip_ws r with
      | EmptyString => Some v
      | String _ _ => None
      end
  | None => None
  end.

End Json.
Export Json.

(** ** The types of the MCP and LLM client libraries *)

(** [mcp.types.Resource], [Prompt], [Tool]: the fields the program reads. *)
Record Resource : Type := {
  resource_name : string;
  resource_uri : string;
  resource_description : option string
}.

Record Prompt : Type := {
  prompt_name : string;
  prompt_description : option string;
  prompt_arguments : list string
}.

Record Tool : Type := {
  tool_name : string;
  tool_description : option string;
  tool_inputSchema : json
}.

(** What [read_resource] returns: [TextResourceContents] or
    [BlobResourceContents]. *)
Inductive ResourceContents : Type :=
| TextResourceContents (uri : string) (mimeType : option string) (text : string)
| BlobResourceContents (uri : string) (mimeType : option string) (blob : string).

(** A part of a tool call result, by its [type]: ["text"], ["image"],
    ["audio"], ["resource"] (embedded text or blob), or another one. *)
Inductive ToolContent : Type :=
| TextContent (text : string)
| ImageContent (data : string)
| AudioContent (data : string)
| EmbeddedResource (resource : ResourceContents)
| OtherContent.

(** The [content] of a [PromptMessage]: an object with a [text]
    attribute, a plain [str], or neither. *)
Inductive PromptContent : Type :=
| PromptText (text : string)
| PromptStr (s : string)
| PromptOther.

Record PromptMessage : Type := {
  pm_role : string;
  pm_content : PromptContent
}.

(** A content block of an LLM response: a [TextBlock], a [ToolUseBlock],
    or a block with neither a [text] attribute nor the type ["tool_use"]
    (thinking blocks and the like). *)
Inductive ContentBlock : Type :=
| TextBlock (text : string)
| ToolUseBlock (id name : string) (input : json)
| OtherBlock.

(** The block dictionaries the agent puts in a user turn. *)
Inductive UserBlock : Type :=
| UText (text : string)
| UImage (media_type data : string)
| UToolResult (tool_use_id content : string).

(** The dictionary of a tool handed to the LLM. *)
Record ToolParam : Type := {
  tp_name : string;
  tp_description : option string;
  tp_input_schema : json
}.

(** The [content] of a message sent to the LLM.  The two selection
    prompts are f-strings around [json.dumps] of a catalog view; a prompt
    is kept as its template and the values of its holes. *)
Inductive MessageContent : Type :=
| ResourceSelectionPrompt (user_query : string)
    (resource_descriptions : Dict.dict string)
| PromptSelectionPrompt (user_query : string) (prompts : list Prompt)
| UserContent (blocks : list UserBlock)
| AssistantContent (blocks : list ContentBlock).

(** [{"role": ..., "content": ...}] *)
Record Message : Type := {
  role : string;
  content : MessageContent
}.

(** The keyword arguments of [messages.create]; an absent key is [None]. *)
Record CreateArgs : Type := {
  max_tokens : nat;
  messages : list Message;
  model : string;
  tools : option (list ToolParam);
  tool_choice : option string;
  system : option string
}.

(** The response of [messages.create]. *)
Record Response : Type := {
  stop_reason : string;
  response_content : list ContentBlock
}.

(** ** Exceptions, the environment, the state *)

(** The exceptions that can occur; all of them are instances of
    [Exception].  [LibraryError] is whatever a library raises: an API
    error of the LLM client, a transport error of the MCP session. *)
Inductive exn : Type :=
| RuntimeError (msg : string)
| IndexError
| AttributeError
| TypeError
| KeyError (key : string)
| JSONDecodeError
| EOFError
| LibraryError (msg : string).

(** The outside world.  An oracle of the LLM takes the number of
    requests made to the LLM before, one of the MCP session the number
    of requests made to the session before; [inl e] raises [e].
    [exit_stack_aclose] is what closing the exit stack of the client
    gives: the contexts that [connect] entered are left, and an
    exception of theirs is raised. *)
Record Env : Type := {
  llm : nat -> CreateArgs -> exn + Response;
  stdio_client : exn + unit;
  session_initialize : exn + unit;
  session_list_tools : nat -> exn + list Tool;
  session_list_resources : nat -> exn + list Resource;
  session_list_prompts : nat -> exn + list Prompt;
  session_call_tool : nat -> string -> json -> exn + list ToolContent;
  session_read_resource : nat -> string -> exn + list ResourceContents;
  session_get_prompt : nat -> string -> json -> exn + list PromptMessage;
  exit_stack_aclose : exn + unit
}.

(** A request made to the MCP session. *)
Inductive McpRequest : Type :=
| ReqListTools
| ReqListResources
| ReqListPrompts
| ReqCallTool (name : string) (arguments : json)
| ReqReadResource (uri : string)
| ReqGetPrompt (name : string) (arguments : json).

(** The state: the two catalogs of the [Agent], the flag of the
    [MCPClient], the requests made so far (oldest first), the lines
    still to be read, the lines printed, and the warnings logged (the
    place and the exception). *)
Record World : Type := {
  available_resources : Dict.dict Resource;
  available_prompts : Dict.dict Prompt;
  _connected : bool;
  llm_calls : list CreateArgs;
  mcp_log : list McpRequest;
  stdin : list string;
  stdout : list string;
  warnings : list (string * option exn)
}.

Definition set_available_resources (d : Dict.dict Resource) (w : World) : World :=
  {| available_resources := d; available_prompts := available_prompts w;
     _connected := _connected w; llm_calls := llm_calls w;
     mcp_log := mcp_log w; stdin := stdin w; stdout := stdout w;
     warnings := warnings w |}.

Definition set_available_prompts (d : Dict.dict Prompt) (w : World) : World :=
  {| available_resources := available_resources w; available_prompts := d;
     _connected := _connected w; llm_calls := llm_calls w;
     mcp_log := mcp_log w; stdin := stdin w; stdout := stdout w;
     warnings := warnings w |}.

Definition set_connected (b : bool) (w : World) : World :=
  {| available_resources := available_resources w;
     available_prompts := available_prompts w;
     _connected := b; llm_calls := llm_calls w;
     mcp_log := mcp_log w; stdin := stdin w; stdout := stdout w;
     warnings := warnings w |}.

Definition set_llm_calls (l : list CreateArgs) (w : World) : World :=
  {| available_resources := available_resources w;
     available_prompts := available_prompts w;
     _connected := _connected w; llm_calls := l;
     mcp_log := mcp_log w; stdin := stdin w; stdout := stdout w;
     warnings := warnings w |}.

Definition set_mcp_log (l : list McpRequest) (w : World) : World :=
  {| available_resources := available_resources w;
     available_prompts := available_prompts w;
     _connected := _connected w; llm_calls := llm_calls w;
     mcp_log := l; stdin := stdin w; stdout := stdout w;
     warnings := warnings w |}.

Definition set_stdin (l : list string) (w : World) : World :=
  {| available_resources := available_resources w;
     available_prompts := available_prompts w;
     _connected := _connected w; llm_calls := llm_calls w;
     mcp_log := mcp_log w; stdin := l; stdout := stdout w;
     warnings := warnings w |}.

Definition set_stdout (l : list string) (w : World) : World :=
  {| available_resources := available_resources w;
     available_prompts := available_prompts w;
     _connected := _connected w; llm_calls := llm_calls w;
     mcp_log := mcp_log w; stdin := stdin w; stdout := l;
     warnings := warnings w |}.

Definition set_warnings (l : list (string * option exn)) (w : World) : World :=
  {| available_resources := available_resources w;
     available_prompts := available_prompts w;
     _connected := _connected w; llm_calls := llm_calls w;
     mcp_log := mcp_log w; stdin := stdin w; stdout := stdout w;
     warnings := l |}.

(** ** The monad of coroutines *)

(** How a computation ends: it returns, it raises, or a loop used up its
    bound. *)
Inductive res (A : Type) : Type :=
| Ret (a : A)
| Raise (e : exn)
| Timeout.

Arguments Ret {A} a.
Arguments Raise {A} e.
Arguments Timeout {A}.

Definition M (A : Type) : Type := World -> res A * World.

Definition ret {A : Type} (a : A) : M A := fun w => (Ret a, w).

Definition raise {A : Type} (e : exn) : M A := fun w => (Raise e, w).

Definition timeout {A : Type} : M A := fun w => (Timeout, w).

Definition bind {A B : Type} (m : M A) (k : A -> M B) : M B :=
  fun w =>
    match m w with
    | (Ret a, w') => k a w'
    | (Raise e, w') => (Raise e, w')
    | (Timeout, w') => (Timeout, w')
    end.

Notation "x <- m ;; k" := (bind m (fun x => k))
  (at level 61, m at next level, right associativity).
Notation "m ;; k" := (bind m (fun _ => k))
  (at level 61, right associativity).

Definition get_world : M World := fun w => (Ret w, w).

Definition modify (f : World -> World) : M unit := fun w => (Ret tt, f w).

(** An expression that may raise, evaluated without effect. *)
Definition lift {A : Type} (x : exn + A) : M A :=
  match x with
  | inr a => ret a
  | inl e => raise e
  end.

(** [try: m  except Exception as e: h e] *)
Definition try_except {A : Type} (m : M A) (h : exn -> M A) : M A :=
  fun w =>
    match m w with
    | (Raise e, w') => h e w'
    | r => r
    end.

(** [try: m  finally: c]: [c] runs however [m] ends, and an exception of
    [c] replaces that of [m]. *)
Definition try_finally {A : Type} (m : M A) (c : M unit) : M A :=
  fun w =>
    match m w with
    | (Timeout, w') => (Timeout, w')
    | (r, w') =>
        match c w' with
        | (Ret _, w'') => (r, w'')
        | (Raise e, w'') => (Raise e, w'')
        | (Timeout, w'') => (Timeout, w'')
        end
    end.

(** [print(line)] *)
Definition print (line : string) : M unit :=
  modify (fun w => set_stdout (stdout w ++ [line]) w).

(** [logger.warning(...)], at a place and on an exception if any. *)
Definition log_warning (place : string) (e : option exn) : M unit :=
  modify (fun w => set_warnings (warnings w ++ [(place, e)]) w).

(** [input(prompt)]: the prompt is written, a line is read; at the end of
    the input [EOFError] is raised. *)
Definition input (prompt : string) : M string :=
  print prompt ;;
  w <- get_world ;;
  match stdin w with
  | line :: rest => modify (set_stdin rest) ;; ret line
  | [] => raise EOFError
  end.

(** The newline character, [\n] in the source. *)
Definition LF : string := String (ascii_of_nat 10) EmptyString.

(** ** [client.py]: class [MCPClient] *)
Module MCPClient.
Section WithEnv.

Variable env : Env.

Definition not_connected : exn := RuntimeError "Client not connected to a server".

(** A request to [self._session]: it is logged, and the oracle answers. *)
Definition session_request {A : Type} (req : McpRequest)
  (oracle : nat -> exn + A) : M A :=
  w <- get_world ;;
  modify (set_mcp_log (mcp_log w ++ [req])) ;;
  lift (oracle (length (mcp_log w))).

Definition connect : M unit :=
  w <- get_world ;;
  if _connected w then raise (RuntimeError "Client is already connected")
  else
    lift (stdio_client env) ;;
    lift (session_initialize env) ;;
    modify (set_connected true).

(** What one part of a tool call result adds to [results]. *)
Definition tool_content_results (c : ToolContent) : list string :=
  match c with
  | TextContent text => [text]
  | ImageContent data => [data]
  | AudioContent data => [data]
  | EmbeddedResource (TextResourceContents _ _ text) => [text]
  | EmbeddedResource (BlobResourceContents _ _ blob) => [blob]
  | OtherContent => []
  end.

Definition use_tool (tool_name : string) (arguments : json) : M (list string) :=
  w <- get_world ;;
  if negb (_connected w) then raise not_connected
  else
    tool_call_result <-
      session_request (ReqCallTool tool_name arguments)
        (fun n => session_call_tool env n tool_name arguments) ;;
    match tool_call_result with
    | [] => log_warning "No content in tool call result" None ;; ret []
    | _ :: _ => ret (flat_map tool_content_results tool_call_result)
    end.

Definition get_resource (uri : string) : M (list ResourceContents) :=
  w <- get_world ;;
  if negb (_connected w) then raise not_connected
  else
    contents <-
      session_request (ReqReadResource uri)
        (fun n => session_read_resource env n uri) ;;
    match contents with
    | [] => log_warning "No content read for resource URI" None ;; ret contents
    | _ :: _ => ret contents
    end.

Definition load_prompt (name : string) (arguments : json)
  : M (list PromptMessage) :=
  w <- get_world ;;
  if negb (_connected w) then raise not_connected
  else
    messages <-
      session_request (ReqGetPrompt name arguments)
        (fun n => session_get_prompt env n name arguments) ;;
    match messages with
    | [] => log_warning "No prompt found for prompt" None ;; ret messages
    | _ :: _ => ret messages
    end.

Definition get_available_resources : M (list Resource) :=
  w <- get_world ;;
  if negb (_connected w) then raise not_connected
  else
    resources <- session_request ReqListResources (session_list_resources env) ;;
    match resources with
    | [] => log_warning "No resources found on server" None ;; ret resources
    | _ :: _ => ret resources
    end.

Definition get_available_tools : M (list ToolParam) :=
  w <- get_world ;;
  if negb (_connected w) then raise not_connected
  else
    tools <- session_request ReqListTools (session_list_tools env) ;;
    let available_tools :=
      map (fun tool => {| tp_name := tool_name tool;
                          tp_description := tool_description tool;
                          tp_input_schema := tool_inputSchema tool |}) tools in
    match tools with
    | [] => log_warning "No tools found on server" None ;; ret available_tools
    | _ :: _ => ret available_tools
    end.

Definition get_available_prompts : M (list Prompt) :=
  w <- get_world ;;
  if negb (_connected w) then raise not_connected
  else
    prompts <- session_request ReqListPrompts (session_list_prompts env) ;;
    match prompts with
    | [] => log_warning "No prompts found on server" None ;; ret prompts
    | _ :: _ => ret prompts
    end.

(** [disconnect].  The exit stack is an object, hence true, and the
    branch is always taken: the stack is closed, and the flag is reset
    behind it, so that an exception of the closing leaves the flag as it
    was. *)
Definition disconnect : M unit :=
  lift (exit_stack_aclose env) ;;
  modify (set_connected false).

End WithEnv.
End MCPClient.

(** ** Dynamic operations of Python on decoded JSON *)

(** The key a value is looked up by in a [dict] with [str] keys: the
    string itself; no key for another hashable value, which equals no
    string; [TypeError] for a [list] or a [dict], which are unhashable. *)
Definition py_key (x : json) : exn + option string :=
  match x with
  | JString s => inr (Some s)
  | JArray _ => inl TypeError
  | JObject _ => inl TypeError
  | JNull => inr None
  | JBool _ => inr None
  | JNumber _ => inr None
  end.

(** [x in d] *)
Definition py_in {V : Type} (x : json) (d : Dict.dict V) : exn + bool :=
  match py_key x with
  | inl e => inl e
  | inr (Some s) => inr (Dict.mem s d)
  | inr None => inr false
  end.

(** [p[key]] for a [str] key: [KeyError] when a [dict] lacks it,
    [TypeError] when [p] is no [dict]. *)
Definition py_getitem (p : json) (key : string) : exn + json :=
  match p with
  | JObject members =>
      match Dict.get key members with
      | Some v => inr v
      | None => inl (KeyError key)
      end
  | _ => inl TypeError
  end.

(** [for x in v]: the items of a [list], the keys of a [dict], the
    characters of a [str]; [TypeError] otherwise. *)
Definition py_iter (v : json) : exn + list json :=
  match v with
  | JArray items => inr items
  | JObject members => inr (map JString (Dict.keys members))
  | JString s => inr (map JString (PyStr.chars s))
  | _ => inl TypeError
  end.

(** [[x for x in l if cond(x)]] where [cond] may raise. *)
Fixpoint filter_comp {A : Type} (cond : A -> exn + bool) (l : list A)
  : exn + list A :=
  match l with
  | [] => inr []
  | x :: r =>
      match cond x with
      | inl e => inl e
      | inr b =>
          match filter_comp cond r with
          | inl e => inl e
          | inr r' => inr (if b then x :: r' else r')
          end
      end
  end.

(** [json.loads(text)], raising. *)
Definition json_loads (text : string) : exn + json :=
  match Json.loads text with
  | Some v => inr v
  | None => inl JSONDecodeError
  end.

(** [response.content[0].text] *)
Definition content_0_text (response : Response) : exn + string :=
  match response_content response with
  | [] => inl IndexError
  | TextBlock text :: _ => inr text
  | _ :: _ => inl AttributeError
  end.

(** ** [agent.py]: class [Agent] *)
Module Agent.
Section WithEnv.

Variable env : Env.

(** [self.anthropic_client.messages.create] on the arguments: the request is
    logged, and the oracle answers. *)
Definition messages_create (args : CreateArgs) : M Response :=
  w <- get_world ;;
  modify (set_llm_calls (llm_calls w ++ [args])) ;;
  lift (llm env (length (llm_calls w)) args).

(** The request of a selection. *)
Definition selection_args (selection_prompt : MessageContent) : CreateArgs :=
  {| max_tokens := 200;
     messages := [ {| role := "user"; content := selection_prompt |} ];
     model := "claude-sonnet-4-0";
     tools := None; tool_choice := None; system := None |}.

(** The text between the first ["["] and the last ["]"], when both
    occur:
    [start = response_text.find("[")],
    [end = response_text.rfind("]") + 1],
    [json_part = response_text[start:end]]. *)
Definition json_part (response_text : string) : option string :=
  if PyStr.contains "[" response_text && PyStr.contains "]" response_text then
    let start := PyStr.find "[" response_text in
    let end_ := (PyStr.rfind "]" response_text + 1)%Z in
    Some (PyStr.slice start end_ response_text)
  else None.

(** [resource.description or f"Resource: {name}"] *)
Definition description_or (name : string) (resource : Resource) : string :=
  match resource_description resource with
  | Some d => if String.eqb d "" then "Resource: " +++ name else d
  | None => "Resource: " +++ name
  end.

(** The [try] block of a selection returns [Some result] where the source
    returns from inside it, and [None] where control falls out of it. *)
Definition _select_resources (user_query : string) : M (list json) :=
  w <- get_world ;;
  if Dict.is_empty (available_resources w) then ret []
  else
    let resource_descriptions :=
      map (fun '(name, resource) => (name, description_or name resource))
          (available_resources w) in
    let selection_prompt :=
      ResourceSelectionPrompt user_query resource_descriptions in
    returned <-
      try_except
        (response <- messages_create (selection_args selection_prompt) ;;
         text <- lift (content_0_text response) ;;
         let response_text := PyStr.strip text in
         match json_part response_text with
         | Some part =>
             selected_resources <- lift (json_loads part) ;;
             items <- lift (py_iter selected_resources) ;;
             w' <- get_world ;;
             result <-
               lift (filter_comp (fun r => py_in r (available_resources w'))
                                 items) ;;
             ret (Some result)
         | None => ret None
         end)
        (fun e =>
           log_warning "Failed to select resources with LLM" (Some e) ;;
           ret None) ;;
    match returned with
    | Some result => ret result
    | None => ret []
    end.

(** The condition [p["name"] in self.available_prompts]. *)
Definition name_in {V : Type} (d : Dict.dict V) (p : json) : exn + bool :=
  match py_getitem p "name" with
  | inl e => inl e
  | inr name => py_in name d
  end.

Definition _select_prompts (user_query : string) : M (list json) :=
  w <- get_world ;;
  if Dict.is_empty (available_prompts w) then ret []
  else
    let prompts := Dict.values (available_prompts w) in
    let selection_prompt := PromptSelectionPrompt user_query prompts in
    returned <-
      try_except
        (response <- messages_create (selection_args selection_prompt) ;;
         text <- lift (content_0_text response) ;;
         let response_text := PyStr.strip text in
         match json_part response_text with
         | Some part =>
             selected_prompts <- lift (json_loads part) ;;
             items <- lift (py_iter selected_prompts) ;;
             w' <- get_world ;;
             result <-
               lift (filter_comp (name_in (available_prompts w')) items) ;;
             ret (Some result)
         | None => ret None
         end)
        (fun e =>
           log_warning "Failed to select prompts with LLM" (Some e) ;;
           ret None) ;;
    match returned with
    | Some result => ret result
    | None => ret []
    end.

Definition image_types : list string :=
  ["image/jpeg"; "image/png"; "image/gif"; "image/webp"].

(** [mimeType in [...]] *)
Definition is_image_type (mimeType : option string) : option string :=
  match mimeType with
  | Some m => if existsb (String.eqb m) image_types then Some m else None
  | None => None
  end.

(** [f"[Resource: {resource_name}]\n{content.text}"] *)
Definition resource_text (resource_name text : string) : string :=
  "[Resource: " +++ resource_name +++ "]" +++ LF +++ text.

(** The loop over the contents of one resource.  A text part and an
    image part append a block.  On any other part the warning that is to
    be printed reads [resource_contents.mimeType] off the list, which
    raises [AttributeError]: the loop is left, and the blocks appended so
    far stay in [context_messages]. *)
Fixpoint load_contents (resource_name : string)
  (resource_contents : list ResourceContents)
  (context_messages : list UserBlock) : list UserBlock * option exn :=
  match resource_contents with
  | [] => (context_messages, None)
  | TextResourceContents _ _ text :: rest =>
      load_contents resource_name rest
        (context_messages ++ [UText (resource_text resource_name text)])
  | BlobResourceContents _ mimeType blob :: rest =>
      match is_image_type mimeType with
      | Some m =>
          load_contents resource_name rest (context_messages ++ [UImage m blob])
      | None => (context_messages, Some AttributeError)
      end
  end.

(** The body of the [for] loop of [_load_selected_resources], for a name
    that is in the catalog: an exception of the fetch or of the loop
    over the contents is swallowed. *)
Definition load_resource (resource_name : string)
  (context_messages : list UserBlock) : M (list UserBlock) :=
  print ("LLM selected resource: " +++ resource_name) ;;
  try_except
    (w <- get_world ;;
     match Dict.get resource_name (available_resources w) with
     | None => raise (KeyError resource_name)
     | Some resource =>
         resource_contents <-
           MCPClient.get_resource env (resource_uri resource) ;;
         ret (fst (load_contents resource_name resource_contents
                                 context_messages))
     end)
    (fun _ => ret context_messages).

Fixpoint load_resources_from (resource_names : list json)
  (context_messages : list UserBlock) : M (list UserBlock) :=
  match resource_names with
  | [] => ret context_messages
  | resource_name :: rest =>
      w <- get_world ;;
      key <- lift (py_key resource_name) ;;
      match key with
      | Some name =>
          if Dict.mem name (available_resources w) then
            context_messages' <- load_resource name context_messages ;;
            load_resources_from rest context_messages'
          else load_resources_from rest context_messages
      | None => load_resources_from rest context_messages
      end
  end.

Definition _load_selected_resources (resource_names : list json)
  : M (list UserBlock) :=
  load_resources_from resource_names [].

(** What one rendered message adds to [prompt_text]. *)
Definition message_text (message : PromptMessage) : string :=
  match pm_content message with
  | PromptText text => text +++ LF
  | PromptStr s => s +++ LF
  | PromptOther => ""
  end.

(** [f"[Prompt: {prompt['name']}]\n{prompt_text.strip()}"] *)
Definition prompt_block (name prompt_text : string) : string :=
  "[Prompt: " +++ name +++ "]" +++ LF +++ PyStr.strip prompt_text.

(** The body of the [for] loop of [_load_selected_prompts], for a
    selection whose name is in the catalog. *)
Definition load_prompt_block (prompt : json) (name : string)
  (system_instructions : list string) : M (list string) :=
  try_except
    (arguments <- lift (py_getitem prompt "arguments") ;;
     prompt_content <- MCPClient.load_prompt env name arguments ;;
     let prompt_text := String.concat "" (map message_text prompt_content) in
     if String.eqb (PyStr.strip prompt_text) "" then ret system_instructions
     else ret (system_instructions ++ [prompt_block name prompt_text]))
    (fun _ => ret system_instructions).

Fixpoint load_prompts_from (prompts : list json)
  (system_instructions : list string) : M (list string) :=
  match prompts with
  | [] => ret system_instructions
  | prompt :: rest =>
      w <- get_world ;;
      name <- lift (py_getitem prompt "name") ;;
      key <- lift (py_key name) ;;
      match key with
      | Some name =>
          if Dict.mem name (available_prompts w) then
            system_instructions' <-
              load_prompt_block prompt name system_instructions ;;
            load_prompts_from rest system_instructions'
          else load_prompts_from rest system_instructions
      | None => load_prompts_from rest system_instructions
      end
  end.

Definition _load_selected_prompts (prompts : list json) : M string :=
  system_instructions <- load_prompts_from prompts [] ;;
  ret (PyStr.join (LF +++ LF) system_instructions).

Definition _refresh : M unit :=
  available_resources <- MCPClient.get_available_resources env ;;
  modify (set_available_resources
            (Dict.of_list resource_name available_resources)) ;;
  available_prompts <- MCPClient.get_available_prompts env ;;
  modify (set_available_prompts (Dict.of_list prompt_name available_prompts)).

(** [block.type == "tool_use"] *)
Definition is_tool_use (block : ContentBlock) : bool :=
  match block with
  | ToolUseBlock _ _ _ => true
  | _ => false
  end.

(** [f"..."] of one executed request:
    [{"type": "tool_result", "tool_use_id": ..., "content": ...}]. *)
Definition tool_result_block (id : string) (tool_result : list string)
  : UserBlock :=
  UToolResult id (PyStr.join LF tool_result).

(** The [for] loop over [tool_use_blocks]; a block that is no tool use
    has no [name]. *)
Fixpoint execute_tools (tool_use_blocks : list ContentBlock)
  (tool_results : list UserBlock) : M (list UserBlock) :=
  match tool_use_blocks with
  | [] => ret tool_results
  | ToolUseBlock id name input :: rest =>
      tool_result <- MCPClient.use_tool env name input ;;
      execute_tools rest (tool_results ++ [tool_result_block id tool_result])
  | _ :: _ => raise AttributeError
  end.

(** [[content.text for content in ... if hasattr(content, "text") and
    content.text.strip()]] *)
Definition text_blocks (blocks : list ContentBlock) : list string :=
  flat_map (fun block =>
              match block with
              | TextBlock text =>
                  if String.eqb (PyStr.strip text) "" then [] else [text]
              | _ => []
              end) blocks.

Definition no_text_response : string := "Assistant: [No text response available]".

(** How an iteration of the tool use loop ends, with the conversation as
    it is then: [continue] or [break]. *)
Inductive LoopControl : Type :=
| Continue (conversation_messages : list Message)
| Break (conversation_messages : list Message).

Definition create_message_args (available_tools : list ToolParam)
  (system_instructions : string) (conversation_messages : list Message)
  : CreateArgs :=
  {| max_tokens := 4096;
     messages := conversation_messages;
     model := "claude-sonnet-4-0";
     tools := Some available_tools;
     tool_choice := Some "auto";
     system := if String.eqb system_instructions "" then None
               else Some system_instructions |}.

(** One iteration of the tool use loop. *)
Definition tool_loop_body (available_tools : list ToolParam)
  (system_instructions : string) (conversation_messages : list Message)
  : M LoopControl :=
  current_response <-
    messages_create (create_message_args available_tools system_instructions
                                         conversation_messages) ;;
  let conversation_messages :=
    conversation_messages
    ++ [ {| role := "assistant";
            content := AssistantContent (response_content current_response) |} ] in
  if String.eqb (stop_reason current_response) "tool_use" then
    let tool_use_blocks :=
      filter is_tool_use (response_content current_response) in
    tool_results <- execute_tools tool_use_blocks [] ;;
    ret (Continue (conversation_messages
                   ++ [ {| role := "user";
                           content := UserContent tool_results |} ]))
  else
    match text_blocks (response_content current_response) with
    | text :: _ => print ("Assistant: " +++ text)
    | [] => print no_text_response
    end ;;
    ret (Break conversation_messages).

(** The tool use loop, at most [turns] iterations; the conversation at
    the exit is returned. *)
Fixpoint tool_use_loop (turns : nat) (available_tools : list ToolParam)
  (system_instructions : string) (conversation_messages : list Message)
  : M (list Message) :=
  match turns with
  | O => timeout
  | S turns' =>
      control <- tool_loop_body available_tools system_instructions
                                conversation_messages ;;
      match control with
      | Continue conversation_messages' =>
          tool_use_loop turns' available_tools system_instructions
                        conversation_messages'
      | Break conversation_messages' => ret conversation_messages'
      end
  end.

(** Steps 1 to 5 of a query cycle: the system instructions and the
    initial conversation. *)
Definition build_conversation (prompt : string) : M (string * list Message) :=
  selected_resource_names <- _select_resources prompt ;;
  selected_prompt_names <- _select_prompts prompt ;;
  context_messages <- _load_selected_resources selected_resource_names ;;
  system_instructions <- _load_selected_prompts selected_prompt_names ;;
  let user_content := [UText prompt] ++ context_messages in
  let conversation_messages :=
    [ {| role := "user"; content := UserContent user_content |} ] in
  ret (system_instructions, conversation_messages).

(** A query cycle: the body of the session loop for an input that is no
    command. *)
Definition query_cycle (turns : nat) (available_tools : list ToolParam)
  (prompt : string) : M (list Message) :=
  built <- build_conversation prompt ;;
  tool_use_loop turns available_tools (fst built) (snd built).

(** The session loop, at most [fuel] inputs. *)
Fixpoint session_loop (turns fuel : nat) (available_tools : list ToolParam)
  : M unit :=
  match fuel with
  | O => timeout
  | S fuel' =>
      prompt <- input "You: " ;;
      if String.eqb (PyStr.lower prompt) "goodbye" then
        print "AI Assistant: Goodbye!"
      else if String.eqb (PyStr.lower prompt) "refresh" then
        _refresh ;;
        session_loop turns fuel' available_tools
      else
        query_cycle turns available_tools prompt ;;
        session_loop turns fuel' available_tools
  end.

Definition welcome : string :=
  "Welcome to your AI Assistant. Type 'goodbye' to quit or 'refresh' to reload and redisplay available resources.".

(** The start of [run], up to the session loop: the tools are listed
    once and the catalogs are loaded. *)
Definition startup : M (list ToolParam) :=
  print welcome ;;
  MCPClient.connect env ;;
  available_tools <- MCPClient.get_available_tools env ;;
  _refresh ;;
  w <- get_world ;;
  print ("Loaded " +++ PyStr.of_nat (length (available_resources w))
         +++ " resources and "
         +++ PyStr.of_nat (length (available_prompts w)) +++ " prompts") ;;
  ret available_tools.

Definition run (turns fuel : nat) : M unit :=
  try_finally
    (available_tools <- startup ;;
     session_loop turns fuel available_tools)
    (MCPClient.disconnect env).

End WithEnv.
End Agent.

(** The state of a program that has just built its [Agent]. *)
Definition initial_world (lines : list string) : World :=
  {| available_resources := Dict.empty; available_prompts := Dict.empty;
     _connected := false; llm_calls := []; mcp_log := [];
     stdin := lines; stdout := []; warnings := [] |}.

(** The array an LLM reply proposes to a selection: the items of the
    decoded bracketed part, when the reply starts with a text block whose
    bracketed part decodes. *)
Definition proposed (reply : exn + Response) : option (list json) :=
  match reply with
  | inl _ => None
  | inr response =>
      match content_0_text response with
      | inl _ => None
      | inr text =>
          match Agent.json_part (PyStr.strip text) with
          | None => None
          | Some part =>
              match Json.loads part with
              | Some (JArray items) => Some items
              | _ => None
              end
          end
      end
  end.

(** A reply text that is not parseable as a JSON array: it lacks a
    bracket, or its bracketed part does not decode. *)
Definition unparseable (text : string) : Prop :=
  match Agent.json_part (PyStr.strip text) with
  | None => True
  | Some part => Json.loads part = None
  end.

(** The requests the two selections send. *)
Definition resource_request (user_query : string) (w : World) : CreateArgs :=
  Agent.selection_args
    (ResourceSelectionPrompt user_query
       (map (fun '(name, resource) => (name, Agent.description_or name resource))
            (available_resources w))).

Definition prompt_request (user_query : string) (w : World) : CreateArgs :=
  Agent.selection_args
    (PromptSelectionPrompt user_query (Dict.values (available_prompts w))).

(** A proposed item that names a resource of the catalog. *)
Definition names_resource (w : World) (r : json) : bool :=
  match r with
  | JString n => Dict.mem n (available_resources w)
  | _ => false
  end.

(** A proposed object whose [name] is that of a prompt of the catalog. *)
Definition names_prompt (w : World) (p : json) : bool :=
  match p with
  | JObject members =>
      match Dict.get "name" members with
      | Some (JString n) => Dict.mem n (available_prompts w)
      | _ => false
      end
  | _ => false
  end.

(** A value that can be looked up in a [dict]: neither a [list] nor a
    [dict]. *)
Definition hashable (x : json) : bool :=
  match py_key x with
  | inr _ => true
  | inl _ => false
  end.

(** A decoded selection object on which [p["name"] in ...] can be
    evaluated: a [dict] with the key [name], at a hashable value. *)
Definition has_name (p : json) : bool :=
  match py_getitem p "name" with
  | inr name => hashable name
  | inl _ => false
  end.

(** A decoded selection object that lacks the key [name]. *)
Definition lacks_name (p : json) : bool :=
  match p with
  | JObject members =>
      match Dict.get "name" members with
      | Some _ => false
      | None => true
      end
  | _ => false
  end.

(** A content part for which [_load_selected_resources] has a block: a
    text part, or a blob of a recognised image type. *)
Definition loadable (c : ResourceContents) : bool :=
  match c with
  | TextResourceContents _ _ _ => true
  | BlobResourceContents _ mimeType _ =>
      match Agent.is_image_type mimeType with
      | Some _ => true
      | None => false
      end
  end.

(** The ids of the tool invocation requests of a response, in the order
    of the response. *)
Definition tool_use_ids (blocks : list ContentBlock) : list string :=
  flat_map (fun block =>
              match block with
              | ToolUseBlock id _ _ => [id]
              | _ => []
              end) blocks.

(** The requests to the session that executing them makes. *)
Definition tool_requests (blocks : list ContentBlock) : list McpRequest :=
  flat_map (fun block =>
              match block with
              | ToolUseBlock _ name input => [ReqCallTool name input]
              | _ => []
              end) blocks.

(** The tool result blocks of given correlation ids and contents. *)
Definition tool_result_blocks (ids contents : list string) : list UserBlock :=
  map (fun '(id, c) => UToolResult id c) (combine ids contents).

(** The correlation id of each block of a user turn; [None] for a block
    that is no tool result. *)
Definition correlation_ids (blocks : list UserBlock) : list (option string) :=
  map (fun block =>
         match block with
         | UToolResult id _ => Some id
         | _ => None
         end) blocks.

(** A block that has no text, or whose text is whitespace only. *)
Definition blank (block : ContentBlock) : bool :=
  match block with
  | TextBlock text => String.eqb (PyStr.strip text) ""
  | _ => true
  end.

(** The assistant turn of a response, and a user turn of blocks. *)
Definition assistant_turn (response : Response) : Message :=
  {| role := "assistant";
     content := AssistantContent (response_content response) |}.

Definition user_turn (blocks : list UserBlock) : Message :=
  {| role := "user"; content := UserContent blocks |}.

(** [w'] differs from [w] by requests to the session and warnings at
    most. *)
Definition session_only (w w' : World) : Prop :=
  available_resources w' = available_resources w
  /\ available_prompts w' = available_prompts w
  /\ _connected w' = _connected w
  /\ llm_calls w' = llm_calls w
  /\ stdin w' = stdin w
  /\ stdout w' = stdout w.

(** A text block of the context comes from a text part fetched for a
    resource of the catalog. *)
Definition from_text_part (env : Env) (w : World) (name s : string) : Prop :=
  exists resource k contents uri mime text,
    Dict.get name (available_resources w) = Some resource
    /\ session_read_resource env k (resource_uri resource) = inr contents
    /\ In (TextResourceContents uri mime text) contents
    /\ s = "[Resource: " +++ name +++ "]" +++ LF +++ text.

(** ** A calculator server and scripted models, for concrete runs *)
Module Demo.

(** A text written with apostrophes for its double quotes. *)
Fixpoint json_text (s : string) : string :=
  match s with
  | EmptyString => EmptyString
  | String a r =>
      String (if PyStr.code a =? 39 then ascii_of_nat 34 else a) (json_text r)
  end.

Definition math_constants : Resource :=
  {| resource_name := "math-constants";
     resource_uri := "resource://math-constants";
     resource_description := Some "Mathematical constants" |}.

Definition step_by_step : Prompt :=
  {| prompt_name := "step-by-step-math";
     prompt_description := None;
     prompt_arguments := [] |}.

Definition add_tool : Tool :=
  {| tool_name := "add"; tool_description := Some "Add two numbers";
     tool_inputSchema := JObject [] |}.

(** A model that answers by a script: the n-th request gets the n-th
    reply, and requests beyond the script an API error. *)
Definition scripted (script : list (exn + Response))
  : nat -> CreateArgs -> exn + Response :=
  fun n _ => nth n script (inl (LibraryError "script exhausted")).

Definition says (text : string) : exn + Response :=
  inr {| stop_reason := "end_turn"; response_content := [TextBlock text] |}.

(** A server with one resource, one prompt and one tool; every request
    to it succeeds. *)
Definition server (model : nat -> CreateArgs -> exn + Response) : Env :=
  {| llm := model;
     stdio_client := inr tt;
     session_initialize := inr tt;
     session_list_tools := fun _ => inr [add_tool];
     session_list_resources := fun _ => inr [math_constants];
     session_list_prompts := fun _ => inr [step_by_step];
     session_call_tool := fun _ _ _ => inr [TextContent "4"];
     session_read_resource := fun _ _ =>
       inr [TextResourceContents "resource://math-constants" (Some "text/plain")
              "pi = 3.14159"];
     session_get_prompt := fun _ _ _ =>
       inr [ {| pm_role := "user"; pm_content := PromptText "Show each step." |} ];
     exit_stack_aclose := inr tt |}.

(** A server with no resource and no prompt. *)
Definition bare_server (model : nat -> CreateArgs -> exn + Response) : Env :=
  {| llm := model;
     stdio_client := inr tt;
     session_initialize := inr tt;
     session_list_tools := fun _ => inr [add_tool];
     session_list_resources := fun _ => inr [];
     session_list_prompts := fun _ => inr [];
     session_call_tool := fun _ _ _ => inr [TextContent "4"];
     session_read_resource := fun _ _ => inr [];
     session_get_prompt := fun _ _ _ => inr [];
     exit_stack_aclose := inr tt |}.

(** The state after a successful start on [server]. *)
Definition ready (lines : list string) : World :=
  {| available_resources := Dict.of_list resource_name [math_constants];
     available_prompts := Dict.of_list prompt_name [step_by_step];
     _connected := true; llm_calls := []; mcp_log := [];
     stdin := lines; stdout := []; warnings := [] |}.

(** A reply that wraps its array in prose and proposes a name that is in
    no catalog. *)
Definition hallucinating : Env :=
  server (scripted
    [says (json_text "Sure! ['ghost', 'math-constants', 7] should help.")]).

(** A reply whose array is cut off. *)
Definition truncated_text : string := json_text "['math-constants', 'ma]".

Definition truncating : Env := server (fun _ _ => says truncated_text).

(** A reply whose first object lacks its name and whose second object
    is well formed and names a prompt of the catalog. *)
Definition nameless : json := JObject [("arguments", JObject [])].

Definition well_formed : json :=
  JObject [("name", JString "step-by-step-math"); ("arguments", JObject [])].

Definition malformed_text : string :=
  (json_text "[{'arguments': {}}, {'name': 'step-by-step-math', 'arguments': {}}]").

Definition malformed : Env := server (fun _ _ => says malformed_text).

(** A response that requests three tool invocations, with text in
    between, and the final answer that follows. *)
Definition three_requests : Response :=
  {| stop_reason := "tool_use";
     response_content :=
       [TextBlock "Let me compute.";
        ToolUseBlock "A" "add" (JObject [("a", JNumber "1"); ("b", JNumber "1")]);
        TextBlock "and";
        ToolUseBlock "B" "add" (JObject [("a", JNumber "2"); ("b", JNumber "2")]);
        ToolUseBlock "C" "add" (JObject [("a", JNumber "3"); ("b", JNumber "1")])] |}.

Definition one_request : Response :=
  {| stop_reason := "tool_use";
     response_content :=
       [ToolUseBlock "A" "add" (JObject [("a", JNumber "2"); ("b", JNumber "2")])] |}.

Definition final_answer : Response :=
  {| stop_reason := "end_turn"; response_content := [TextBlock "4"] |}.

(** A final response without any text to show, and one whose first
    text is blank. *)
Definition silent : Response :=
  {| stop_reason := "end_turn";
     response_content := [TextBlock "  "; OtherBlock] |}.

Definition padded : Response :=
  {| stop_reason := "end_turn";
     response_content := [TextBlock " "; OtherBlock; TextBlock "4"; TextBlock "four"] |}.

Definition question : Message :=
  {| role := "user"; content := UserContent [UText "What is 2+2?"] |}.

(** A server whose catalog of resources has changed and whose listing of
    prompts fails. *)
Definition unit_factors : Resource :=
  {| resource_name := "unit-factors";
     resource_uri := "resource://unit-factors";
     resource_description := None |}.

Definition failing_prompts : Env :=
  {| llm := scripted [];
     stdio_client := inr tt;
     session_initialize := inr tt;
     session_list_tools := fun _ => inr [add_tool];
     session_list_resources := fun _ => inr [unit_factors];
     session_list_prompts := fun _ => inl (LibraryError "connection lost");
     session_call_tool := fun _ _ _ => inr [TextContent "4"];
     session_read_resource := fun _ _ => inr [];
     session_get_prompt := fun _ _ _ => inr [];
     exit_stack_aclose := inr tt |}.

(** A model whose API is down. *)
Definition overloaded : exn := LibraryError "overloaded".

Definition down : Env := bare_server (fun _ _ => inl overloaded).

End Demo.

(** ** Further notions, for the properties of the rest of the code *)

(** The requests to fetch the selected resources: one for each selected
    name that is in the catalog, by the uri of its resource. *)
Definition fetches (w : World) (names : list json) : list McpRequest :=
  flat_map (fun r =>
              match r with
              | JString name =>
                  match Dict.get name (available_resources w) with
                  | Some resource => [ReqReadResource (resource_uri resource)]
                  | None => []
                  end
              | _ => []
              end) names.

(** The blocks that a part of a fetched resource gives when the loop
    over the contents gets to it: the tagged text of a text part, the
    image of a blob of one of the image types, nothing otherwise. *)
Definition part_blocks (name : string) (c : ResourceContents)
  : list UserBlock :=
  match c with
  | TextResourceContents _ _ text => [UText (Agent.resource_text name text)]
  | BlobResourceContents _ mimeType blob =>
      match Agent.is_image_type mimeType with
      | Some m => [UImage m blob]
      | None => []
      end
  end.

(** The turns that the iterations of the tool use loop add before the
    last one: for each response that requested tools, its assistant
    turn and the user turn of the results. *)
Definition exchange_turns (steps : list (Response * list UserBlock))
  : list Message :=
  flat_map (fun '(response, results) =>
              [assistant_turn response; user_turn results]) steps.

(** A response that requested tools, with a result for each request. *)
Definition answered_request (step : Response * list UserBlock) : Prop :=
  stop_reason (fst step) = "tool_use"
  /\ correlation_ids (snd step)
     = map Some (tool_use_ids (response_content (fst step))).

(** [w'] differs from [w] by requests to the LLM and warnings at most. *)
Definition llm_only (w w' : World) : Prop :=
  available_resources w' = available_resources w
  /\ available_prompts w' = available_prompts w
  /\ _connected w' = _connected w
  /\ mcp_log w' = mcp_log w
  /\ stdin w' = stdin w
  /\ stdout w' = stdout w.

(** ** More servers, for concrete runs *)
Module Scenes.

(** A server process that cannot be started, and one whose session
    cannot be initialized. *)
Definition no_process : exn := LibraryError "cannot start the server".
Definition no_handshake : exn := LibraryError "initialize timed out".

Definition unstartable : Env :=
  {| llm := Demo.scripted [];
     stdio_client := inl no_process;
     session_initialize := inr tt;
     session_list_tools := fun _ => inr [];
     session_list_resources := fun _ => inr [];
     session_list_prompts := fun _ => inr [];
     session_call_tool := fun _ _ _ => inr [];
     session_read_resource := fun _ _ => inr [];
     session_get_prompt := fun _ _ _ => inr [];
     exit_stack_aclose := inr tt |}.

Definition uninitialized : Env :=
  {| llm := Demo.scripted [];
     stdio_client := inr tt;
     session_initialize := inl no_handshake;
     session_list_tools := fun _ => inr [];
     session_list_resources := fun _ => inr [];
     session_list_prompts := fun _ => inr [];
     session_call_tool := fun _ _ _ => inr [];
     session_read_resource := fun _ _ => inr [];
     session_get_prompt := fun _ _ _ => inr [];
     exit_stack_aclose := inr tt |}.

(** A server that lists two resources of one name. *)
Definition first_pi : Resource :=
  {| resource_name := "pi"; resource_uri := "resource://pi/short";
     resource_description := None |}.

Definition second_pi : Resource :=
  {| resource_name := "pi"; resource_uri := "resource://pi/long";
     resource_description := None |}.

Definition doubled : Env :=
  {| llm := Demo.scripted [];
     stdio_client := inr tt;
     session_initialize := inr tt;
     session_list_tools := fun _ => inr [];
     session_list_resources := fun _ => inr [first_pi; Demo.math_constants; second_pi];
     session_list_prompts := fun _ => inr [Demo.step_by_step];
     session_call_tool := fun _ _ _ => inr [];
     session_read_resource := fun _ _ => inr [];
     session_get_prompt := fun _ _ _ => inr [];
     exit_stack_aclose := inr tt |}.

(** A server whose second tool invocation fails, and one that cannot
    render a prompt. *)
Definition timed_out : exn := LibraryError "request timed out".

Definition flaky : Env :=
  {| llm := Demo.scripted [inr Demo.three_requests];
     stdio_client := inr tt;
     session_initialize := inr tt;
     session_list_tools := fun _ => inr [Demo.add_tool];
     session_list_resources := fun _ => inr [Demo.math_constants];
     session_list_prompts := fun _ => inr [Demo.step_by_step];
     session_call_tool := fun n _ _ =>
       if n =? 1 then inl timed_out else inr [TextContent "2"];
     session_read_resource := fun _ _ => inr [];
     session_get_prompt := fun _ _ _ => inl timed_out;
     exit_stack_aclose := inr tt |}.

(** A server whose resource has a text part, a picture, a document and
    another text part. *)
Definition mixed_contents : list ResourceContents :=
  [TextResourceContents "resource://math-constants" (Some "text/plain")
     "pi = 3.14159";
   BlobResourceContents "resource://math-constants" (Some "image/png")
     "iVBORw0KGgo=";
   BlobResourceContents "resource://math-constants" (Some "application/pdf")
     "JVBERi0xLjQ=";
   TextResourceContents "resource://math-constants" (Some "text/plain")
     "e = 2.71828"].

Definition mixed : Env :=
  {| llm := Demo.scripted [];
     stdio_client := inr tt;
     session_initialize := inr tt;
     session_list_tools := fun _ => inr [Demo.add_tool];
     session_list_resources := fun _ => inr [Demo.math_constants];
     session_list_prompts := fun _ => inr [Demo.step_by_step];
     session_call_tool := fun _ _ _ => inr [TextContent "4"];
     session_read_resource := fun _ _ => inr mixed_contents;
     session_get_prompt := fun _ _ _ => inr [];
     exit_stack_aclose := inr tt |}.

(** A server whose connection cannot be closed in order. *)
Definition broken_pipe : exn := LibraryError "broken pipe".

Definition unclosable : Env :=
  {| llm := Demo.scripted [];
     stdio_client := inr tt;
     session_initialize := inr tt;
     session_list_tools := fun _ => inr [Demo.add_tool];
     session_list_resources := fun _ => inr [Demo.math_constants];
     session_list_prompts := fun _ => inr [Demo.step_by_step];
     session_call_tool := fun _ _ _ => inr [TextContent "4"];
     session_read_resource := fun _ _ => inr [];
     session_get_prompt := fun _ _ _ => inr [];
     exit_stack_aclose := inl broken_pipe |}.

(** A model that asks for a tool in every response. *)
Definition insistent : Env := Demo.server (fun _ _ => inr Demo.one_request).

(** A connected client of a server without resources and prompts. *)
Definition bare : World := set_connected true (initial_world []).

(** Selections of the prompt of the catalog, with and without
    arguments. *)
Definition with_arguments : json :=
  JObject [("name", JString "step-by-step-math"); ("arguments", JObject [])].

Definition without_arguments : json :=
  JObject [("name", JString "step-by-step-math")].

End Scenes.

(** * Properties *)

(** ** The decoder on sample texts *)

Example loads_names :
  Json.loads (Demo.json_text "['math-constants', 'xé\n']")
  = Some (JArray [JString "math-constants";
                  JString (String "x" (String (ascii_of_nat 195)
                    (String (ascii_of_nat 169) (String (ascii_of_nat 10) ""))))]).
Proof. vm_compute. reflexivity. Qed.

Example loads_objects :
  Json.loads (Demo.json_text "[{'name': 'p', 'arguments': {'operation': 'addition'}}, 1.5e3, null]")
  = Some (JArray [JObject [("name", JString "p");
                           ("arguments", JObject [("operation", JString "addition")])];
                  JNumber "1.5e3"; JNull]).
Proof. vm_compute. reflexivity. Qed.

Example loads_truncated : Json.loads (Demo.json_text "['math-constants', 'ma]") = None.
Proof. vm_compute. reflexivity. Qed.

Example loads_trailing_comma : Json.loads "[1,]" = None.
Proof. vm_compute. reflexivity. Qed.

Example json_part_prose :
  Agent.json_part (Demo.json_text "Sure! Use ['a', 'b'] here.") = Some (Demo.json_text "['a', 'b']").
Proof. vm_compute. reflexivity. Qed.

Example json_part_reversed : Agent.json_part "] then [" = Some "".
Proof. vm_compute. reflexivity. Qed.

(** ** The bracketed part of a reply *)

Lemma parse_array_is_array (fuel : nat) :
  forall s acc v t,
    Json.parse_array fuel s acc = Some (v, t) -> exists items, v = JArray items.
Proof.
  induction fuel as [|f IH]; intros s acc v t; cbn [Json.parse_array];
    [discriminate|].
  destruct (Json.scan_once f s) as [[x r]|]; [|discriminate].
  destruct (Json.skip_ws r) as [|b u]; [discriminate|].
  destruct (PyStr.code b =? 93).
  - intros H; inversion H; eauto.
  - destruct (PyStr.code b =? 44); [apply IH|discriminate].
Qed.

Lemma loads_bracket_is_array (r : string) (v : json) :
  Json.loads (String "[" r) = Some v -> exists items, v = JArray items.
Proof.
  unfold Json.loads. cbn [Json.skip_ws Json.is_ws].
  change (Json.is_ws "[") with false. cbv iota.
  remember (2 * String.length (String "[" r) + 2) as fuel eqn:F.
  destruct fuel as [|f]; [cbn in F; lia|].
  cbn [Json.scan_once].
  change (PyStr.code "[" =? 34) with false.
  change (PyStr.code "[" =? 123) with false.
  change (PyStr.code "[" =? 91) with true. cbv iota.
  destruct (Json.skip_ws r) as [|b t]; [discriminate|].
  destruct (PyStr.code b =? 93).
  - destruct (Json.skip_ws t); [|discriminate]. intros H; inversion H; eauto.
  - destruct (Json.parse_array f (String b t) []) as [[x u]|] eqn:P;
      [|discriminate].
    destruct (Json.skip_ws u); [|discriminate]. intros H; inversion H; subst.
    exact (parse_array_is_array _ _ _ _ _ P).
Qed.

Lemma substring_zero (s : string) (n : nat) : substring n 0 s = "".
Proof.
  revert n. induction s as [|a s IH]; intros [|n]; cbn; auto.
Qed.

Lemma find_from_spec (c : ascii) (s : string) :
  forall i, (0 <= i)%Z ->
    let k := PyStr.find_from c i s in
    k = (-1)%Z
    \/ ((i <= k < i + Z.of_nat (String.length s))%Z
        /\ forall n, exists r,
             substring (Z.to_nat (k - i)) (S n) s = String c r).
Proof.
  induction s as [|a s IH]; intros i Hi; cbn [PyStr.find_from]; [now left|].
  destruct (Ascii.eqb a c) eqn:E.
  - right. apply Ascii.eqb_eq in E. subst. split.
    + cbn [String.length]. lia.
    + intros n. rewrite Z.sub_diag. cbn. eauto.
  - destruct (IH (i + 1)%Z ltac:(lia)) as [H|[B H]]; [now left|].
    right. split.
    + cbn [String.length]. lia.
    + intros n. destruct (H n) as [r Hr].
      replace (Z.to_nat (PyStr.find_from c (i + 1) s - i))
        with (S (Z.to_nat (PyStr.find_from c (i + 1) s - (i + 1)))) by lia.
      cbn [substring]. eauto.
Qed.

Lemma json_part_shape (text part : string) :
  Agent.json_part text = Some part ->
  part = "" \/ exists r, part = String "[" r.
Proof.
  unfold Agent.json_part.
  destruct (PyStr.contains "[" text) eqn:C; [|discriminate]. cbn [andb].
  destruct (PyStr.contains "]" text); [|discriminate].
  intros H; inversion H; clear H. unfold PyStr.slice.
  unfold PyStr.contains, PyStr.find in *. apply Z.leb_le in C.
  destruct (find_from_spec "[" text 0%Z ltac:(lia)) as [F|[B F]];
    [cbv zeta in F; lia|].
  cbv zeta in B, F.
  set (k := PyStr.find_from "[" 0 text) in *.
  assert (A : PyStr.clamp (Z.of_nat (String.length text)) k = Z.to_nat (k - 0)).
  { unfold PyStr.clamp.
    destruct (k <? 0)%Z eqn:N; [apply Z.ltb_lt in N; lia|]. lia. }
  rewrite A.
  destruct (PyStr.clamp _ _ - Z.to_nat (k - 0)) as [|n].
  - left. apply substring_zero.
  - right. apply F.
Qed.

(** The bracketed part of a text decodes to an array or not at all. *)
Lemma bracketed_part_is_array (text part : string) (v : json) :
  Agent.json_part text = Some part ->
  Json.loads part = Some v ->
  exists items, v = JArray items.
Proof.
  intros P L. destruct (json_part_shape text part P) as [->|[r ->]].
  - discriminate L.
  - exact (loads_bracket_is_array r v L).
Qed.

(** Hence a reply that starts with a text block either proposes an array
    or is unparseable. *)
Lemma proposed_or_unparseable (response : Response) (text : string) :
  content_0_text response = inr text ->
  (exists items, proposed (inr response) = Some items) \/ unparseable text.
Proof.
  intros T. unfold proposed, unparseable. rewrite T.
  destruct (Agent.json_part (PyStr.strip text)) as [part|] eqn:P; [|now right].
  destruct (Json.loads part) as [v|] eqn:L; [|now right].
  destruct (bracketed_part_is_array _ _ _ P L) as [items ->]. left. eauto.
Qed.

(** ** List comprehensions whose condition may raise *)

Lemma filter_comp_inr {A : Type} (cond : A -> exn + bool) (l r : list A) :
  filter_comp cond l = inr r ->
  r = filter (fun x => match cond x with inr true => true | _ => false end) l.
Proof.
  revert r. induction l as [|x l IH]; cbn; intros r H.
  - now inversion H.
  - destruct (cond x) as [e|b]; [discriminate|].
    destruct (filter_comp cond l) as [e|r']; [discriminate|].
    inversion H; subst. rewrite (IH r' eq_refl). now destruct b.
Qed.

Lemma Forall_filter {A : Type} (f : A -> bool) (l : list A) :
  Forall (fun x => f x = true) (filter f l).
Proof. apply Forall_forall. intros x H. now apply filter_In in H. Qed.

Lemma py_in_names_resource (w : World) (r : json) :
  match py_in r (available_resources w) with inr true => true | _ => false end
  = names_resource w r.
Proof. destruct r; cbn; try reflexivity. now destruct (Dict.mem s _). Qed.

Lemma name_in_names_prompt (w : World) (p : json) :
  match Agent.name_in (available_prompts w) p with
  | inr true => true
  | _ => false
  end = names_prompt w p.
Proof.
  destruct p; cbn; try reflexivity. unfold Agent.name_in; cbn.
  destruct (Dict.get "name" members) as [v|]; [|reflexivity].
  destruct v; cbn; try reflexivity. now destruct (Dict.mem s _).
Qed.

(** Unfolding of the monad, up to the oracles. *)
Ltac run_monad :=
  cbv [bind get_world modify lift ret raise try_except Agent.messages_create
       log_warning json_loads print]; cbn.

(** The same, with the updates of the state unfolded to records. *)
Ltac run_world :=
  cbv [bind get_world modify lift ret raise try_except Agent.messages_create
       log_warning json_loads print set_stdout set_llm_calls set_mcp_log
       set_warnings set_stdin set_connected set_available_resources
       set_available_prompts]; cbn.

(** ** Context selection *)

Lemma filter_comp_forallb {A : Type} (cond : A -> exn + bool) (l : list A) :
  if forallb (fun x => match cond x with inr _ => true | inl _ => false end) l
  then filter_comp cond l
       = inr (filter (fun x => match cond x with inr true => true | _ => false end) l)
  else exists e, filter_comp cond l = inl e.
Proof.
  induction l as [|x l IH]; cbn; [reflexivity|].
  destruct (cond x) as [e|b]; cbn; [eauto|].
  destruct (forallb _ l).
  - rewrite IH. now destruct b.
  - destruct IH as [e ->]. eauto.
Qed.

Lemma forallb_pointwise {A : Type} (f g : A -> bool) (l : list A) :
  (forall x, f x = g x) -> forallb f l = forallb g l.
Proof. intros H. induction l as [|x l IH]; cbn; [reflexivity|]. now rewrite H, IH. Qed.

Lemma py_in_hashable {V : Type} (d : Dict.dict V) (r : json) :
  match py_in r d with inr _ => true | inl _ => false end = hashable r.
Proof. now destruct r. Qed.

Lemma name_in_has_name {V : Type} (d : Dict.dict V) (p : json) :
  match Agent.name_in d p with inr _ => true | inl _ => false end = has_name p.
Proof.
  unfold Agent.name_in, has_name. destruct (py_getitem p "name") as [e|v];
    [reflexivity|]. now destruct v.
Qed.

Lemma proposed_items (reply : exn + Response) (items : list json) :
  proposed reply = Some items ->
  exists response text part,
    reply = inr response /\ content_0_text response = inr text
    /\ Agent.json_part (PyStr.strip text) = Some part
    /\ Json.loads part = Some (JArray items).
Proof.
  unfold proposed. destruct reply as [e|response]; [discriminate|].
  destruct (content_0_text response) as [e|text] eqn:Ht; [discriminate|].
  destruct (Agent.json_part (PyStr.strip text)) as [part|] eqn:Hp;
    [|discriminate].
  destruct (Json.loads part) as [v|] eqn:Hl; [|discriminate].
  destruct v; try discriminate. intros H; inversion H; subst.
  exists response, text, part. repeat split; auto.
Qed.

(** Every path through [_select_resources] returns, with names of the
    catalog only. *)
Lemma select_resources_sound (env : Env) (q : string) (w : World) :
  exists l w',
    Agent._select_resources env q w = (Ret l, w')
    /\ Forall (fun r => names_resource w r = true) l.
Proof.
  unfold Agent._select_resources. run_monad.
  destruct (Dict.is_empty (available_resources w)) eqn:E.
  { exists [], w. split; auto. }
  cbn. destruct (llm env _ _) as [e|response]; cbn.
  { eexists _, _. split; auto. }
  destruct (content_0_text response) as [e|text]; cbn.
  { eexists _, _. split; auto. }
  destruct (Agent.json_part (PyStr.strip text)) as [part|]; cbn.
  2:{ eexists _, _. split; auto. }
  destruct (Json.loads part) as [v|]; cbn.
  2:{ eexists _, _. split; auto. }
  destruct (py_iter v) as [e|items] eqn:Hv; cbn.
  { eexists _, _. split; auto. }
  destruct (filter_comp _ items) as [e|result] eqn:Hf; cbn.
  { eexists _, _. split; auto. }
  apply filter_comp_inr in Hf.
  rewrite (filter_ext _ _ (py_in_names_resource w)) in Hf. subst result.
  eexists _, _. split; [reflexivity|apply Forall_filter].
Qed.

(** What [_select_resources] returns on a reply that proposes [items]. *)
Lemma select_resources_proposed (env : Env) (q : string) (w : World)
  (items : list json) :
  Dict.is_empty (available_resources w) = false ->
  proposed (llm env (length (llm_calls w)) (resource_request q w)) = Some items ->
  exists w',
    Agent._select_resources env q w
    = (Ret (if forallb hashable items
            then filter (names_resource w) items else []), w').
Proof.
  intros E H. apply proposed_items in H.
  destruct H as (response & text & part & Hr & Ht & Hp & Hl).
  unfold resource_request in Hr.
  unfold Agent._select_resources. run_monad. rewrite E. cbn.
  rewrite Hr. cbn. rewrite Ht. cbn. rewrite Hp. cbn. rewrite Hl. cbn.
  pose proof (filter_comp_forallb
                (fun r => py_in r (available_resources w)) items) as F.
  cbv beta in F.
  rewrite (forallb_pointwise _ _ items (py_in_hashable (available_resources w))) in F.
  rewrite (filter_ext _ _ (py_in_names_resource w)) in F.
  destruct (forallb hashable items).
  - rewrite F. cbn. eauto.
  - destruct F as [e ->]. cbn. eauto.
Qed.

Lemma select_prompts_sound (env : Env) (q : string) (w : World) :
  exists l w',
    Agent._select_prompts env q w = (Ret l, w')
    /\ Forall (fun p => names_prompt w p = true) l.
Proof.
  unfold Agent._select_prompts. run_monad.
  destruct (Dict.is_empty (available_prompts w)) eqn:E.
  { exists [], w. split; auto. }
  cbn. destruct (llm env _ _) as [e|response]; cbn.
  { eexists _, _. split; auto. }
  destruct (content_0_text response) as [e|text]; cbn.
  { eexists _, _. split; auto. }
  destruct (Agent.json_part (PyStr.strip text)) as [part|]; cbn.
  2:{ eexists _, _. split; auto. }
  destruct (Json.loads part) as [v|]; cbn.
  2:{ eexists _, _. split; auto. }
  destruct (py_iter v) as [e|items] eqn:Hv; cbn.
  { eexists _, _. split; auto. }
  destruct (filter_comp _ items) as [e|result] eqn:Hf; cbn.
  { eexists _, _. split; auto. }
  apply filter_comp_inr in Hf.
  rewrite (filter_ext _ _ (name_in_names_prompt w)) in Hf. subst result.
  eexists _, _. split; [reflexivity|apply Forall_filter].
Qed.

(** What [_select_prompts] returns on a reply that proposes [items]: the
    filtered objects, or nothing at all when the condition raised, with
    the exception logged. *)
Lemma select_prompts_proposed (env : Env) (q : string) (w : World)
  (items : list json) :
  Dict.is_empty (available_prompts w) = false ->
  proposed (llm env (length (llm_calls w)) (prompt_request q w)) = Some items ->
  let w1 := set_llm_calls (llm_calls w ++ [prompt_request q w]) w in
  if forallb has_name items
  then Agent._select_prompts env q w
       = (Ret (filter (names_prompt w) items), w1)
  else exists e,
         Agent._select_prompts env q w
         = (Ret [], set_warnings
                      (warnings w
                       ++ [("Failed to select prompts with LLM", Some e)]) w1).
Proof.
  intros E H. apply proposed_items in H.
  destruct H as (response & text & part & Hr & Ht & Hp & Hl).
  unfold prompt_request in *.
  unfold Agent._select_prompts. run_monad. rewrite E. cbn.
  rewrite Hr. cbn. rewrite Ht. cbn. rewrite Hp. cbn. rewrite Hl. cbn.
  pose proof (filter_comp_forallb
                (Agent.name_in (available_prompts w)) items) as F.
  cbv beta in F.
  rewrite (forallb_pointwise _ _ items (name_in_has_name (available_prompts w))) in F.
  rewrite (filter_ext _ _ (name_in_names_prompt w)) in F.
  destruct (forallb has_name items).
  - rewrite F. reflexivity.
  - destruct F as [e ->]. cbn. eauto.
Qed.

Lemma select_resources_empty (env : Env) (q : string) (w : World) :
  Dict.is_empty (available_resources w) = true ->
  Agent._select_resources env q w = (Ret [], w).
Proof. intros E. unfold Agent._select_resources. run_monad. now rewrite E. Qed.

Lemma select_prompts_empty (env : Env) (q : string) (w : World) :
  Dict.is_empty (available_prompts w) = true ->
  Agent._select_prompts env q w = (Ret [], w).
Proof. intros E. unfold Agent._select_prompts. run_monad. now rewrite E. Qed.

Lemma filter_names_resource_empty (w : World) (items : list json) :
  Dict.is_empty (available_resources w) = true ->
  filter (names_resource w) items = [].
Proof.
  intros E. destruct (available_resources w) eqn:C; [|discriminate].
  induction items as [|x items IH]; cbn; [reflexivity|].
  unfold names_resource at 1. rewrite C. now destruct x.
Qed.

Lemma filter_names_prompt_empty (w : World) (items : list json) :
  Dict.is_empty (available_prompts w) = true ->
  filter (names_prompt w) items = [].
Proof.
  intros E. destruct (available_prompts w) eqn:C; [|discriminate].
  induction items as [|x items IH]; cbn; [reflexivity|].
  unfold names_prompt at 1. rewrite C.
  destruct x; try assumption.
  destruct (Dict.get "name" members) as [v|]; [|assumption].
  now destruct v.
Qed.

(** C3.  Whatever the catalog, the query and the reply of the LLM,
    [_select_resources] returns, and every element of the list it
    returns is the name of a resource of the catalog; when the reply
    proposes the array [items], the list is [items] filtered to these
    names, in the order of [items] (and it is empty when an item is a
    list or an object).  [_select_prompts] filters in the same way the
    proposed objects whose [name] is that of a prompt of the catalog
    (and returns nothing when the [name] of an object cannot be
    looked up). *)
Theorem selection_within_catalog (env : Env) (q : string) (w : World) :
  (exists l w',
     Agent._select_resources env q w = (Ret l, w')
     /\ Forall (fun r => names_resource w r = true) l
     /\ (forall items,
           proposed (llm env (length (llm_calls w)) (resource_request q w))
           = Some items ->
           l = if forallb hashable items
               then filter (names_resource w) items else []))
  /\
  (exists l w',
     Agent._select_prompts env q w = (Ret l, w')
     /\ Forall (fun p => names_prompt w p = true) l
     /\ (forall items,
           proposed (llm env (length (llm_calls w)) (prompt_request q w))
           = Some items ->
           l = if forallb has_name items
               then filter (names_prompt w) items else [])).
Proof.
  split.
  - destruct (select_resources_sound env q w) as (l & w' & H & F).
    exists l, w'. split; [exact H|]. split; [exact F|].
    intros items P.
    destruct (Dict.is_empty (available_resources w)) eqn:E.
    + rewrite (select_resources_empty env q w E) in H.
      rewrite (filter_names_resource_empty w items E).
      inversion H. now destruct (forallb hashable items).
    + destruct (select_resources_proposed env q w items E P) as [w'' H'].
      rewrite H in H'. now inversion H'.
  - destruct (select_prompts_sound env q w) as (l & w' & H & F).
    exists l, w'. split; [exact H|]. split; [exact F|].
    intros items P.
    destruct (Dict.is_empty (available_prompts w)) eqn:E.
    + rewrite (select_prompts_empty env q w E) in H.
      rewrite (filter_names_prompt_empty w items E).
      inversion H. now destruct (forallb has_name items).
    + pose proof (select_prompts_proposed env q w items E P) as H'.
      cbv zeta in H'. destruct (forallb has_name items).
      * rewrite H in H'. now inversion H'.
      * destruct H' as [e H']. rewrite H in H'. now inversion H'.
Qed.

Lemma selection_within_catalog_witness :
  exists w',
    Agent._select_resources Demo.hallucinating "What is pi?" (Demo.ready [])
    = (Ret [JString "math-constants"], w').
Proof.
  destruct (selection_within_catalog Demo.hallucinating "What is pi?" (Demo.ready []))
    as [(l & w' & H & _ & O) _].
  exists w'. rewrite H. f_equal. f_equal.
  apply (O [JString "ghost"; JString "math-constants"; JNumber "7"]).
  vm_compute. reflexivity.
Defined.

(** C8.  With an empty resource catalog [_select_resources] returns the
    empty list and leaves the state as it was: no request was made to
    the LLM.  Likewise [_select_prompts] with an empty prompt catalog. *)
Theorem empty_catalog_selects_nothing (env : Env) (q : string) (w : World) :
  (Dict.is_empty (available_resources w) = true ->
   Agent._select_resources env q w = (Ret [], w))
  /\ (Dict.is_empty (available_prompts w) = true ->
      Agent._select_prompts env q w = (Ret [], w)).
Proof.
  split; [apply select_resources_empty | apply select_prompts_empty].
Qed.

Lemma empty_catalog_selects_nothing_witness :
  Agent._select_resources Demo.hallucinating "What is 2+2?" (initial_world [])
  = (Ret [], initial_world [])
  /\ Agent._select_prompts Demo.hallucinating "What is 2+2?" (initial_world [])
     = (Ret [], initial_world [])
  /\ llm_calls (snd (Agent._select_resources Demo.hallucinating "What is 2+2?"
                       (initial_world []))) = [].
Proof.
  destruct (empty_catalog_selects_nothing Demo.hallucinating "What is 2+2?"
              (initial_world [])) as [R P].
  split; [apply R; reflexivity|].
  split; [apply P; reflexivity|].
  rewrite R; reflexivity.
Defined.

(** C7.  When the text of the reply is not parseable as a JSON array (it
    lacks a bracket, or its bracketed part does not decode), both
    [_select_resources] and [_select_prompts] return the empty list;
    they do not raise. *)
Theorem unparseable_reply_selects_nothing (env : Env) (q : string)
  (w : World) (response : Response) (text : string) :
  content_0_text response = inr text ->
  unparseable text ->
  (llm env (length (llm_calls w)) (resource_request q w) = inr response ->
   exists w', Agent._select_resources env q w = (Ret [], w'))
  /\ (llm env (length (llm_calls w)) (prompt_request q w) = inr response ->
      exists w', Agent._select_prompts env q w = (Ret [], w')).
Proof.
  intros Ht U. unfold unparseable in U. split; intros Hr.
  - unfold resource_request in Hr. unfold Agent._select_resources. run_monad.
    destruct (Dict.is_empty (available_resources w)); [eauto|].
    cbn. rewrite Hr. cbn. rewrite Ht. cbn.
    destruct (Agent.json_part (PyStr.strip text)) as [part|]; cbn; [|eauto].
    rewrite U. cbn. eauto.
  - unfold prompt_request in Hr. unfold Agent._select_prompts. run_monad.
    destruct (Dict.is_empty (available_prompts w)); [eauto|].
    cbn. rewrite Hr. cbn. rewrite Ht. cbn.
    destruct (Agent.json_part (PyStr.strip text)) as [part|]; cbn; [|eauto].
    rewrite U. cbn. eauto.
Qed.

Lemma unparseable_reply_selects_nothing_witness :
  (exists w',
     Agent._select_resources Demo.truncating "What is pi?" (Demo.ready [])
     = (Ret [], w'))
  /\ (exists w',
        Agent._select_prompts Demo.truncating "What is pi?" (Demo.ready [])
        = (Ret [], w')).
Proof.
  destruct (unparseable_reply_selects_nothing Demo.truncating "What is pi?"
              (Demo.ready [])
              {| stop_reason := "end_turn";
                 response_content := [TextBlock Demo.truncated_text] |}
              Demo.truncated_text) as [R P].
  - reflexivity.
  - vm_compute. reflexivity.
  - split; [apply R | apply P]; reflexivity.
Defined.

Example free_text_is_unparseable : unparseable "None of them are relevant.".
Proof. vm_compute. exact I. Qed.

(** A failed call of the LLM during a selection is swallowed as well. *)
Lemma select_resources_llm_failure (env : Env) (q : string) (w : World)
  (e : exn) :
  llm env (length (llm_calls w)) (resource_request q w) = inl e ->
  exists w', Agent._select_resources env q w = (Ret [], w').
Proof.
  intros Hr. unfold resource_request in Hr.
  unfold Agent._select_resources. run_monad.
  destruct (Dict.is_empty (available_resources w)); [eauto|].
  cbn. rewrite Hr. cbn. eauto.
Qed.

(** ** A selection object without a name *)

Lemma lacks_name_has_name (p : json) : lacks_name p = true -> has_name p = false.
Proof.
  destruct p; cbn; try discriminate. unfold has_name; cbn.
  now destruct (Dict.get "name" members).
Qed.

Lemma forallb_false_intro {A : Type} (f : A -> bool) (l : list A) (x : A) :
  In x l -> f x = false -> forallb f l = false.
Proof.
  intros Hin Hx. destruct (forallb f l) eqn:F; [|reflexivity].
  rewrite forallb_forall in F. rewrite (F x Hin) in Hx. discriminate.
Qed.

(** C6, as the code has it.  When one of the proposed objects lacks the
    key [name], the [KeyError] of the filter is caught inside
    [_select_prompts]: a warning is logged and the empty list is
    returned, so that no object of the reply is selected, and no
    exception reaches the caller. *)
Theorem nameless_object_empties_selection (env : Env) (q : string)
  (w : World) (items : list json) (p : json) :
  Dict.is_empty (available_prompts w) = false ->
  proposed (llm env (length (llm_calls w)) (prompt_request q w)) = Some items ->
  In p items ->
  lacks_name p = true ->
  exists e,
    Agent._select_prompts env q w
    = (Ret [],
       set_warnings
         (warnings w ++ [("Failed to select prompts with LLM", Some e)])
         (set_llm_calls (llm_calls w ++ [prompt_request q w]) w)).
Proof.
  intros E P Hin Hp.
  pose proof (select_prompts_proposed env q w items E P) as H. cbv zeta in H.
  rewrite (forallb_false_intro has_name items p Hin (lacks_name_has_name p Hp))
    in H.
  exact H.
Qed.

Lemma nameless_object_empties_selection_witness :
  exists e,
    Agent._select_prompts Demo.malformed "Add 2 and 2" (Demo.ready [])
    = (Ret [],
       set_warnings
         [("Failed to select prompts with LLM", Some e)]
         (set_llm_calls [prompt_request "Add 2 and 2" (Demo.ready [])]
                        (Demo.ready []))).
Proof.
  apply (nameless_object_empties_selection Demo.malformed "Add 2 and 2"
           (Demo.ready []) [Demo.nameless; Demo.well_formed] Demo.nameless).
  - reflexivity.
  - vm_compute. reflexivity.
  - left. reflexivity.
  - reflexivity.
Defined.

(** C6 fails as stated: the reply proposes an object without a name and
    a well-formed object that names a prompt of the catalog, and the
    well-formed object is not returned. *)
Lemma nameless_object_counterexample :
  proposed (llm Demo.malformed 0
              (prompt_request "Add 2 and 2" (Demo.ready [])))
  = Some [Demo.nameless; Demo.well_formed]
  /\ names_prompt (Demo.ready []) Demo.well_formed = true
  /\ fst (Agent._select_prompts Demo.malformed "Add 2 and 2" (Demo.ready []))
     = Ret []
  /\ ~ In Demo.well_formed [].
Proof.
  split; [vm_compute; reflexivity|].
  split; [vm_compute; reflexivity|].
  split; [vm_compute; reflexivity|].
  intros H; exact H.
Qed.

(** ** Loading resources *)

(** The loop over the contents only appends. *)
Lemma load_contents_extends (name : string) (contents : list ResourceContents)
  (acc : list UserBlock) :
  exists l, fst (Agent.load_contents name contents acc) = acc ++ l.
Proof.
  revert acc. induction contents as [|c contents IH]; intros acc;
    cbn [Agent.load_contents fst].
  - exists []. now rewrite app_nil_r.
  - destruct c as [u m t | u m b].
    + destruct (IH (acc ++ [UText (Agent.resource_text name t)])) as [l ->].
      rewrite <- app_assoc. eauto.
    + destruct (Agent.is_image_type m).
      * destruct (IH (acc ++ [UImage s b])) as [l ->].
        rewrite <- app_assoc. eauto.
      * exists []. cbn. now rewrite app_nil_r.
Qed.

Lemma get_mem {V : Type} (k : string) (d : Dict.dict V) (v : V) :
  Dict.get k d = Some v -> Dict.mem k d = true.
Proof. unfold Dict.mem. now intros ->. Qed.

(** Loading one selected resource of the catalog, on a session that
    answers: the blocks are those of the loop over the contents. *)
Lemma load_one_resource (env : Env) (w : World) (name : string)
  (resource : Resource) (contents : list ResourceContents) :
  _connected w = true ->
  Dict.get name (available_resources w) = Some resource ->
  session_read_resource env (length (mcp_log w)) (resource_uri resource)
  = inr contents ->
  exists w',
    Agent._load_selected_resources env [JString name] w
    = (Ret (fst (Agent.load_contents name contents [])), w').
Proof.
  intros C G R.
  unfold Agent._load_selected_resources, Agent.load_resources_from.
  run_world. rewrite (get_mem _ _ _ G).
  unfold Agent.load_resource, MCPClient.get_resource, MCPClient.session_request.
  run_world. rewrite G, C. cbn. rewrite R. cbn.
  destruct contents; cbn; eauto.
Qed.

(** Every text block that the loop over the contents adds is the tagged
    text of a text part. *)
Lemma load_contents_texts (name : string) (contents : list ResourceContents) :
  forall (acc : list UserBlock) (s : string),
    In (UText s) (fst (Agent.load_contents name contents acc)) ->
    In (UText s) acc
    \/ exists uri mime text,
         In (TextResourceContents uri mime text) contents
         /\ s = Agent.resource_text name text.
Proof.
  induction contents as [|c contents IH]; intros acc s;
    cbn [Agent.load_contents fst]; [now left|].
  destruct c as [u m t | u m b].
  - intros H. destruct (IH _ _ H) as [H'|(uri & mime & text & Hin & E)].
    + apply in_app_or in H'. destruct H' as [H'|[H'|[]]]; [now left|].
      inversion H'. right. exists u, m, t. split; [now left|reflexivity].
    + right. exists uri, mime, text. split; [now right|exact E].
  - destruct (Agent.is_image_type m) as [m'|]; [|now left].
    intros H. destruct (IH _ _ H) as [H'|(uri & mime & text & Hin & E)].
    + apply in_app_or in H'. destruct H' as [H'|[H'|[]]]; [now left|].
      discriminate H'.
    + right. exists uri, mime, text. split; [now right|exact E].
Qed.

Lemma load_resource_texts (env : Env) (name : string) (acc : list UserBlock)
  (w : World) :
  exists acc' w',
    Agent.load_resource env name acc w = (Ret acc', w')
    /\ available_resources w' = available_resources w
    /\ forall s, In (UText s) acc' ->
         In (UText s) acc \/ from_text_part env w name s.
Proof.
  unfold Agent.load_resource, MCPClient.get_resource, MCPClient.session_request.
  run_world.
  destruct (Dict.get name (available_resources w)) as [resource|] eqn:G; cbn.
  2:{ eexists _, _. split; [reflexivity|]. split; [reflexivity|]. now left. }
  destruct (_connected w); cbn.
  2:{ eexists _, _. split; [reflexivity|]. split; [reflexivity|]. now left. }
  destruct (session_read_resource env (length (mcp_log w)) (resource_uri resource))
    as [e|contents] eqn:R; cbn.
  { eexists _, _. split; [reflexivity|]. split; [reflexivity|]. now left. }
  assert (T : forall s,
             In (UText s) (fst (Agent.load_contents name contents acc)) ->
             In (UText s) acc \/ from_text_part env w name s).
  { intros s H. destruct (load_contents_texts _ _ _ _ H)
      as [H'|(uri & mime & text & Hin & E)]; [now left|].
    right. exists resource, (length (mcp_log w)), contents, uri, mime, text.
    repeat split; assumption. }
  destruct contents; cbn; eexists _, _; (split; [reflexivity|]);
    (split; [reflexivity|]); exact T.
Qed.

Lemma from_text_part_same_catalog (env : Env) (w w' : World) (name s : string) :
  available_resources w' = available_resources w ->
  from_text_part env w' name s -> from_text_part env w name s.
Proof. unfold from_text_part. now intros ->. Qed.

Lemma load_resources_from_texts (env : Env) (names : list json) :
  forall (acc : list UserBlock) (w : World),
    forallb hashable names = true ->
    exists blocks w',
      Agent.load_resources_from env names acc w = (Ret blocks, w')
      /\ available_resources w' = available_resources w
      /\ forall s, In (UText s) blocks ->
           In (UText s) acc
           \/ exists name, In (JString name) names
                           /\ from_text_part env w name s.
Proof.
  induction names as [|r names IH]; intros acc w Hh.
  - exists acc, w. repeat split; auto.
  - cbn in Hh. apply andb_prop in Hh. destruct Hh as [Hr Hh].
    cbn [Agent.load_resources_from].
    cbv [bind get_world lift ret raise py_key].
    assert (Skip : exists blocks w',
               Agent.load_resources_from env names acc w = (Ret blocks, w')
               /\ available_resources w' = available_resources w
               /\ forall s, In (UText s) blocks ->
                    In (UText s) acc
                    \/ exists name, In (JString name) (r :: names)
                                    /\ from_text_part env w name s).
    { destruct (IH acc w Hh) as (blocks & w' & H & A & T).
      exists blocks, w'. split; [exact H|]. split; [exact A|].
      intros s Hs. destruct (T s Hs) as [?|(name & Hin & F)]; [now left|].
      right. exists name. split; [now right|exact F]. }
    destruct r; try discriminate Hr; try exact Skip.
    destruct (Dict.mem s (available_resources w)); [|exact Skip].
    destruct (load_resource_texts env s acc w) as (acc' & w1 & H1 & A1 & T1).
    rewrite H1.
    destruct (IH acc' w1 Hh) as (blocks & w' & H & A & T).
    exists blocks, w'. split; [exact H|]. split; [congruence|].
    intros t Ht. destruct (T t Ht) as [Hacc|(name & Hin & F)].
    + destruct (T1 t Hacc) as [?|F]; [now left|].
      right. exists s. split; [now left|exact F].
    + right. exists name. split; [now right|].
      exact (from_text_part_same_catalog env w w1 name t A1 F).
Qed.

(** C9 fails on the code, by a slip.  The resource [math-constants] is
    fetched in four parts: a text, a picture, a document and a second
    text.  At the document the warning that is to be printed reads the
    media type off the list of the parts and not off the part, and the
    [AttributeError] ends the loop over the parts: no warning is
    printed, and the second text, which was fetched, gets no block. *)
Lemma text_behind_unsupported_part_is_lost :
  session_read_resource Scenes.mixed 0 "resource://math-constants"
  = inr Scenes.mixed_contents
  /\ In (TextResourceContents "resource://math-constants" (Some "text/plain")
          "e = 2.71828") Scenes.mixed_contents
  /\ exists blocks w',
       Agent._load_selected_resources Scenes.mixed [JString "math-constants"]
         (Demo.ready [])
       = (Ret blocks, w')
       /\ blocks
          = [UText ("[Resource: math-constants]" +++ LF +++ "pi = 3.14159");
             UImage "image/png" "iVBORw0KGgo="]
       /\ ~ In (UText ("[Resource: math-constants]" +++ LF +++ "e = 2.71828"))
              blocks
       /\ mcp_log w' = [ReqReadResource "resource://math-constants"]
       /\ stdout w' = ["LLM selected resource: math-constants"].
Proof.
  split; [reflexivity|]. split; [cbn; tauto|].
  eexists _, _. split; [vm_compute; reflexivity|].
  split; [reflexivity|]. split; [|split; reflexivity].
  intros [H|[H|[]]]; discriminate H.
Qed.

(** ** The tool use loop *)

Lemma bind_ret {A B : Type} (m : M A) (k : A -> M B) (w w1 : World) (a : A) :
  m w = (Ret a, w1) -> bind m k w = k a w1.
Proof. unfold bind. now intros ->. Qed.

Lemma bind_raise {A B : Type} (m : M A) (k : A -> M B) (w w1 : World)
  (e : exn) :
  m w = (Raise e, w1) -> bind m k w = (Raise e, w1).
Proof. unfold bind. now intros ->. Qed.

Lemma session_only_refl (w : World) : session_only w w.
Proof. now repeat split. Qed.

Lemma session_only_trans (w1 w2 w3 : World) :
  session_only w1 w2 -> session_only w2 w3 -> session_only w1 w3.
Proof.
  unfold session_only.
  intros (A1 & A2 & A3 & A4 & A5 & A6) (B1 & B2 & B3 & B4 & B5 & B6).
  repeat split; congruence.
Qed.

(** A tool invocation on a connected client whose session answers. *)
Lemma use_tool_returns (env : Env) (name : string) (input : json) (w : World)
  (parts : list ToolContent) :
  _connected w = true ->
  session_call_tool env (length (mcp_log w)) name input = inr parts ->
  exists w',
    MCPClient.use_tool env name input w
    = (Ret (flat_map MCPClient.tool_content_results parts), w')
    /\ mcp_log w' = mcp_log w ++ [ReqCallTool name input]
    /\ session_only w w'.
Proof.
  intros C H. unfold MCPClient.use_tool, MCPClient.session_request.
  run_world. rewrite C. cbn. rewrite H. cbn.
  destruct parts; cbn; eexists; (split; [reflexivity|]);
    (split; [reflexivity|]); repeat split; cbn; auto.
Qed.

(** The requested invocations are executed one after the other, in the
    order of the blocks, and each adds the result block of its id. *)
Lemma execute_tools_returns (env : Env) (blocks : list ContentBlock) :
  forall (acc : list UserBlock) (w : World),
    _connected w = true ->
    forallb Agent.is_tool_use blocks = true ->
    (forall k id name input,
        nth_error blocks k = Some (ToolUseBlock id name input) ->
        exists parts,
          session_call_tool env (length (mcp_log w) + k) name input
          = inr parts) ->
    exists contents w',
      Agent.execute_tools env blocks acc w
      = (Ret (acc ++ tool_result_blocks (tool_use_ids blocks) contents), w')
      /\ length contents = length blocks
      /\ mcp_log w' = mcp_log w ++ tool_requests blocks
      /\ session_only w w'.
Proof.
  induction blocks as [|b blocks IH]; intros acc w C T Hs.
  - exists [], w. cbn. rewrite !app_nil_r.
    repeat split; auto.
  - cbn in T. apply andb_prop in T. destruct T as [Tb T].
    destruct b as [t | id name input | ]; try discriminate.
    destruct (Hs 0 id name input eq_refl) as [parts Hp].
    rewrite Nat.add_0_r in Hp.
    destruct (use_tool_returns env name input w parts C Hp)
      as (w1 & U & L1 & F1).
    cbn [Agent.execute_tools]. rewrite (bind_ret _ _ _ _ _ U).
    destruct (IH (acc ++ [Agent.tool_result_block id
                            (flat_map MCPClient.tool_content_results parts)])
                 w1) as (contents & w' & E & Len & L & F).
    + destruct F1 as (_ & _ & C1 & _). congruence.
    + exact T.
    + intros k id' name' input' Hk. rewrite L1, length_app. cbn.
      replace (length (mcp_log w) + 1 + k) with (length (mcp_log w) + S k)
        by lia.
      exact (Hs (S k) id' name' input' Hk).
    + exists (PyStr.join LF (flat_map MCPClient.tool_content_results parts)
              :: contents), w'.
      split; [|split; [|split]].
      * rewrite E. cbn. now rewrite <- app_assoc.
      * cbn. now rewrite Len.
      * rewrite L, L1. cbn. now rewrite <- app_assoc.
      * exact (session_only_trans _ _ _ F1 F).
Qed.

Lemma forallb_filter_id {A : Type} (f : A -> bool) (l : list A) :
  forallb f (filter f l) = true.
Proof.
  apply forallb_forall. intros x H. now apply filter_In in H.
Qed.

Lemma tool_use_ids_filter (blocks : list ContentBlock) :
  tool_use_ids (filter Agent.is_tool_use blocks) = tool_use_ids blocks.
Proof.
  unfold tool_use_ids.
  induction blocks as [|b blocks IH]; cbn; [reflexivity|].
  destruct b; cbn; now rewrite IH.
Qed.

Lemma tool_requests_filter (blocks : list ContentBlock) :
  tool_requests (filter Agent.is_tool_use blocks) = tool_requests blocks.
Proof.
  unfold tool_requests.
  induction blocks as [|b blocks IH]; cbn; [reflexivity|].
  destruct b; cbn; now rewrite IH.
Qed.

Lemma tool_use_ids_length (blocks : list ContentBlock) :
  length (tool_use_ids blocks) = length (filter Agent.is_tool_use blocks).
Proof.
  unfold tool_use_ids.
  induction blocks as [|b blocks IH]; cbn; [reflexivity|].
  destruct b; cbn; now rewrite ?IH.
Qed.

Lemma tool_result_blocks_length (ids contents : list string) :
  length contents = length ids ->
  length (tool_result_blocks ids contents) = length ids.
Proof.
  intros H. unfold tool_result_blocks.
  rewrite length_map, length_combine. lia.
Qed.

Lemma correlation_ids_tool_result_blocks (ids contents : list string) :
  length contents = length ids ->
  correlation_ids (tool_result_blocks ids contents) = map Some ids.
Proof.
  unfold correlation_ids, tool_result_blocks. revert contents.
  induction ids as [|i ids IH]; intros [|c contents] H; try discriminate;
    cbn; [reflexivity|].
  f_equal. apply IH. cbn in H. lia.
Qed.

(** The request to the LLM, on a state where it answers. *)
Lemma messages_create_returns (env : Env) (args : CreateArgs) (w : World)
  (response : Response) :
  llm env (length (llm_calls w)) args = inr response ->
  Agent.messages_create env args w
  = (Ret response, set_llm_calls (llm_calls w ++ [args]) w).
Proof.
  intros H. unfold Agent.messages_create. run_monad. now rewrite H.
Qed.

Lemma messages_create_raises (env : Env) (args : CreateArgs) (w : World)
  (e : exn) :
  llm env (length (llm_calls w)) args = inl e ->
  Agent.messages_create env args w
  = (Raise e, set_llm_calls (llm_calls w ++ [args]) w).
Proof.
  intros H. unfold Agent.messages_create. run_monad. now rewrite H.
Qed.

(** An iteration of the loop on a response that requests tools. *)
Lemma tool_use_iteration (env : Env) (tools : list ToolParam)
  (sys : string) (conv : list Message) (w : World) (response : Response) :
  _connected w = true ->
  llm env (length (llm_calls w)) (Agent.create_message_args tools sys conv)
  = inr response ->
  stop_reason response = "tool_use" ->
  (forall k id name input,
      nth_error (filter Agent.is_tool_use (response_content response)) k
      = Some (ToolUseBlock id name input) ->
      exists parts,
        session_call_tool env (length (mcp_log w) + k) name input
        = inr parts) ->
  exists results w',
    Agent.tool_loop_body env tools sys conv w
    = (Ret (Agent.Continue
              ((conv ++ [assistant_turn response]) ++ [user_turn results])),
       w')
    /\ length results = length (tool_use_ids (response_content response))
    /\ correlation_ids results
       = map Some (tool_use_ids (response_content response))
    /\ mcp_log w' = mcp_log w ++ tool_requests (response_content response)
    /\ session_only
         (set_llm_calls
            (llm_calls w ++ [Agent.create_message_args tools sys conv]) w) w'.
Proof.
  intros C R T Hs.
  unfold Agent.tool_loop_body.
  rewrite (bind_ret _ _ _ _ _ (messages_create_returns env _ w response R)).
  rewrite T. cbn [String.eqb Ascii.eqb Bool.eqb].
  destruct (execute_tools_returns env
              (filter Agent.is_tool_use (response_content response)) []
              (set_llm_calls
                 (llm_calls w ++ [Agent.create_message_args tools sys conv]) w)
              C (forallb_filter_id _ _) Hs)
    as (contents & w' & E & Len & L & F).
  rewrite (bind_ret _ _ _ _ _ E).
  rewrite tool_use_ids_filter in *. rewrite tool_requests_filter in L.
  rewrite <- tool_use_ids_length in Len.
  eexists _, w'. split; [reflexivity|].
  split; [now apply tool_result_blocks_length|].
  split; [now apply correlation_ids_tool_result_blocks|]. split; [exact L|exact F].
Qed.

(** C1.  On a response whose stop reason is [tool_use] and whose tool
    invocation requests have the ids i1..in, in this order, an iteration
    of the tool use loop executes the requests one after the other in
    this order (when each invocation returns) and appends, after the
    assistant turn, one user turn of exactly n tool result blocks whose
    correlation ids are i1..in in the same order; then the loop
    continues. *)
Theorem tool_results_match_requests (env : Env) (tools : list ToolParam)
  (sys : string) (conv : list Message) (w : World) (response : Response) :
  _connected w = true ->
  llm env (length (llm_calls w)) (Agent.create_message_args tools sys conv)
  = inr response ->
  stop_reason response = "tool_use" ->
  (forall k id name input,
      nth_error (filter Agent.is_tool_use (response_content response)) k
      = Some (ToolUseBlock id name input) ->
      exists parts,
        session_call_tool env (length (mcp_log w) + k) name input
        = inr parts) ->
  exists results w',
    Agent.tool_loop_body env tools sys conv w
    = (Ret (Agent.Continue
              ((conv ++ [assistant_turn response]) ++ [user_turn results])),
       w')
    /\ length results = length (tool_use_ids (response_content response))
    /\ correlation_ids results
       = map Some (tool_use_ids (response_content response))
    /\ mcp_log w' = mcp_log w ++ tool_requests (response_content response).
Proof.
  intros C R T Hs.
  destruct (tool_use_iteration env tools sys conv w response C R T Hs)
    as (results & w' & H & Len & Ids & L & _).
  exists results, w'. auto.
Qed.

Lemma tool_results_match_requests_witness :
  exists results w',
    Agent.tool_loop_body
      (Demo.server (Demo.scripted [inr Demo.three_requests])) [] ""
      [Demo.question] (Demo.ready [])
    = (Ret (Agent.Continue
              [Demo.question; assistant_turn Demo.three_requests;
               user_turn results]), w')
    /\ length results = 3
    /\ correlation_ids results = [Some "A"; Some "B"; Some "C"]
    /\ length (mcp_log w') = 3.
Proof.
  destruct (tool_results_match_requests
              (Demo.server (Demo.scripted [inr Demo.three_requests])) [] ""
              [Demo.question] (Demo.ready []) Demo.three_requests)
    as (results & w' & H & Len & Ids & Log).
  - reflexivity.
  - reflexivity.
  - reflexivity.
  - intros k id name input _. eexists. reflexivity.
  - exists results, w'. split; [exact H|]. split; [exact Len|].
    split; [exact Ids|]. rewrite Log. reflexivity.
Defined.

Lemma text_blocks_blank (blocks : list ContentBlock) :
  forallb blank blocks = true -> Agent.text_blocks blocks = [].
Proof.
  unfold Agent.text_blocks.
  induction blocks as [|b blocks IH]; cbn; [reflexivity|].
  intros H. apply andb_prop in H. destruct H as [Hb H].
  rewrite (IH H). destruct b; cbn in *; try reflexivity. now rewrite Hb.
Qed.

Lemma text_blocks_first (pre post : list ContentBlock) (text : string) :
  forallb blank pre = true ->
  PyStr.strip text <> "" ->
  Agent.text_blocks (pre ++ TextBlock text :: post)
  = text :: Agent.text_blocks post.
Proof.
  intros B N. unfold Agent.text_blocks. rewrite flat_map_app.
  fold (Agent.text_blocks pre). rewrite (text_blocks_blank pre B). cbn.
  apply String.eqb_neq in N. now rewrite N.
Qed.

(** An iteration of the loop on a response that requests no tool: one
    line is printed, and the loop is left. *)
Lemma final_iteration (env : Env) (tools : list ToolParam) (sys : string)
  (conv : list Message) (w : World) (response : Response) :
  llm env (length (llm_calls w)) (Agent.create_message_args tools sys conv)
  = inr response ->
  stop_reason response <> "tool_use" ->
  let line :=
    match Agent.text_blocks (response_content response) with
    | text :: _ => "Assistant: " +++ text
    | [] => Agent.no_text_response
    end in
  let w' :=
    set_stdout (stdout w ++ [line])
      (set_llm_calls
         (llm_calls w ++ [Agent.create_message_args tools sys conv]) w) in
  Agent.tool_loop_body env tools sys conv w
  = (Ret (Agent.Break (conv ++ [assistant_turn response])), w').
Proof.
  intros R T. cbv zeta.
  unfold Agent.tool_loop_body.
  rewrite (bind_ret _ _ _ _ _ (messages_create_returns env _ w response R)).
  apply String.eqb_neq in T. rewrite T.
  destruct (Agent.text_blocks (response_content response)); reflexivity.
Qed.

(** C10.  On a response whose stop reason is not [tool_use], the
    iteration leaves the tool use loop normally and prints one line: the
    line [Assistant: [No text response available]] when no block of the
    response has a text that is not whitespace, and otherwise
    [Assistant: ] followed by the text of the first block that has
    one. *)
Theorem final_answer_or_fallback (env : Env) (tools : list ToolParam)
  (sys : string) (conv : list Message) (w : World) (response : Response) :
  llm env (length (llm_calls w)) (Agent.create_message_args tools sys conv)
  = inr response ->
  stop_reason response <> "tool_use" ->
  exists line w',
    Agent.tool_loop_body env tools sys conv w
    = (Ret (Agent.Break (conv ++ [assistant_turn response])), w')
    /\ (forall turns,
          Agent.tool_use_loop env (S turns) tools sys conv w
          = (Ret (conv ++ [assistant_turn response]), w'))
    /\ stdout w' = stdout w ++ [line]
    /\ (forallb blank (response_content response) = true ->
        line = "Assistant: [No text response available]")
    /\ (forall pre text post,
          response_content response = pre ++ TextBlock text :: post ->
          forallb blank pre = true ->
          PyStr.strip text <> "" ->
          line = "Assistant: " +++ text).
Proof.
  intros R T. pose proof (final_iteration env tools sys conv w response R T) as H.
  cbv zeta in H. eexists _, _. split; [exact H|].
  split; [|split; [reflexivity|split]].
  - intros turns. cbn [Agent.tool_use_loop].
    now rewrite (bind_ret _ _ _ _ _ H).
  - intros B. now rewrite (text_blocks_blank _ B).
  - intros pre text post E B N. now rewrite E, (text_blocks_first _ _ _ B N).
Qed.

Lemma final_answer_or_fallback_witness :
  (exists w',
     Agent.tool_loop_body (Demo.server (Demo.scripted [inr Demo.silent])) [] ""
       [Demo.question] (Demo.ready [])
     = (Ret (Agent.Break [Demo.question; assistant_turn Demo.silent]), w')
     /\ stdout w' = ["Assistant: [No text response available]"])
  /\ (exists w',
        Agent.tool_loop_body (Demo.server (Demo.scripted [inr Demo.padded])) [] ""
          [Demo.question] (Demo.ready [])
        = (Ret (Agent.Break [Demo.question; assistant_turn Demo.padded]), w')
        /\ stdout w' = ["Assistant: 4"]).
Proof.
  split.
  - destruct (final_answer_or_fallback
                (Demo.server (Demo.scripted [inr Demo.silent])) [] ""
                [Demo.question] (Demo.ready []) Demo.silent)
      as (line & w' & H & _ & Out & Fallback & _).
    + reflexivity.
    + discriminate.
    + exists w'. split; [exact H|]. rewrite Out, Fallback; reflexivity.
  - destruct (final_answer_or_fallback
                (Demo.server (Demo.scripted [inr Demo.padded])) [] ""
                [Demo.question] (Demo.ready []) Demo.padded)
      as (line & w' & H & _ & Out & _ & First).
    + reflexivity.
    + discriminate.
    + exists w'. split; [exact H|]. rewrite Out.
      rewrite (First [TextBlock " "; OtherBlock] "4" [TextBlock "four"]);
        [reflexivity | reflexivity | reflexivity | discriminate].
Defined.

Lemma correlation_ids_single (results : list UserBlock) (id : string) :
  correlation_ids results = [Some id] ->
  exists result, results = [UToolResult id result].
Proof.
  destruct results as [|b [|b' results]]; try discriminate.
  destruct b; try discriminate. cbn. intros H; inversion H. eauto.
Qed.

(** C2.  With a model that returns one [tool_use] response, carrying one
    tool invocation request, and then one [end_turn] response, the tool
    use loop started on the initial user turn invokes one tool, prints
    one answer and ends with a conversation of length 4: the initial
    user turn, the assistant turn of the [tool_use] response, the user
    turn of the tool result, the assistant turn of the final response.
    Two iterations are enough, whatever the bound beyond. *)
Theorem one_tool_use_then_answer (env : Env) (tools : list ToolParam)
  (sys : string) (initial : Message) (w : World) (r1 r2 : Response)
  (id name : string) (input : json) (parts : list ToolContent) (turns : nat) :
  _connected w = true ->
  (forall args, llm env (length (llm_calls w)) args = inr r1) ->
  (forall args, llm env (S (length (llm_calls w))) args = inr r2) ->
  stop_reason r1 = "tool_use" ->
  filter Agent.is_tool_use (response_content r1) = [ToolUseBlock id name input] ->
  session_call_tool env (length (mcp_log w)) name input = inr parts ->
  stop_reason r2 = "end_turn" ->
  exists history result answer w',
    Agent.tool_use_loop env (S (S turns)) tools sys [initial] w
    = (Ret history, w')
    /\ history = [initial; assistant_turn r1;
                  user_turn [UToolResult id result]; assistant_turn r2]
    /\ length history = 4
    /\ mcp_log w' = mcp_log w ++ [ReqCallTool name input]
    /\ stdout w' = stdout w ++ ["Assistant: " +++ answer]
    /\ length (llm_calls w') = 2 + length (llm_calls w).
Proof.
  intros C R1 R2 T1 B Hp T2.
  assert (Ids : tool_use_ids (response_content r1) = [id])
    by (rewrite <- tool_use_ids_filter, B; reflexivity).
  assert (Reqs : tool_requests (response_content r1) = [ReqCallTool name input])
    by (rewrite <- tool_requests_filter, B; reflexivity).
  destruct (tool_use_iteration env tools sys [initial] w r1 C (R1 _) T1)
    as (results & w1 & H1 & _ & I & L & F).
  { rewrite B. intros [|k] id' name' input' Hk;
      [|destruct k; discriminate].
    inversion Hk; subst. rewrite Nat.add_0_r. eauto. }
  rewrite Ids in I. destruct (correlation_ids_single results id I)
    as [result ->].
  destruct F as (_ & _ & _ & F4 & _ & F6). cbn in F4, F6.
  assert (R2' : llm env (length (llm_calls w1))
                  (Agent.create_message_args tools sys
                     (([initial] ++ [assistant_turn r1])
                      ++ [user_turn [UToolResult id result]])) = inr r2).
  { rewrite F4, length_app, Nat.add_1_r. apply R2. }
  assert (N : stop_reason r2 <> "tool_use") by (rewrite T2; discriminate).
  pose proof (final_iteration env tools sys _ w1 r2 R2' N) as H2.
  cbv zeta in H2.
  eexists _, result, _, _. split.
  { cbn [Agent.tool_use_loop]. rewrite (bind_ret _ _ _ _ _ H1).
    rewrite (bind_ret _ _ _ _ _ H2). reflexivity. }
  split; [reflexivity|]. split; [reflexivity|].
  split; [cbn; now rewrite L, Reqs|].
  split.
  - cbn. rewrite F6.
    instantiate (1 := match Agent.text_blocks (response_content r2) with
                      | text :: _ => text
                      | [] => "[No text response available]"
                      end).
    destruct (Agent.text_blocks (response_content r2)); reflexivity.
  - cbn. rewrite F4, !length_app. cbn. lia.
Qed.

Lemma one_tool_use_then_answer_witness :
  exists result w',
    Agent.tool_use_loop
      (Demo.server (Demo.scripted [inr Demo.one_request; inr Demo.final_answer]))
      2 [] "" [Demo.question] (Demo.ready [])
    = (Ret [Demo.question; assistant_turn Demo.one_request;
            user_turn [UToolResult "A" result];
            assistant_turn Demo.final_answer], w')
    /\ length (mcp_log w') = 1
    /\ stdout w' = ["Assistant: 4"].
Proof.
  destruct (one_tool_use_then_answer
              (Demo.server
                 (Demo.scripted [inr Demo.one_request; inr Demo.final_answer]))
              [] "" Demo.question (Demo.ready [])
              Demo.one_request Demo.final_answer "A" "add"
              (JObject [("a", JNumber "2"); ("b", JNumber "2")])
              [TextContent "4"] 0)
    as (history & result & answer & w' & H & E & _ & L & Out & _);
    try reflexivity.
  exists result, w'. rewrite E in H. split; [exact H|].
  split; [rewrite L; reflexivity|].
  rewrite Out. cbn.
  assert (A : snd (Agent.tool_use_loop
                (Demo.server
                   (Demo.scripted [inr Demo.one_request; inr Demo.final_answer]))
                2 [] "" [Demo.question] (Demo.ready [])) = w')
    by (rewrite H; reflexivity).
  assert (Out' : stdout w' = ["Assistant: 4"])
    by (rewrite <- A; vm_compute; reflexivity).
  rewrite Out' in Out. cbn in Out. inversion Out. reflexivity.
Defined.

(** ** Refreshing the catalogs *)

(** C4, as the code has it.  [_refresh] replaces each catalog wholesale,
    the resources first and the prompts after them, and it is not atomic
    over the two.  When the listing of the resources fails, both
    catalogs are as before; when the listing of the prompts fails, the
    resource catalog is already the new one and the prompt catalog is
    as before; in both cases the exception goes to the caller.  When
    both listings succeed, both catalogs are the new ones. *)
Theorem refresh_replaces_in_turn (env : Env) (w : World) :
  _connected w = true ->
  match session_list_resources env (length (mcp_log w)) with
  | inl e =>
      exists w',
        Agent._refresh env w = (Raise e, w')
        /\ available_resources w' = available_resources w
        /\ available_prompts w' = available_prompts w
  | inr resources =>
      match session_list_prompts env (S (length (mcp_log w))) with
      | inl e =>
          exists w',
            Agent._refresh env w = (Raise e, w')
            /\ available_resources w' = Dict.of_list resource_name resources
            /\ available_prompts w' = available_prompts w
      | inr prompts =>
          exists w',
            Agent._refresh env w = (Ret tt, w')
            /\ available_resources w' = Dict.of_list resource_name resources
            /\ available_prompts w' = Dict.of_list prompt_name prompts
      end
  end.
Proof.
  intros C.
  unfold Agent._refresh, MCPClient.get_available_resources,
    MCPClient.get_available_prompts, MCPClient.session_request.
  run_world. rewrite C. cbn.
  destruct (session_list_resources env (length (mcp_log w)))
    as [e|resources]; cbn.
  { eexists. repeat split. }
  assert (L : length (mcp_log w ++ [ReqListResources]) = S (length (mcp_log w)))
    by (rewrite length_app; cbn; lia).
  destruct resources as [|r resources]; cbn; rewrite C; cbn; rewrite L;
    destruct (session_list_prompts env (S (length (mcp_log w))))
      as [e|[|p prompts]]; cbn; eexists; repeat split.
Qed.

Lemma refresh_replaces_in_turn_witness :
  exists w',
    Agent._refresh Demo.failing_prompts (Demo.ready [])
    = (Raise (LibraryError "connection lost"), w')
    /\ available_resources w'
       = Dict.of_list resource_name [Demo.unit_factors]
    /\ available_prompts w' = available_prompts (Demo.ready []).
Proof.
  apply (refresh_replaces_in_turn Demo.failing_prompts (Demo.ready [])).
  reflexivity.
Defined.

(** C4 fails as stated: the listing of the prompts fails, the refresh
    raises, and the resource catalog is no longer the one from before
    the refresh, while the prompt catalog still is. *)
Lemma refresh_not_atomic_counterexample :
  fst (Agent._refresh Demo.failing_prompts (Demo.ready []))
  = Raise (LibraryError "connection lost")
  /\ available_resources (Demo.ready [])
     = [("math-constants", Demo.math_constants)]
  /\ available_resources
       (snd (Agent._refresh Demo.failing_prompts (Demo.ready [])))
     = [("unit-factors", Demo.unit_factors)]
  /\ available_resources
       (snd (Agent._refresh Demo.failing_prompts (Demo.ready [])))
     <> available_resources (Demo.ready [])
  /\ available_prompts
       (snd (Agent._refresh Demo.failing_prompts (Demo.ready [])))
     = available_prompts (Demo.ready []).
Proof.
  split; [reflexivity|]. split; [reflexivity|]. split; [reflexivity|].
  split; [|reflexivity].
  vm_compute. discriminate.
Qed.

(** ** A failure of the LLM in the tool use loop *)

(** The first request of the loop fails: the loop raises. *)
Lemma tool_use_loop_llm_failure (env : Env) (turns : nat)
  (tools : list ToolParam) (sys : string) (conv : list Message) (w : World)
  (e : exn) :
  llm env (length (llm_calls w)) (Agent.create_message_args tools sys conv)
  = inl e ->
  Agent.tool_use_loop env (S turns) tools sys conv w
  = (Raise e,
     set_llm_calls
       (llm_calls w ++ [Agent.create_message_args tools sys conv]) w).
Proof.
  intros R. cbn [Agent.tool_use_loop]. apply bind_raise.
  unfold Agent.tool_loop_body. apply bind_raise.
  now apply messages_create_raises.
Qed.

(** An exception of the tool use loop leaves the session loop: there is
    no handler in between. *)
Lemma session_loop_propagates (env : Env) (turns fuel : nat)
  (tools : list ToolParam) (w w1 wf : World) (prompt : string)
  (rest : list string) (sys : string) (conv : list Message) (e : exn) :
  stdin w = prompt :: rest ->
  PyStr.lower prompt <> "goodbye" ->
  PyStr.lower prompt <> "refresh" ->
  Agent.build_conversation env prompt
    (set_stdin rest (set_stdout (stdout w ++ ["You: "]) w))
  = (Ret (sys, conv), w1) ->
  Agent.tool_use_loop env turns tools sys conv w1 = (Raise e, wf) ->
  Agent.session_loop env turns (S fuel) tools w = (Raise e, wf).
Proof.
  intros I G R B T. cbn [Agent.session_loop].
  assert (In_ : input "You: " w
                = (Ret prompt,
                   set_stdin rest (set_stdout (stdout w ++ ["You: "]) w))).
  { unfold input. run_monad. now rewrite I. }
  rewrite (bind_ret _ _ _ _ _ In_).
  apply String.eqb_neq in G, R. rewrite G, R.
  unfold Agent.query_cycle.
  rewrite (bind_raise _ _ _ _ _
             (eq_trans (bind_ret _ _ _ _ _ B) T)).
  reflexivity.
Qed.

(** What [finally] does with an exception of the [try] block: the client
    is disconnected and the exception goes on; when closing the exit
    stack raises, its exception goes on in place of the other, and the
    flag is not reset. *)
Lemma finally_disconnects {A : Type} (env : Env) (m : M A) (w wf : World)
  (e : exn) :
  m w = (Raise e, wf) ->
  try_finally m (MCPClient.disconnect env) w
  = match exit_stack_aclose env with
    | inr _ => (Raise e, set_connected false wf)
    | inl e' => (Raise e', wf)
    end.
Proof.
  unfold try_finally, MCPClient.disconnect, bind, lift, modify, ret, raise.
  intros ->. now destruct (exit_stack_aclose env).
Qed.

(** Once the start has succeeded, [run] is the session loop under the
    [finally] clause. *)
Lemma run_after_startup (env : Env) (turns fuel : nat) (w0 w : World)
  (tools : list ToolParam) :
  Agent.startup env w0 = (Ret tools, w) ->
  Agent.run env turns fuel w0
  = try_finally (Agent.session_loop env turns fuel tools)
      (MCPClient.disconnect env) w.
Proof.
  intros H. unfold Agent.run, try_finally.
  now rewrite (bind_ret _ _ _ _ _ H).
Qed.

(** C5, as the code has it.  When the request to the LLM that is to
    answer a query raises, the exception is not handled in [run]: it
    leaves the tool use loop and the session loop, no line is printed
    for it and no input is read after it; the [finally] clause
    disconnects the client, and the exception goes to the caller of
    [run], which ends the session.  (When closing the connection raises
    in its turn, it is that exception that goes to the caller: the
    session ends all the same.) *)
Theorem llm_failure_ends_session (env : Env) (turns fuel : nat)
  (tools : list ToolParam) (w w1 : World) (prompt : string)
  (rest : list string) (sys : string) (conv : list Message) (e : exn) :
  stdin w = prompt :: rest ->
  PyStr.lower prompt <> "goodbye" ->
  PyStr.lower prompt <> "refresh" ->
  Agent.build_conversation env prompt
    (set_stdin rest (set_stdout (stdout w ++ ["You: "]) w))
  = (Ret (sys, conv), w1) ->
  llm env (length (llm_calls w1)) (Agent.create_message_args tools sys conv)
  = inl e ->
  let wf :=
    set_llm_calls
      (llm_calls w1 ++ [Agent.create_message_args tools sys conv]) w1 in
  Agent.session_loop env (S turns) (S fuel) tools w = (Raise e, wf)
  /\ try_finally (Agent.session_loop env (S turns) (S fuel) tools)
       (MCPClient.disconnect env) w
     = match exit_stack_aclose env with
       | inr _ => (Raise e, set_connected false wf)
       | inl e' => (Raise e', wf)
       end
  /\ (forall w0,
        Agent.startup env w0 = (Ret tools, w) ->
        Agent.run env (S turns) (S fuel) w0
        = match exit_stack_aclose env with
          | inr _ => (Raise e, set_connected false wf)
          | inl e' => (Raise e', wf)
          end)
  /\ stdout wf = stdout w1
  /\ stdin wf = stdin w1.
Proof.
  intros I G R B L. cbv zeta.
  pose proof (session_loop_propagates env (S turns) fuel tools w w1 _ prompt
                rest sys conv e I G R B
                (tool_use_loop_llm_failure env turns tools sys conv w1 e L))
    as H.
  split; [exact H|]. split; [exact (finally_disconnects env _ _ _ _ H)|].
  split; [|split; reflexivity].
  intros w0 S0. rewrite (run_after_startup env _ _ w0 w tools S0).
  exact (finally_disconnects env _ _ _ _ H).
Qed.

Lemma llm_failure_ends_session_witness :
  exists wf,
    Agent.session_loop Demo.down 1 1 []
      (initial_world ["What is 2+2?"; "goodbye"])
    = (Raise Demo.overloaded, wf)
    /\ try_finally (Agent.session_loop Demo.down 1 1 [])
         (MCPClient.disconnect Demo.down)
         (initial_world ["What is 2+2?"; "goodbye"])
       = (Raise Demo.overloaded, set_connected false wf)
    /\ stdout wf = ["You: "]
    /\ stdin wf = ["goodbye"].
Proof.
  destruct (llm_failure_ends_session Demo.down 0 0 []
              (initial_world ["What is 2+2?"; "goodbye"])
              (set_stdin ["goodbye"]
                 (set_stdout ["You: "]
                    (initial_world ["What is 2+2?"; "goodbye"])))
              "What is 2+2?" ["goodbye"] "" [Demo.question] Demo.overloaded)
    as (H & F & _ & Out & In_).
  - reflexivity.
  - intros E; vm_compute in E; discriminate E.
  - intros E; vm_compute in E; discriminate E.
  - reflexivity.
  - reflexivity.
  - eexists. split; [exact H|]. split; [exact F|]. split; reflexivity.
Defined.

(** C5 fails as stated: the API of the LLM is down when the first query
    is to be answered; [run] raises the error to its caller, the line
    [goodbye] that follows is never read, and no line about the error
    was printed. *)
Lemma llm_failure_counterexample :
  exists wf,
    Agent.run Demo.down 5 5 (initial_world ["What is 2+2?"; "goodbye"])
    = (Raise Demo.overloaded, wf)
    /\ stdin wf = ["goodbye"]
    /\ stdout wf
       = [Agent.welcome; "Loaded 0 resources and 0 prompts"; "You: "]
    /\ _connected wf = false.
Proof.
  eexists. split; [vm_compute; reflexivity|].
  split; [reflexivity|]. split; reflexivity.
Qed.

(** The same session with a model that answers: the answer is shown and
    the next line is read. *)
Example session_with_answer :
  exists wf,
    Agent.run (Demo.bare_server (Demo.scripted [Demo.says "4"])) 5 5
      (initial_world ["What is 2+2?"; "goodbye"])
    = (Ret tt, wf)
    /\ stdin wf = []
    /\ stdout wf
       = [Agent.welcome; "Loaded 0 resources and 0 prompts"; "You: ";
          "Assistant: 4"; "You: "; "AI Assistant: Goodbye!"]
    /\ _connected wf = false.
Proof.
  eexists. split; [vm_compute; reflexivity|].
  split; [reflexivity|]. split; reflexivity.
Qed.

(** * Further properties of the code *)

(** ** The client *)

(** X1.  On a client that is not connected every operation raises
    [RuntimeError] with the message of the guard, and the state is as
    before: no request reaches the session. *)
Theorem disconnected_client_refuses (env : Env) (w : World) :
  _connected w = false ->
  (forall name arguments,
      MCPClient.use_tool env name arguments w
      = (Raise (RuntimeError "Client not connected to a server"), w))
  /\ (forall uri,
        MCPClient.get_resource env uri w
        = (Raise (RuntimeError "Client not connected to a server"), w))
  /\ (forall name arguments,
        MCPClient.load_prompt env name arguments w
        = (Raise (RuntimeError "Client not connected to a server"), w))
  /\ MCPClient.get_available_resources env w
     = (Raise (RuntimeError "Client not connected to a server"), w)
  /\ MCPClient.get_available_tools env w
     = (Raise (RuntimeError "Client not connected to a server"), w)
  /\ MCPClient.get_available_prompts env w
     = (Raise (RuntimeError "Client not connected to a server"), w).
Proof.
  intros C.
  repeat split; intros;
    unfold MCPClient.use_tool, MCPClient.get_resource, MCPClient.load_prompt,
      MCPClient.get_available_resources, MCPClient.get_available_tools,
      MCPClient.get_available_prompts;
    run_monad; now rewrite C.
Qed.

Lemma disconnected_client_refuses_witness :
  MCPClient.use_tool Scenes.insistent "add" (JObject []) (initial_world [])
  = (Raise (RuntimeError "Client not connected to a server"), initial_world [])
  /\ MCPClient.get_available_tools Scenes.insistent (initial_world [])
     = (Raise (RuntimeError "Client not connected to a server"),
        initial_world []).
Proof.
  destruct (disconnected_client_refuses Scenes.insistent (initial_world [])
              eq_refl) as (A & _ & _ & _ & B & _).
  split; [apply A | exact B].
Defined.

(** X2.  [connect] refuses a client that is connected already.  On
    another client it sets the flag only after the server process was
    started and the session initialized: when either step raises, the
    exception goes to the caller and the client is still not
    connected. *)
Theorem connect_sets_flag_last (env : Env) (w : World) :
  (_connected w = true ->
   MCPClient.connect env w
   = (Raise (RuntimeError "Client is already connected"), w))
  /\ (_connected w = false ->
      match stdio_client env, session_initialize env with
      | inr _, inr _ => MCPClient.connect env w = (Ret tt, set_connected true w)
      | inl e, _ => MCPClient.connect env w = (Raise e, w)
      | inr _, inl e => MCPClient.connect env w = (Raise e, w)
      end).
Proof.
  split; intros C; unfold MCPClient.connect; run_monad; rewrite C;
    [reflexivity|].
  destruct (stdio_client env) as [e|[]]; cbn; [reflexivity|].
  destruct (session_initialize env) as [e|[]]; reflexivity.
Qed.

Lemma connect_sets_flag_last_witness :
  MCPClient.connect Scenes.insistent (Demo.ready [])
  = (Raise (RuntimeError "Client is already connected"), Demo.ready [])
  /\ MCPClient.connect Scenes.uninitialized (initial_world [])
     = (Raise Scenes.no_handshake, initial_world [])
  /\ MCPClient.connect Scenes.insistent (initial_world [])
     = (Ret tt, set_connected true (initial_world [])).
Proof.
  split; [|split].
  - exact (proj1 (connect_sets_flag_last Scenes.insistent (Demo.ready []))
             eq_refl).
  - exact (proj2 (connect_sets_flag_last Scenes.uninitialized (initial_world []))
             eq_refl).
  - exact (proj2 (connect_sets_flag_last Scenes.insistent (initial_world []))
             eq_refl).
Defined.

Lemma text_contents_results (texts : list string) :
  flat_map MCPClient.tool_content_results (map TextContent texts) = texts.
Proof.
  induction texts as [|x texts IH]; cbn; [reflexivity|]. now rewrite IH.
Qed.

(** X3.  A tool whose result is made of text parts: [use_tool] makes one
    request to the session and returns the texts as they are, in their
    order.  A result without any part is no error: the empty list is
    returned and a warning is logged. *)
Theorem use_tool_returns_texts (env : Env) (name : string) (input : json)
  (w : World) (texts : list string) :
  _connected w = true ->
  session_call_tool env (length (mcp_log w)) name input
  = inr (map TextContent texts) ->
  exists w',
    MCPClient.use_tool env name input w = (Ret texts, w')
    /\ mcp_log w' = mcp_log w ++ [ReqCallTool name input]
    /\ (texts = [] ->
        warnings w' = warnings w ++ [("No content in tool call result", None)]).
Proof.
  intros C H.
  destruct (use_tool_returns env name input w _ C H) as (w' & U & L & _).
  rewrite text_contents_results in U.
  exists w'. split; [exact U|]. split; [exact L|].
  intros ->. revert U. unfold MCPClient.use_tool, MCPClient.session_request.
  run_world. rewrite C. cbn. cbn in H. rewrite H. cbn.
  intros U; inversion U; subst. reflexivity.
Qed.

Lemma use_tool_returns_texts_witness :
  exists w',
    MCPClient.use_tool Scenes.insistent "add" (JObject []) (Demo.ready [])
    = (Ret ["4"], w')
    /\ mcp_log w' = [ReqCallTool "add" (JObject [])].
Proof.
  destruct (use_tool_returns_texts Scenes.insistent "add" (JObject [])
              (Demo.ready []) ["4"] eq_refl eq_refl) as (w' & U & L & _).
  exists w'. split; [exact U | exact L].
Defined.

(** ** The catalogs *)

Lemma dict_get_set {V : Type} (k k' : string) (v : V) (d : Dict.dict V) :
  Dict.get k' (Dict.set k v d)
  = if String.eqb k k' then Some v else Dict.get k' d.
Proof.
  induction d as [|[k0 v0] d IH]; cbn.
  - reflexivity.
  - destruct (String.eqb k0 k) eqn:E0; cbn.
    + apply String.eqb_eq in E0. subst k0.
      now destruct (String.eqb k k').
    + destruct (String.eqb k0 k') eqn:E1; [|exact IH].
      apply String.eqb_eq in E1. subst k0.
      now rewrite String.eqb_sym, E0.
Qed.

(** A dictionary comprehension keeps, for each key, the last item that
    has it. *)
Lemma dict_get_of_list {V : Type} (key : V -> string) (l : list V) (k : string) :
  Dict.get k (Dict.of_list key l)
  = find (fun x => String.eqb (key x) k) (rev l).
Proof.
  unfold Dict.of_list. induction l as [|x l IH] using rev_ind;
    [reflexivity|].
  rewrite fold_left_app, rev_app_distr. cbn.
  rewrite dict_get_set. destruct (String.eqb (key x) k); [reflexivity|exact IH].
Qed.

Lemma refresh_returns (env : Env) (w : World) (resources : list Resource)
  (prompts : list Prompt) :
  _connected w = true ->
  session_list_resources env (length (mcp_log w)) = inr resources ->
  session_list_prompts env (S (length (mcp_log w))) = inr prompts ->
  exists w',
    Agent._refresh env w = (Ret tt, w')
    /\ available_resources w' = Dict.of_list resource_name resources
    /\ available_prompts w' = Dict.of_list prompt_name prompts
    /\ mcp_log w' = mcp_log w ++ [ReqListResources; ReqListPrompts].
Proof.
  intros C R P.
  unfold Agent._refresh, MCPClient.get_available_resources,
    MCPClient.get_available_prompts, MCPClient.session_request.
  run_world. rewrite C. cbn. rewrite R. cbn.
  assert (L : length (mcp_log w ++ [ReqListResources]) = S (length (mcp_log w)))
    by (rewrite length_app; cbn; lia).
  destruct resources as [|r resources]; cbn; rewrite C; cbn; rewrite L, P;
    destruct prompts as [|p prompts]; cbn; eexists;
    rewrite <- app_assoc; repeat split.
Qed.

(** X4.  After a refresh that succeeds, looking a name up in a catalog
    gives the last listed entry of this name, and nothing when no entry
    of this name was listed: what the catalog held before the refresh
    is gone, and of two entries of one name the later one wins. *)
Theorem refresh_catalog_lookup (env : Env) (w : World)
  (resources : list Resource) (prompts : list Prompt) :
  _connected w = true ->
  session_list_resources env (length (mcp_log w)) = inr resources ->
  session_list_prompts env (S (length (mcp_log w))) = inr prompts ->
  exists w',
    Agent._refresh env w = (Ret tt, w')
    /\ (forall name,
          Dict.get name (available_resources w')
          = find (fun r => String.eqb (resource_name r) name) (rev resources))
    /\ (forall name,
          Dict.get name (available_prompts w')
          = find (fun p => String.eqb (prompt_name p) name) (rev prompts)).
Proof.
  intros C R P.
  destruct (refresh_returns env w resources prompts C R P)
    as (w' & H & A & B & _).
  exists w'. split; [exact H|]. rewrite A, B.
  split; intros name; apply dict_get_of_list.
Qed.

Lemma refresh_catalog_lookup_witness :
  exists w',
    Agent._refresh Scenes.doubled (Demo.ready []) = (Ret tt, w')
    /\ Dict.get "pi" (available_resources w') = Some Scenes.second_pi
    /\ Dict.get "unit-factors" (available_resources w') = None.
Proof.
  destruct (refresh_catalog_lookup Scenes.doubled (Demo.ready [])
              [Scenes.first_pi; Demo.math_constants; Scenes.second_pi]
              [Demo.step_by_step] eq_refl eq_refl eq_refl)
    as (w' & H & R & _).
  exists w'. split; [exact H|]. split; rewrite R; reflexivity.
Defined.

(** X5.  A server without resources and without prompts is no error for
    the refresh: it returns, both catalogs are empty, and a warning is
    logged for each listing. *)
Theorem empty_server_refresh_is_no_error (env : Env) (w : World) :
  _connected w = true ->
  session_list_resources env (length (mcp_log w)) = inr [] ->
  session_list_prompts env (S (length (mcp_log w))) = inr [] ->
  exists w',
    Agent._refresh env w = (Ret tt, w')
    /\ available_resources w' = []
    /\ available_prompts w' = []
    /\ warnings w'
       = warnings w ++ [("No resources found on server", None);
                        ("No prompts found on server", None)].
Proof.
  intros C R P.
  unfold Agent._refresh, MCPClient.get_available_resources,
    MCPClient.get_available_prompts, MCPClient.session_request.
  run_world. rewrite C. cbn. rewrite R. cbn. rewrite C. cbn.
  assert (L : length (mcp_log w ++ [ReqListResources]) = S (length (mcp_log w)))
    by (rewrite length_app; cbn; lia).
  rewrite L, P. cbn. eexists. split; [reflexivity|]. cbn.
  split; [reflexivity|]. split; [reflexivity|]. now rewrite <- app_assoc.
Qed.

Lemma empty_server_refresh_is_no_error_witness :
  exists w',
    Agent._refresh (Demo.bare_server (Demo.scripted [])) Scenes.bare
    = (Ret tt, w')
    /\ available_resources w' = []
    /\ available_prompts w' = []
    /\ warnings w'
       = [("No resources found on server", None);
          ("No prompts found on server", None)].
Proof.
  exact (empty_server_refresh_is_no_error (Demo.bare_server (Demo.scripted []))
           Scenes.bare eq_refl eq_refl eq_refl).
Defined.

(** ** Selecting and loading the context *)

Ltac frame_done :=
  intros H; inversion H; subst; cbn; repeat split; auto.

(** X6.  A selection talks to the LLM only, and once at most: whatever
    the outcome, the catalogs, the connection, the session log and the
    standard streams are as before, and the log of requests to the LLM
    is as before or longer by the one selection request. *)
Theorem selection_asks_llm_once (env : Env) (q : string) (w : World) :
  (forall r w',
      Agent._select_resources env q w = (r, w') ->
      llm_only w w'
      /\ (llm_calls w' = llm_calls w
          \/ llm_calls w' = llm_calls w ++ [resource_request q w]))
  /\ (forall r w',
        Agent._select_prompts env q w = (r, w') ->
        llm_only w w'
        /\ (llm_calls w' = llm_calls w
            \/ llm_calls w' = llm_calls w ++ [prompt_request q w])).
Proof.
  split; intros r w';
    unfold Agent._select_resources, Agent._select_prompts, llm_only,
      resource_request, prompt_request;
    run_world.
  - destruct (Dict.is_empty (available_resources w)); [frame_done|].
    cbn. destruct (llm env _ _) as [e|response]; cbn; [frame_done|].
    destruct (content_0_text response) as [e|text]; cbn; [frame_done|].
    destruct (Agent.json_part (PyStr.strip text)) as [part|]; cbn;
      [|frame_done].
    destruct (Json.loads part) as [v|]; cbn; [|frame_done].
    destruct (py_iter v) as [e|items]; cbn; [frame_done|].
    destruct (filter_comp _ items) as [e|result]; cbn; frame_done.
  - destruct (Dict.is_empty (available_prompts w)); [frame_done|].
    cbn. destruct (llm env _ _) as [e|response]; cbn; [frame_done|].
    destruct (content_0_text response) as [e|text]; cbn; [frame_done|].
    destruct (Agent.json_part (PyStr.strip text)) as [part|]; cbn;
      [|frame_done].
    destruct (Json.loads part) as [v|]; cbn; [|frame_done].
    destruct (py_iter v) as [e|items]; cbn; [frame_done|].
    destruct (filter_comp _ items) as [e|result]; cbn; frame_done.
Qed.

Lemma selection_asks_llm_once_witness :
  mcp_log (snd (Agent._select_resources Demo.hallucinating "What is pi?"
                  (Demo.ready [])))
  = []
  /\ length (llm_calls (snd (Agent._select_prompts Demo.truncating "What is pi?"
                               (Demo.ready []))))
     <= 1.
Proof.
  split.
  - destruct (proj1 (selection_asks_llm_once Demo.hallucinating "What is pi?"
                       (Demo.ready []))
                _ _ (surjective_pairing _))
      as ((_ & _ & _ & L & _) & _).
    exact L.
  - destruct (proj2 (selection_asks_llm_once Demo.truncating "What is pi?"
                       (Demo.ready []))
                _ _ (surjective_pairing _))
      as (_ & [L|L]); rewrite L; cbn; lia.
Defined.

(** X7.  What is decoded from the bracketed part of a reply is a list:
    the part starts at the first ["["], so that a reply can make the
    selection iterate neither over the keys of an object nor over the
    characters of a string. *)
Theorem decoded_selection_is_a_list (text part : string) (v : json) :
  Agent.json_part text = Some part ->
  Json.loads part = Some v ->
  exists items, v = JArray items /\ py_iter v = inr items.
Proof.
  intros P L. destruct (bracketed_part_is_array text part v P L) as [items ->].
  exists items. split; reflexivity.
Qed.

Lemma decoded_selection_is_a_list_witness :
  exists items,
    JArray [JString "a"] = JArray items
    /\ py_iter (JArray [JString "a"]) = inr items.
Proof.
  apply (decoded_selection_is_a_list
           (Demo.json_text "{'pick': ['a']} is my answer")
           (Demo.json_text "['a']") (JArray [JString "a"])).
  - vm_compute. reflexivity.
  - vm_compute. reflexivity.
Defined.

Lemma load_resource_fetches (env : Env) (name : string)
  (acc : list UserBlock) (w : World) (resource : Resource) :
  _connected w = true ->
  Dict.get name (available_resources w) = Some resource ->
  exists acc' w',
    Agent.load_resource env name acc w = (Ret acc', w')
    /\ mcp_log w' = mcp_log w ++ [ReqReadResource (resource_uri resource)]
    /\ available_resources w' = available_resources w
    /\ _connected w' = true
    /\ llm_calls w' = llm_calls w.
Proof.
  intros C G.
  unfold Agent.load_resource, MCPClient.get_resource, MCPClient.session_request.
  run_world. rewrite G, C. cbn.
  destruct (session_read_resource env (length (mcp_log w)) (resource_uri resource))
    as [e|[|c contents]]; cbn; eexists _, _; repeat split; auto.
Qed.

Lemma load_resources_from_fetches (env : Env) (names : list json) :
  forall (acc : list UserBlock) (w : World),
    _connected w = true ->
    forallb hashable names = true ->
    exists blocks w',
      Agent.load_resources_from env names acc w = (Ret blocks, w')
      /\ mcp_log w' = mcp_log w ++ fetches w names
      /\ llm_calls w' = llm_calls w.
Proof.
  induction names as [|r names IH]; intros acc w C Hh.
  - exists acc, w. cbn. rewrite app_nil_r. repeat split.
  - cbn in Hh. apply andb_prop in Hh. destruct Hh as [Hr Hh].
    cbn [Agent.load_resources_from].
    cbv [bind get_world lift ret raise py_key].
    unfold fetches. cbn [flat_map]. fold (fetches w names).
    destruct r; try discriminate Hr; try exact (IH acc w C Hh).
    unfold Dict.mem.
    destruct (Dict.get s (available_resources w)) as [resource|] eqn:G.
    2:{ exact (IH acc w C Hh). }
    destruct (load_resource_fetches env s acc w resource C G)
      as (acc' & w1 & H1 & L1 & A1 & C1 & M1).
    rewrite H1.
    destruct (IH acc' w1 C1 Hh) as (blocks & w' & H & L & M).
    exists blocks, w'. split; [exact H|]. split; [|congruence].
    rewrite L, L1. unfold fetches. rewrite A1. now rewrite <- app_assoc.
Qed.

(** X8.  Loading the selected resources on a connected client makes one
    fetch for each selected name that is in the catalog, in the order of
    the selection and by the uri of the catalog entry, whether the
    fetches before it succeeded or failed; a name that is in no catalog
    is not fetched, and the LLM is not asked. *)
Theorem selected_resources_are_fetched_in_order (env : Env)
  (names : list json) (w : World) :
  _connected w = true ->
  forallb hashable names = true ->
  exists blocks w',
    Agent._load_selected_resources env names w = (Ret blocks, w')
    /\ mcp_log w' = mcp_log w ++ fetches w names
    /\ llm_calls w' = llm_calls w.
Proof.
  intros C Hh. exact (load_resources_from_fetches env names [] w C Hh).
Qed.

Lemma selected_resources_are_fetched_in_order_witness :
  exists blocks w',
    Agent._load_selected_resources Scenes.flaky
      [JString "math-constants"; JString "ghost"; JNumber "7";
       JString "math-constants"] (Demo.ready [])
    = (Ret blocks, w')
    /\ mcp_log w'
       = [ReqReadResource "resource://math-constants";
          ReqReadResource "resource://math-constants"]
    /\ llm_calls w' = [].
Proof.
  exact (selected_resources_are_fetched_in_order Scenes.flaky
           [JString "math-constants"; JString "ghost"; JNumber "7";
            JString "math-constants"] (Demo.ready []) eq_refl eq_refl).
Defined.

Lemma load_prompt_block_returns (env : Env) (prompt : json) (name : string)
  (acc : list string) (w : World) :
  exists acc' w',
    Agent.load_prompt_block env prompt name acc w = (Ret acc', w')
    /\ session_only w w'.
Proof.
  unfold Agent.load_prompt_block, MCPClient.load_prompt,
    MCPClient.session_request, session_only.
  run_world.
  destruct (py_getitem prompt "arguments") as [e|arguments]; cbn.
  { eexists _, _. repeat split. }
  destruct (_connected w) eqn:C; cbn.
  2:{ eexists _, _. repeat split; auto. }
  destruct (session_get_prompt env (length (mcp_log w)) name arguments)
    as [e|[|m messages]]; cbn.
  - eexists _, _. repeat split; auto.
  - eexists _, _. repeat split; auto.
  - destruct (String.eqb _ ""); eexists _, _; repeat split; auto.
Qed.

Lemma load_prompts_from_returns (env : Env) (prompts : list json) :
  forall (acc : list string) (w : World),
    forallb has_name prompts = true ->
    exists l w',
      Agent.load_prompts_from env prompts acc w = (Ret l, w')
      /\ session_only w w'.
Proof.
  induction prompts as [|p prompts IH]; intros acc w Hn.
  - exists acc, w. split; [reflexivity|apply session_only_refl].
  - cbn in Hn. apply andb_prop in Hn. destruct Hn as [Hp Hn].
    cbn [Agent.load_prompts_from].
    cbv [bind get_world lift ret raise].
    unfold has_name, hashable in Hp.
    destruct (py_getitem p "name") as [e|v]; [discriminate|].
    destruct (py_key v) as [e|[name|]]; [discriminate| |exact (IH acc w Hn)].
    destruct (Dict.mem name (available_prompts w)); [|exact (IH acc w Hn)].
    destruct (load_prompt_block_returns env p name acc w)
      as (acc' & w1 & H1 & F1).
    rewrite H1. destruct (IH acc' w1 Hn) as (l & w' & H & F).
    exists l, w'. split; [exact H|exact (session_only_trans _ _ _ F1 F)].
Qed.

(** X9.  A selected prompt is rendered into one tagged block: with the
    arguments of the selection one request is made to the session, the
    texts of the rendered messages are put together, a newline after
    each, and stripped; the instructions are the tag [[Prompt: name]], a
    newline and this text, or the empty string when the text is
    blank. *)
Theorem prompt_is_rendered_as_tagged_block (env : Env) (w : World)
  (members : Dict.dict json) (name : string) (arguments : json)
  (messages : list PromptMessage) :
  Dict.get "name" members = Some (JString name) ->
  Dict.mem name (available_prompts w) = true ->
  Dict.get "arguments" members = Some arguments ->
  _connected w = true ->
  session_get_prompt env (length (mcp_log w)) name arguments = inr messages ->
  let text := PyStr.strip (String.concat "" (map Agent.message_text messages)) in
  exists w',
    Agent._load_selected_prompts env [JObject members] w
    = (Ret (if String.eqb text "" then ""
            else "[Prompt: " +++ name +++ "]" +++ LF +++ text), w')
    /\ mcp_log w' = mcp_log w ++ [ReqGetPrompt name arguments]
    /\ llm_calls w' = llm_calls w.
Proof.
  intros N M A C G. cbv zeta.
  unfold Agent._load_selected_prompts.
  cbn [Agent.load_prompts_from].
  unfold Agent.load_prompt_block, MCPClient.load_prompt,
    MCPClient.session_request, Agent.prompt_block.
  run_world. rewrite N. cbn. rewrite M, A. cbn. rewrite C. cbn.
  rewrite G. cbn.
  destruct messages as [|m messages]; cbn.
  - eexists. repeat split.
  - destruct (String.eqb _ ""); cbn; eexists; repeat split.
Qed.

Lemma prompt_is_rendered_as_tagged_block_witness :
  exists w',
    Agent._load_selected_prompts Scenes.insistent [Scenes.with_arguments]
      (Demo.ready [])
    = (Ret ("[Prompt: step-by-step-math]" +++ LF +++ "Show each step."), w')
    /\ mcp_log w' = [ReqGetPrompt "step-by-step-math" (JObject [])]
    /\ llm_calls w' = [].
Proof.
  exact (prompt_is_rendered_as_tagged_block Scenes.insistent (Demo.ready [])
           [("name", JString "step-by-step-math"); ("arguments", JObject [])]
           "step-by-step-math" (JObject [])
           [ {| pm_role := "user"; pm_content := PromptText "Show each step." |} ]
           eq_refl eq_refl eq_refl eq_refl eq_refl).
Defined.

(** X10.  A selected prompt without the key [arguments] is skipped: the
    [KeyError] is swallowed before any request is made, and the
    instructions are those of the selections that follow. *)
Theorem prompt_without_arguments_is_skipped (env : Env) (w : World)
  (members : Dict.dict json) (name : string) (rest : list json) :
  Dict.get "name" members = Some (JString name) ->
  Dict.mem name (available_prompts w) = true ->
  Dict.get "arguments" members = None ->
  Agent._load_selected_prompts env (JObject members :: rest) w
  = Agent._load_selected_prompts env rest w.
Proof.
  intros N M A. unfold Agent._load_selected_prompts.
  cbn [Agent.load_prompts_from]. unfold Agent.load_prompt_block.
  run_monad. rewrite N. cbn. rewrite M. rewrite A. cbn. reflexivity.
Qed.

Lemma prompt_without_arguments_is_skipped_witness :
  Agent._load_selected_prompts Scenes.insistent [Scenes.without_arguments]
    (Demo.ready [])
  = (Ret "", Demo.ready []).
Proof.
  exact (prompt_without_arguments_is_skipped Scenes.insistent (Demo.ready [])
           [("name", JString "step-by-step-math")] "step-by-step-math" []
           eq_refl eq_refl eq_refl).
Defined.

(** X11.  A selected prompt that the session fails to render is skipped
    as well: the request was made, its exception is swallowed, and the
    instructions are those of the selections that follow. *)
Theorem failed_prompt_render_is_skipped (env : Env) (w : World)
  (members : Dict.dict json) (name : string) (arguments : json)
  (rest : list json) (e : exn) :
  Dict.get "name" members = Some (JString name) ->
  Dict.mem name (available_prompts w) = true ->
  Dict.get "arguments" members = Some arguments ->
  _connected w = true ->
  session_get_prompt env (length (mcp_log w)) name arguments = inl e ->
  Agent._load_selected_prompts env (JObject members :: rest) w
  = Agent._load_selected_prompts env rest
      (set_mcp_log (mcp_log w ++ [ReqGetPrompt name arguments]) w).
Proof.
  intros N M A C G.
  unfold Agent._load_selected_prompts.
  cbn [Agent.load_prompts_from].
  unfold Agent.load_prompt_block, MCPClient.load_prompt,
    MCPClient.session_request.
  run_monad. rewrite N. cbn. rewrite M, A. cbn. rewrite C. cbn.
  rewrite G. cbn. reflexivity.
Qed.

Lemma failed_prompt_render_is_skipped_witness :
  Agent._load_selected_prompts Scenes.flaky [Scenes.with_arguments]
    (Demo.ready [])
  = (Ret "",
     set_mcp_log [ReqGetPrompt "step-by-step-math" (JObject [])]
       (Demo.ready [])).
Proof.
  exact (failed_prompt_render_is_skipped Scenes.flaky (Demo.ready [])
           [("name", JString "step-by-step-math"); ("arguments", JObject [])]
           "step-by-step-math" (JObject []) [] Scenes.timed_out
           eq_refl eq_refl eq_refl eq_refl eq_refl).
Defined.

Lemma names_resource_hashable (w : World) (l : list json) :
  Forall (fun r => names_resource w r = true) l -> forallb hashable l = true.
Proof.
  intros F. apply forallb_forall. intros x Hx.
  rewrite Forall_forall in F. specialize (F x Hx). now destruct x.
Qed.

Lemma names_prompt_has_name (w : World) (l : list json) :
  Forall (fun p => names_prompt w p = true) l -> forallb has_name l = true.
Proof.
  intros F. apply forallb_forall. intros x Hx.
  rewrite Forall_forall in F. specialize (F x Hx).
  destruct x; try discriminate. cbn in F. unfold has_name. cbn.
  destruct (Dict.get "name" members) as [v|]; [|discriminate].
  now destruct v.
Qed.

(** X12.  The four steps that prepare a query never raise, whatever the
    LLM and the session do: a failed selection or a failed load only
    leaves context out.  The conversation they build is one user turn,
    and its first block is the text of the query as it was typed. *)
Theorem build_conversation_never_raises (env : Env) (prompt : string)
  (w : World) :
  exists sys blocks w',
    Agent.build_conversation env prompt w
    = (Ret (sys, [user_turn (UText prompt :: blocks)]), w').
Proof.
  destruct (select_resources_sound env prompt w) as (l1 & w1 & H1 & F1).
  destruct (select_prompts_sound env prompt w1) as (l2 & w2 & H2 & F2).
  destruct (load_resources_from_texts env l1 [] w2
              (names_resource_hashable w l1 F1)) as (blocks & w3 & H3 & A3 & _).
  destruct (load_prompts_from_returns env l2 [] w3
              (names_prompt_has_name w1 l2 F2)) as (l4 & w4 & H4 & F4).
  unfold Agent.build_conversation, Agent._load_selected_resources,
    Agent._load_selected_prompts.
  rewrite (bind_ret _ _ _ _ _ H1), (bind_ret _ _ _ _ _ H2),
    (bind_ret _ _ _ _ _ H3).
  rewrite (bind_ret _ _ _ _ _ (bind_ret _ _ _ _ _ H4)).
  eexists _, blocks, w4. reflexivity.
Qed.

(** X13.  With both catalogs empty a query is prepared without any
    request: the state is as before, the conversation holds the text of
    the query and nothing else, and the request that opens the tool use
    loop has no system instructions. *)
Theorem bare_query_conversation (env : Env) (prompt : string) (w : World) :
  Dict.is_empty (available_resources w) = true ->
  Dict.is_empty (available_prompts w) = true ->
  Agent.build_conversation env prompt w
  = (Ret ("", [user_turn [UText prompt]]), w)
  /\ forall tools,
       system (Agent.create_message_args tools "" [user_turn [UText prompt]])
       = None.
Proof.
  intros R P. split; [|reflexivity].
  unfold Agent.build_conversation.
  rewrite (bind_ret _ _ _ _ _ (select_resources_empty env prompt w R)).
  rewrite (bind_ret _ _ _ _ _ (select_prompts_empty env prompt w P)).
  reflexivity.
Qed.

Lemma bare_query_conversation_witness :
  Agent.build_conversation Demo.down "What is 2+2?" Scenes.bare
  = (Ret ("", [Demo.question]), Scenes.bare).
Proof.
  exact (proj1 (bare_query_conversation Demo.down "What is 2+2?" Scenes.bare
                  eq_refl eq_refl)).
Defined.

(** ** The session *)

Lemma input_reads (w : World) (line : string) (rest : list string) :
  stdin w = line :: rest ->
  input "You: " w
  = (Ret line, set_stdin rest (set_stdout (stdout w ++ ["You: "]) w)).
Proof. intros I. unfold input. run_monad. now rewrite I. Qed.

(** X14.  The line [goodbye], in any case of its letters, ends the
    session loop normally: the farewell is printed, the lines behind it
    are not read, and neither the LLM nor the session is asked. *)
Theorem goodbye_ends_session (env : Env) (turns fuel : nat)
  (tools : list ToolParam) (w : World) (prompt : string) (rest : list string) :
  stdin w = prompt :: rest ->
  PyStr.lower prompt = "goodbye" ->
  exists w',
    Agent.session_loop env turns (S fuel) tools w = (Ret tt, w')
    /\ stdin w' = rest
    /\ stdout w' = stdout w ++ ["You: "; "AI Assistant: Goodbye!"]
    /\ llm_calls w' = llm_calls w
    /\ mcp_log w' = mcp_log w.
Proof.
  intros I G. cbn [Agent.session_loop].
  rewrite (bind_ret _ _ _ _ _ (input_reads w prompt rest I)).
  rewrite G. cbn [String.eqb Ascii.eqb Bool.eqb].
  eexists. split; [reflexivity|]. cbn. rewrite <- app_assoc.
  repeat split.
Qed.

Lemma goodbye_ends_session_witness :
  exists w',
    Agent.session_loop Demo.down 1 1 [] (initial_world ["GoodBye"; "more"])
    = (Ret tt, w')
    /\ stdin w' = ["more"]
    /\ stdout w' = ["You: "; "AI Assistant: Goodbye!"]
    /\ llm_calls w' = []
    /\ mcp_log w' = [].
Proof.
  exact (goodbye_ends_session Demo.down 1 0 []
           (initial_world ["GoodBye"; "more"]) "GoodBye" ["more"]
           eq_refl eq_refl).
Defined.

(** The refresh makes no request to the LLM and reads and prints
    nothing. *)
Lemma refresh_frame (env : Env) (w w' : World) (r : res unit) :
  Agent._refresh env w = (r, w') ->
  llm_calls w' = llm_calls w /\ stdin w' = stdin w /\ stdout w' = stdout w
  /\ _connected w' = _connected w /\ r <> Timeout.
Proof.
  unfold Agent._refresh, MCPClient.get_available_resources,
    MCPClient.get_available_prompts, MCPClient.session_request.
  run_world.
  destruct (_connected w) eqn:C; cbn.
  2:{ intros H; inversion H; subst. repeat split; auto. discriminate. }
  destruct (session_list_resources env (length (mcp_log w))) as [e|rs]; cbn.
  { intros H; inversion H; subst. cbn. repeat split; auto. discriminate. }
  destruct rs as [|r0 rs]; cbn; rewrite C; cbn;
    destruct (session_list_prompts env _) as [e|[|p ps]]; cbn;
    intros H; inversion H; subst; cbn; repeat split; auto; discriminate.
Qed.

(** X15.  The line [refresh], in any case of its letters, reloads the
    catalogs and asks the LLM nothing.  When the refresh returns, the
    loop goes on with the next line; when it raises, the exception
    leaves the session loop. *)
Theorem refresh_command_reloads (env : Env) (turns fuel : nat)
  (tools : list ToolParam) (w : World) (prompt : string) (rest : list string) :
  stdin w = prompt :: rest ->
  PyStr.lower prompt = "refresh" ->
  exists r w2,
    Agent._refresh env (set_stdin rest (set_stdout (stdout w ++ ["You: "]) w))
    = (r, w2)
    /\ llm_calls w2 = llm_calls w
    /\ stdin w2 = rest
    /\ stdout w2 = stdout w ++ ["You: "]
    /\ match r with
       | Ret _ =>
           Agent.session_loop env turns (S fuel) tools w
           = Agent.session_loop env turns fuel tools w2
       | Raise e =>
           Agent.session_loop env turns (S fuel) tools w = (Raise e, w2)
       | Timeout => False
       end.
Proof.
  intros I G.
  destruct (Agent._refresh env
              (set_stdin rest (set_stdout (stdout w ++ ["You: "]) w)))
    as [r w2] eqn:R.
  destruct (refresh_frame _ _ _ _ R) as (L & In_ & Out & _ & N).
  exists r, w2. split; [reflexivity|]. split; [exact L|].
  split; [exact In_|]. split; [exact Out|].
  cbn [Agent.session_loop].
  rewrite (bind_ret _ _ _ _ _ (input_reads w prompt rest I)).
  rewrite G. cbn [String.eqb Ascii.eqb Bool.eqb].
  destruct r as [[]| e |].
  - now rewrite (bind_ret _ _ _ _ _ R).
  - now rewrite (bind_raise _ _ _ _ _ R).
  - now apply N.
Qed.

Lemma refresh_command_reloads_witness :
  exists w2,
    Agent.session_loop Scenes.doubled 1 2 [] (Demo.ready ["Refresh"; "goodbye"])
    = Agent.session_loop Scenes.doubled 1 1 [] w2
    /\ llm_calls w2 = []
    /\ stdin w2 = ["goodbye"].
Proof.
  destruct (refresh_command_reloads Scenes.doubled 1 1 []
              (Demo.ready ["Refresh"; "goodbye"]) "Refresh" ["goodbye"]
              eq_refl eq_refl) as (r & w2 & R & L & I & _ & M).
  exists w2. split; [|split; [exact L|exact I]].
  assert (E : r = Ret tt).
  { change r with (fst (r, w2)). rewrite <- R. reflexivity. }
  rewrite E in M. exact M.
Defined.

(** X16.  At the end of the input the read raises [EOFError], which
    nothing handles: the session loop raises it, and under the
    [finally] clause of [run] the client is disconnected first.  (When
    closing the connection raises in its turn, it is that exception
    that goes on, and the flag is not reset.) *)
Theorem end_of_input_ends_session (env : Env) (turns fuel : nat)
  (tools : list ToolParam) (w : World) :
  stdin w = [] ->
  Agent.session_loop env turns (S fuel) tools w
  = (Raise EOFError, set_stdout (stdout w ++ ["You: "]) w)
  /\ try_finally (Agent.session_loop env turns (S fuel) tools)
       (MCPClient.disconnect env) w
     = match exit_stack_aclose env with
       | inr _ =>
           (Raise EOFError,
            set_connected false (set_stdout (stdout w ++ ["You: "]) w))
       | inl e' => (Raise e', set_stdout (stdout w ++ ["You: "]) w)
       end.
Proof.
  intros I.
  assert (H : Agent.session_loop env turns (S fuel) tools w
              = (Raise EOFError, set_stdout (stdout w ++ ["You: "]) w)).
  { cbn [Agent.session_loop]. apply bind_raise. unfold input. run_monad.
    now rewrite I. }
  split; [exact H|]. exact (finally_disconnects env _ _ _ _ H).
Qed.

Lemma end_of_input_ends_session_witness :
  Agent.session_loop Demo.down 1 1 [] (Demo.ready [])
  = (Raise EOFError, set_stdout ["You: "] (Demo.ready [])).
Proof.
  exact (proj1 (end_of_input_ends_session Demo.down 1 0 [] (Demo.ready [])
                  eq_refl)).
Defined.

(** X17.  When the connection cannot be made at the start, because the
    server process does not start or the session is not initialized,
    [run] raises the exception of the connection after the welcome line:
    no line is read, nothing is asked of the LLM or of the session, and
    the client is not connected.  (When closing the exit stack raises in
    its turn, it is that exception that [run] raises.) *)
Theorem failed_connection_ends_program (env : Env) (turns fuel : nat)
  (w : World) (e : exn) :
  _connected w = false ->
  stdio_client env = inl e
  \/ (stdio_client env = inr tt /\ session_initialize env = inl e) ->
  exists w',
    Agent.run env turns fuel w
    = (match exit_stack_aclose env with
       | inr _ => Raise e
       | inl e' => Raise e'
       end, w')
    /\ stdout w' = stdout w ++ [Agent.welcome]
    /\ stdin w' = stdin w
    /\ llm_calls w' = llm_calls w
    /\ mcp_log w' = mcp_log w
    /\ _connected w' = false.
Proof.
  intros C F.
  unfold Agent.run, Agent.startup, MCPClient.connect, try_finally,
    MCPClient.disconnect.
  run_world. rewrite C.
  destruct F as [F|[F1 F2]].
  - rewrite F. cbn. destruct (exit_stack_aclose env); cbn;
      eexists; (split; [reflexivity|]); cbn; repeat split; exact C.
  - rewrite F1. cbn. rewrite F2. cbn. destruct (exit_stack_aclose env); cbn;
      eexists; (split; [reflexivity|]); cbn; repeat split; exact C.
Qed.

Lemma failed_connection_ends_program_witness :
  (exists w',
     Agent.run Scenes.unstartable 5 5 (initial_world ["What is 2+2?"])
     = (Raise Scenes.no_process, w')
     /\ stdout w' = [Agent.welcome]
     /\ stdin w' = ["What is 2+2?"])
  /\ (exists w',
        Agent.run Scenes.uninitialized 5 5 (initial_world ["What is 2+2?"])
        = (Raise Scenes.no_handshake, w')
        /\ stdout w' = [Agent.welcome]
        /\ stdin w' = ["What is 2+2?"]).
Proof.
  split.
  - destruct (failed_connection_ends_program Scenes.unstartable 5 5
                (initial_world ["What is 2+2?"]) Scenes.no_process eq_refl
                (or_introl eq_refl)) as (w' & H & O & I & _).
    exists w'. split; [exact H|]. split; [exact O|exact I].
  - destruct (failed_connection_ends_program Scenes.uninitialized 5 5
                (initial_world ["What is 2+2?"]) Scenes.no_handshake eq_refl
                (or_intror (conj eq_refl eq_refl))) as (w' & H & O & I & _).
    exists w'. split; [exact H|]. split; [exact O|exact I].
Defined.

(** ** More on the tool use loop *)

Lemma use_tool_frame (env : Env) (name : string) (input : json) (w w' : World)
  (r : res (list string)) :
  MCPClient.use_tool env name input w = (r, w') -> session_only w w'.
Proof.
  unfold MCPClient.use_tool, MCPClient.session_request, session_only.
  run_world. destruct (_connected w) eqn:C; cbn.
  2:{ intros H; inversion H; subst. repeat split; auto. }
  destruct (session_call_tool env (length (mcp_log w)) name input)
    as [e|[|p parts]]; cbn; intros H; inversion H; subst; cbn;
    repeat split; auto.
Qed.

Lemma execute_tools_results (env : Env) (blocks : list ContentBlock) :
  forall (acc results : list UserBlock) (w w' : World),
    forallb Agent.is_tool_use blocks = true ->
    Agent.execute_tools env blocks acc w = (Ret results, w') ->
    session_only w w'
    /\ exists contents,
         results = acc ++ tool_result_blocks (tool_use_ids blocks) contents
         /\ length contents = length (tool_use_ids blocks).
Proof.
  induction blocks as [|b blocks IH]; intros acc results w w' T H.
  - cbn in H. inversion H; subst. split; [apply session_only_refl|].
    exists []. cbn. now rewrite app_nil_r.
  - cbn in T. apply andb_prop in T. destruct T as [Tb T].
    destruct b as [t | id name input | ]; try discriminate.
    cbn [Agent.execute_tools] in H. unfold bind in H.
    destruct (MCPClient.use_tool env name input w) as [[out|e|] w1] eqn:U;
      try discriminate.
    destruct (IH _ _ _ _ T H) as (F & contents & E & Len).
    split; [exact (session_only_trans _ _ _ (use_tool_frame _ _ _ _ _ _ U) F)|].
    exists (PyStr.join LF out :: contents). split.
    + rewrite E. cbn. now rewrite <- app_assoc.
    + cbn. now rewrite Len.
Qed.

(** An iteration that returns has asked the LLM once, and either left
    the loop on a response that requests no tool or added the two turns
    of a response that requests tools. *)
Lemma tool_loop_body_cases (env : Env) (tools : list ToolParam) (sys : string)
  (conv : list Message) (w w' : World) (c : Agent.LoopControl) :
  Agent.tool_loop_body env tools sys conv w = (Ret c, w') ->
  exists response,
    length (llm_calls w') = S (length (llm_calls w))
    /\ ((c = Agent.Break (conv ++ [assistant_turn response])
         /\ stop_reason response <> "tool_use")
        \/ (exists results,
              c = Agent.Continue
                    ((conv ++ [assistant_turn response]) ++ [user_turn results])
              /\ answered_request (response, results))).
Proof.
  unfold Agent.tool_loop_body. intros H. unfold bind at 1 in H.
  unfold Agent.messages_create in H. revert H. run_monad.
  destruct (llm env _ _) as [e|response]; cbn; [discriminate|].
  destruct (String.eqb (stop_reason response) "tool_use") eqn:T.
  - apply String.eqb_eq in T. intros H. unfold bind in H.
    destruct (Agent.execute_tools env _ [] _) as [[results|e|] w1] eqn:E;
      try discriminate.
    inversion H; subst; clear H.
    destruct (execute_tools_results env _ _ _ _ _ (forallb_filter_id _ _) E)
      as ((_ & _ & _ & L & _) & contents & R & Len).
    exists response. split.
    { rewrite L. cbn. rewrite length_app. cbn. lia. }
    right. exists results. split; [reflexivity|]. split; [exact T|].
    cbn [fst snd]. rewrite R. rewrite tool_use_ids_filter in *. cbn [app].
    now apply correlation_ids_tool_result_blocks.
  - apply String.eqb_neq in T. intros H.
    destruct (Agent.text_blocks (response_content response));
      revert H; run_world; intros H; inversion H; subst; cbn;
      exists response; (split; [rewrite length_app; cbn; lia|]);
      left; split; auto.
Qed.

(** X19.  The conversation only grows, and in a fixed shape: when the
    tool use loop returns, the history is the initial conversation, then
    for each response that requested tools its assistant turn and one
    user turn with a result for each of its requests, in their order,
    then the assistant turn of the one response that requested no tool.
    The LLM was asked once for each of these responses. *)
Theorem tool_loop_history_shape (env : Env) (turns : nat)
  (tools : list ToolParam) (sys : string) :
  forall (conv history : list Message) (w w' : World),
    Agent.tool_use_loop env turns tools sys conv w = (Ret history, w') ->
    exists steps final,
      history = conv ++ exchange_turns steps ++ [assistant_turn final]
      /\ Forall answered_request steps
      /\ stop_reason final <> "tool_use"
      /\ length steps < turns
      /\ length (llm_calls w') = length (llm_calls w) + S (length steps).
Proof.
  induction turns as [|turns IH]; intros conv history w w' H;
    [discriminate|].
  cbn [Agent.tool_use_loop] in H. unfold bind in H.
  destruct (Agent.tool_loop_body env tools sys conv w) as [[c|e|] w1] eqn:B;
    try discriminate.
  destruct (tool_loop_body_cases env tools sys conv w w1 c B)
    as (response & L & [[-> N]|(results & -> & A)]).
  - inversion H; subst. exists [], response. cbn.
    repeat split; auto; lia.
  - destruct (IH _ _ _ _ H) as (steps & final & E & F & N & Len & Calls).
    exists ((response, results) :: steps), final.
    split; [rewrite E; cbn; now rewrite <- !app_assoc|].
    split; [now constructor|]. split; [exact N|].
    split; [cbn; lia|]. cbn. lia.
Qed.

Lemma tool_loop_history_shape_witness :
  exists steps final,
    [Demo.question; assistant_turn Demo.one_request;
     user_turn [UToolResult "A" "4"]; assistant_turn Demo.final_answer]
    = [Demo.question] ++ exchange_turns steps ++ [assistant_turn final]
    /\ Forall answered_request steps
    /\ stop_reason final <> "tool_use"
    /\ length steps < 2.
Proof.
  destruct (tool_loop_history_shape
              (Demo.server
                 (Demo.scripted [inr Demo.one_request; inr Demo.final_answer]))
              2 [] "" [Demo.question]
              [Demo.question; assistant_turn Demo.one_request;
               user_turn [UToolResult "A" "4"];
               assistant_turn Demo.final_answer]
              (Demo.ready [])
              (snd (Agent.tool_use_loop
                      (Demo.server
                         (Demo.scripted
                            [inr Demo.one_request; inr Demo.final_answer]))
                      2 [] "" [Demo.question] (Demo.ready []))))
    as (steps & final & E & F & N & Len & _).
  - vm_compute. reflexivity.
  - exists steps, final. repeat split; assumption.
Defined.

Lemma use_tool_raises (env : Env) (name : string) (input : json) (w : World)
  (e : exn) :
  _connected w = true ->
  session_call_tool env (length (mcp_log w)) name input = inl e ->
  MCPClient.use_tool env name input w
  = (Raise e, set_mcp_log (mcp_log w ++ [ReqCallTool name input]) w).
Proof.
  intros C H. unfold MCPClient.use_tool, MCPClient.session_request.
  run_monad. rewrite C. cbn. now rewrite H.
Qed.

Lemma execute_tools_raises (env : Env) (pre : list ContentBlock) :
  forall (post : list ContentBlock) (acc : list UserBlock) (w : World)
         (id name : string) (input : json) (e : exn),
    _connected w = true ->
    forallb Agent.is_tool_use pre = true ->
    (forall k id' name' input',
        nth_error pre k = Some (ToolUseBlock id' name' input') ->
        exists parts,
          session_call_tool env (length (mcp_log w) + k) name' input'
          = inr parts) ->
    session_call_tool env (length (mcp_log w) + length pre) name input
    = inl e ->
    exists w',
      Agent.execute_tools env (pre ++ ToolUseBlock id name input :: post) acc w
      = (Raise e, w')
      /\ mcp_log w' = mcp_log w ++ tool_requests pre ++ [ReqCallTool name input]
      /\ stdout w' = stdout w
      /\ llm_calls w' = llm_calls w.
Proof.
  induction pre as [|b pre IH]; intros post acc w id name input e C T Hs He.
  - cbn in He. rewrite Nat.add_0_r in He. cbn [app Agent.execute_tools].
    rewrite (bind_raise _ _ _ _ _ (use_tool_raises env name input w e C He)).
    eexists. repeat split.
  - cbn in T. apply andb_prop in T. destruct T as [Tb T].
    destruct b as [t | id0 name0 input0 | ]; try discriminate.
    destruct (Hs 0 id0 name0 input0 eq_refl) as [parts Hp].
    rewrite Nat.add_0_r in Hp.
    destruct (use_tool_returns env name0 input0 w parts C Hp)
      as (w1 & U & L1 & (_ & _ & C1 & M1 & _ & O1)).
    cbn [app Agent.execute_tools]. rewrite (bind_ret _ _ _ _ _ U).
    destruct (IH post
                (acc ++ [Agent.tool_result_block id0
                           (flat_map MCPClient.tool_content_results parts)])
                w1 id name input e) as (w' & H & L & O & M).
    + congruence.
    + exact T.
    + intros k id' name' input' Hk. rewrite L1, length_app. cbn.
      replace (length (mcp_log w) + 1 + k) with (length (mcp_log w) + S k)
        by lia.
      exact (Hs (S k) id' name' input' Hk).
    + rewrite L1, length_app. cbn.
      replace (length (mcp_log w) + 1 + length pre)
        with (length (mcp_log w) + length (ToolUseBlock id0 name0 input0 :: pre))
        by (cbn; lia).
      exact He.
    + exists w'. split; [exact H|]. split; [|split; congruence].
      rewrite L, L1. unfold tool_requests. cbn. now rewrite <- !app_assoc.
Qed.

(** X20.  A tool invocation that raises is not turned into a result: its
    exception leaves the iteration and the tool use loop, the requests
    behind it in the response are not executed, no user turn is added
    and nothing is printed. *)
Theorem failed_tool_call_leaves_loop (env : Env) (tools : list ToolParam)
  (sys : string) (conv : list Message) (w : World) (response : Response)
  (pre post : list ContentBlock) (id name : string) (input : json) (e : exn) :
  _connected w = true ->
  llm env (length (llm_calls w)) (Agent.create_message_args tools sys conv)
  = inr response ->
  stop_reason response = "tool_use" ->
  filter Agent.is_tool_use (response_content response)
  = pre ++ ToolUseBlock id name input :: post ->
  (forall k id' name' input',
      nth_error pre k = Some (ToolUseBlock id' name' input') ->
      exists parts,
        session_call_tool env (length (mcp_log w) + k) name' input'
        = inr parts) ->
  session_call_tool env (length (mcp_log w) + length pre) name input = inl e ->
  exists w',
    Agent.tool_loop_body env tools sys conv w = (Raise e, w')
    /\ (forall turns,
          Agent.tool_use_loop env (S turns) tools sys conv w = (Raise e, w'))
    /\ mcp_log w' = mcp_log w ++ tool_requests pre ++ [ReqCallTool name input]
    /\ stdout w' = stdout w.
Proof.
  intros C R T B Hs He.
  assert (Tp : forallb Agent.is_tool_use pre = true).
  { pose proof (forallb_filter_id Agent.is_tool_use (response_content response))
      as F. rewrite B, forallb_app in F. now apply andb_prop in F. }
  destruct (execute_tools_raises env pre post []
              (set_llm_calls
                 (llm_calls w ++ [Agent.create_message_args tools sys conv]) w)
              id name input e C Tp Hs He) as (w' & H & L & O & _).
  assert (Hb : Agent.tool_loop_body env tools sys conv w = (Raise e, w')).
  { unfold Agent.tool_loop_body.
    rewrite (bind_ret _ _ _ _ _ (messages_create_returns env _ w response R)).
    rewrite T. cbn [String.eqb Ascii.eqb Bool.eqb]. rewrite B.
    now rewrite (bind_raise _ _ _ _ _ H). }
  exists w'. split; [exact Hb|]. split; [|split; [exact L|exact O]].
  intros turns. cbn [Agent.tool_use_loop]. now apply bind_raise.
Qed.

Lemma failed_tool_call_leaves_loop_witness :
  exists w',
    Agent.tool_use_loop Scenes.flaky 3 [] "" [Demo.question] (Demo.ready [])
    = (Raise Scenes.timed_out, w')
    /\ length (mcp_log w') = 2
    /\ stdout w' = [].
Proof.
  destruct (failed_tool_call_leaves_loop Scenes.flaky [] "" [Demo.question]
              (Demo.ready []) Demo.three_requests
              [ToolUseBlock "A" "add"
                 (JObject [("a", JNumber "1"); ("b", JNumber "1")])]
              [ToolUseBlock "C" "add"
                 (JObject [("a", JNumber "3"); ("b", JNumber "1")])]
              "B" "add" (JObject [("a", JNumber "2"); ("b", JNumber "2")])
              Scenes.timed_out)
    as (w' & _ & H & L & O); try reflexivity.
  - intros [|k] id' name' input' Hk; [|destruct k; discriminate Hk].
    eexists. reflexivity.
  - exists w'. split; [exact (H 2)|]. split; [rewrite L; reflexivity|exact O].
Defined.

(** X21.  The tool use loop has no cap of its own: with a model that
    asks for tools in every response and a session that answers every
    invocation, every bound on the iterations is used up, one request to
    the LLM for each iteration. *)
Theorem tool_loop_has_no_cap (env : Env) (tools : list ToolParam)
  (sys : string) :
  (forall n args, exists response,
      llm env n args = inr response /\ stop_reason response = "tool_use") ->
  (forall k name input, exists parts,
      session_call_tool env k name input = inr parts) ->
  forall (turns : nat) (conv : list Message) (w : World),
    _connected w = true ->
    exists w',
      Agent.tool_use_loop env turns tools sys conv w = (Timeout, w')
      /\ length (llm_calls w') = length (llm_calls w) + turns.
Proof.
  intros Hl Ht. induction turns as [|turns IH]; intros conv w C.
  - exists w. cbn. split; [reflexivity|lia].
  - destruct (Hl (length (llm_calls w))
                (Agent.create_message_args tools sys conv))
      as (response & R & T).
    destruct (tool_use_iteration env tools sys conv w response C R T)
      as (results & w1 & H & _ & _ & _ & (_ & _ & C1 & M1 & _)).
    { intros k id name input _. apply Ht. }
    cbn in C1, M1.
    destruct (IH ((conv ++ [assistant_turn response]) ++ [user_turn results])
                w1) as (w' & H' & L'); [congruence|].
    exists w'. cbn [Agent.tool_use_loop]. rewrite (bind_ret _ _ _ _ _ H).
    split; [exact H'|]. rewrite L', M1, length_app. cbn. lia.
Qed.

Lemma tool_loop_has_no_cap_witness :
  exists w',
    Agent.tool_use_loop Scenes.insistent 7 [] "" [Demo.question] (Demo.ready [])
    = (Timeout, w')
    /\ length (llm_calls w') = 7.
Proof.
  apply (tool_loop_has_no_cap Scenes.insistent [] "").
  - intros n args. exists Demo.one_request. split; reflexivity.
  - intros k name input. eexists. reflexivity.
  - reflexivity.
Defined.

(** ** The parts of a fetched resource *)

Lemma load_contents_loadable (name : string) (pre : list ResourceContents) :
  forall (rest : list ResourceContents) (acc : list UserBlock),
    forallb loadable pre = true ->
    Agent.load_contents name (pre ++ rest) acc
    = Agent.load_contents name rest (acc ++ flat_map (part_blocks name) pre).
Proof.
  induction pre as [|c pre IH]; intros rest acc L.
  - cbn. now rewrite app_nil_r.
  - cbn in L. apply andb_prop in L. destruct L as [Lc L].
    destruct c as [u m t | u m b]; cbn [app Agent.load_contents flat_map part_blocks].
    + rewrite (IH _ _ L). now rewrite <- app_assoc.
    + unfold loadable in Lc. destruct (Agent.is_image_type m); [|discriminate].
      rewrite (IH _ _ L). now rewrite <- app_assoc.
Qed.

Lemma part_blocks_length (name : string) (pre : list ResourceContents) :
  forallb loadable pre = true ->
  length (flat_map (part_blocks name) pre) = length pre.
Proof.
  induction pre as [|c pre IH]; intros L; [reflexivity|].
  cbn in L. apply andb_prop in L. destruct L as [Lc L].
  cbn [flat_map]. rewrite length_app, (IH L).
  destruct c as [u m t | u m b]; cbn [part_blocks]; [reflexivity|].
  unfold loadable in Lc. now destruct (Agent.is_image_type m).
Qed.

Lemma image_type_recognised (m : string) :
  In m Agent.image_types -> Agent.is_image_type (Some m) = Some m.
Proof.
  intros H. unfold Agent.is_image_type.
  replace (existsb (String.eqb m) Agent.image_types) with true; [reflexivity|].
  symmetry. apply existsb_exists. exists m. split; [exact H|].
  apply String.eqb_refl.
Qed.

(** Loading a selected resource of the catalog whose fetch gives parts:
    the line of the selection is printed, one request is made, and the
    blocks of the loop over the parts are added. *)
Lemma load_resource_parts (env : Env) (name : string) (acc : list UserBlock)
  (w : World) (resource : Resource) (c : ResourceContents)
  (contents : list ResourceContents) :
  _connected w = true ->
  Dict.get name (available_resources w) = Some resource ->
  session_read_resource env (length (mcp_log w)) (resource_uri resource)
  = inr (c :: contents) ->
  Agent.load_resource env name acc w
  = (Ret (fst (Agent.load_contents name (c :: contents) acc)),
     set_mcp_log (mcp_log w ++ [ReqReadResource (resource_uri resource)])
       (set_stdout (stdout w ++ ["LLM selected resource: " +++ name]) w)).
Proof.
  intros C G R.
  unfold Agent.load_resource, MCPClient.get_resource, MCPClient.session_request.
  run_world. rewrite G, C. cbn. rewrite R. reflexivity.
Qed.

(** X22.  A part of a fetched resource that is a blob of one of the four
    image types is handed on as an image block with the media type and
    the data of the part as they are, at the place of the part, when the
    parts before it are text or such images. *)
Theorem image_part_is_passed_on (env : Env) (w : World) (name : string)
  (resource : Resource) (pre post : list ResourceContents)
  (uri m blob : string) :
  _connected w = true ->
  Dict.get name (available_resources w) = Some resource ->
  session_read_resource env (length (mcp_log w)) (resource_uri resource)
  = inr (pre ++ BlobResourceContents uri (Some m) blob :: post) ->
  In m Agent.image_types ->
  forallb loadable pre = true ->
  exists blocks w',
    Agent._load_selected_resources env [JString name] w = (Ret blocks, w')
    /\ nth_error blocks (length pre) = Some (UImage m blob).
Proof.
  intros C G R I L.
  destruct (load_one_resource env w name resource _ C G R) as [w' H].
  eexists _, w'. split; [exact H|].
  rewrite (load_contents_loadable name pre _ [] L).
  cbn [Agent.load_contents app]. rewrite (image_type_recognised m I).
  destruct (load_contents_extends name post
              (flat_map (part_blocks name) pre ++ [UImage m blob]))
    as [l ->].
  rewrite <- app_assoc. rewrite nth_error_app2;
    rewrite (part_blocks_length name pre L); [|lia].
  now rewrite Nat.sub_diag.
Qed.

Lemma image_part_is_passed_on_witness :
  exists blocks w',
    Agent._load_selected_resources Scenes.mixed [JString "math-constants"]
      (Demo.ready [])
    = (Ret blocks, w')
    /\ nth_error blocks 1 = Some (UImage "image/png" "iVBORw0KGgo=").
Proof.
  apply (image_part_is_passed_on Scenes.mixed (Demo.ready []) "math-constants"
           Demo.math_constants
           [TextResourceContents "resource://math-constants" (Some "text/plain")
              "pi = 3.14159"]
           [BlobResourceContents "resource://math-constants"
              (Some "application/pdf") "JVBERi0xLjQ=";
            TextResourceContents "resource://math-constants" (Some "text/plain")
              "e = 2.71828"]
           "resource://math-constants" "image/png" "iVBORw0KGgo=");
    try reflexivity.
  right. left. reflexivity.
Defined.

(** X23.  A part that is neither text nor a blob of one of the image
    types ends the loading of its resource without a word: the blocks of
    the parts before it are kept, the parts behind it are not loaded,
    text or not, no warning line is printed, and the loading goes on
    with the resources selected behind this one. *)
Theorem unsupported_part_cuts_resource (env : Env) (w : World) (name : string)
  (resource : Resource) (pre post : list ResourceContents)
  (uri blob : string) (mime : option string) (rest : list json)
  (acc : list UserBlock) :
  _connected w = true ->
  Dict.get name (available_resources w) = Some resource ->
  session_read_resource env (length (mcp_log w)) (resource_uri resource)
  = inr (pre ++ BlobResourceContents uri mime blob :: post) ->
  Agent.is_image_type mime = None ->
  forallb loadable pre = true ->
  exists w',
    Agent.load_resources_from env (JString name :: rest) acc w
    = Agent.load_resources_from env rest
        (acc ++ flat_map (part_blocks name) pre) w'
    /\ stdout w' = stdout w ++ ["LLM selected resource: " +++ name]
    /\ mcp_log w' = mcp_log w ++ [ReqReadResource (resource_uri resource)]
    /\ warnings w' = warnings w.
Proof.
  intros C G R U L.
  assert (E : exists c contents,
             pre ++ BlobResourceContents uri mime blob :: post = c :: contents).
  { destruct pre; cbn; eauto. }
  destruct E as (c & contents & E). rewrite E in R.
  pose proof (load_resource_parts env name acc w resource c contents C G R)
    as H.
  rewrite <- E, (load_contents_loadable name pre _ acc L) in H.
  cbn [Agent.load_contents] in H. rewrite U in H. cbn [fst] in H.
  eexists. split.
  - cbn [Agent.load_resources_from]. unfold get_world at 1. unfold bind at 1.
    cbn [py_key lift]. unfold bind at 1, lift, py_key. cbn.
    rewrite (get_mem _ _ _ G).
    rewrite (bind_ret _ _ _ _ _ H). reflexivity.
  - repeat split.
Qed.

Lemma unsupported_part_cuts_resource_witness :
  exists w',
    Agent._load_selected_resources Scenes.mixed [JString "math-constants"]
      (Demo.ready [])
    = (Ret [UText ("[Resource: math-constants]" +++ LF +++ "pi = 3.14159");
            UImage "image/png" "iVBORw0KGgo="], w')
    /\ stdout w' = ["LLM selected resource: math-constants"].
Proof.
  destruct (unsupported_part_cuts_resource Scenes.mixed (Demo.ready [])
              "math-constants" Demo.math_constants
              [TextResourceContents "resource://math-constants"
                 (Some "text/plain") "pi = 3.14159";
               BlobResourceContents "resource://math-constants"
                 (Some "image/png") "iVBORw0KGgo="]
              [TextResourceContents "resource://math-constants"
                 (Some "text/plain") "e = 2.71828"]
              "resource://math-constants" "JVBERi0xLjQ="
              (Some "application/pdf") [] [])
    as (w' & H & O & _); try reflexivity.
  exists w'. split; [exact H|exact O].
Defined.

(** ** The start *)

Lemma get_available_tools_returns (env : Env) (w : World) (tools : list Tool) :
  _connected w = true ->
  session_list_tools env (length (mcp_log w)) = inr tools ->
  exists w',
    MCPClient.get_available_tools env w
    = (Ret (map (fun tool => {| tp_name := tool_name tool;
                                tp_description := tool_description tool;
                                tp_input_schema := tool_inputSchema tool |})
              tools), w')
    /\ mcp_log w' = mcp_log w ++ [ReqListTools]
    /\ session_only w w'.
Proof.
  intros C T.
  unfold MCPClient.get_available_tools, MCPClient.session_request, session_only.
  run_world. rewrite C. cbn. rewrite T.
  destruct tools; cbn; eexists; (split; [reflexivity|]); cbn;
    repeat split; auto.
Qed.

(** The start, when the connection is made and the three listings are
    answered. *)
Lemma startup_returns (env : Env) (w : World)
  (tools : list Tool) (resources : list Resource) (prompts : list Prompt) :
  _connected w = false ->
  stdio_client env = inr tt ->
  session_initialize env = inr tt ->
  session_list_tools env (length (mcp_log w)) = inr tools ->
  session_list_resources env (S (length (mcp_log w))) = inr resources ->
  session_list_prompts env (S (S (length (mcp_log w)))) = inr prompts ->
  exists w',
    Agent.startup env w
    = (Ret (map (fun tool => {| tp_name := tool_name tool;
                                tp_description := tool_description tool;
                                tp_input_schema := tool_inputSchema tool |})
              tools), w')
    /\ _connected w' = true
    /\ mcp_log w' = mcp_log w ++ [ReqListTools; ReqListResources; ReqListPrompts]
    /\ available_resources w' = Dict.of_list resource_name resources
    /\ available_prompts w' = Dict.of_list prompt_name prompts
    /\ stdout w'
       = stdout w
         ++ [Agent.welcome;
             "Loaded "
             +++ PyStr.of_nat (length (Dict.of_list resource_name resources))
             +++ " resources and "
             +++ PyStr.of_nat (length (Dict.of_list prompt_name prompts))
             +++ " prompts"]
    /\ llm_calls w' = llm_calls w
    /\ stdin w' = stdin w.
Proof.
  intros C S1 S2 T R P.
  set (w1 := set_connected true (set_stdout (stdout w ++ [Agent.welcome]) w)).
  assert (H1 : bind (print Agent.welcome) (fun _ => MCPClient.connect env) w
               = (Ret tt, w1)).
  { unfold MCPClient.connect. run_world. rewrite C, S1. cbn. rewrite S2.
    reflexivity. }
  destruct (get_available_tools_returns env w1 tools eq_refl T)
    as (w2 & H2 & L2 & (_ & _ & C2 & M2 & I2 & O2)).
  assert (R' : session_list_resources env (length (mcp_log w2)) = inr resources).
  { rewrite L2, length_app. cbn. now rewrite Nat.add_1_r. }
  assert (P' : session_list_prompts env (S (length (mcp_log w2))) = inr prompts).
  { rewrite L2, length_app. cbn. now rewrite Nat.add_1_r. }
  destruct (refresh_returns env w2 resources prompts C2 R' P')
    as (w3 & H3 & A3 & B3 & L3).
  destruct (refresh_frame env w2 w3 _ H3) as (M3 & I3 & O3 & C3 & _).
  eexists. split.
  - unfold Agent.startup.
    change (print Agent.welcome ;; MCPClient.connect env ;;
            available_tools <- MCPClient.get_available_tools env ;;
            Agent._refresh env ;;
            w0 <- get_world ;;
            print ("Loaded " +++ PyStr.of_nat (length (available_resources w0))
                   +++ " resources and "
                   +++ PyStr.of_nat (length (available_prompts w0))
                   +++ " prompts") ;;
            ret available_tools)
      with (fun w =>
              match bind (print Agent.welcome) (fun _ => MCPClient.connect env) w
              with
              | (Ret _, w') =>
                  (available_tools <- MCPClient.get_available_tools env ;;
                   Agent._refresh env ;;
                   w0 <- get_world ;;
                   print ("Loaded "
                          +++ PyStr.of_nat (length (available_resources w0))
                          +++ " resources and "
                          +++ PyStr.of_nat (length (available_prompts w0))
                          +++ " prompts") ;;
                   ret available_tools) w'
              | (Raise e, w') => (Raise e, w')
              | (Timeout, w') => (Timeout, w')
              end).
    cbv beta. rewrite H1.
    rewrite (bind_ret _ _ _ _ _ H2), (bind_ret _ _ _ _ _ H3).
    run_world. rewrite A3, B3. reflexivity.
  - cbn. rewrite C3, C2, L3, L2, M3, M2, I3, I2, O3, O2.
    subst w1. cbn. rewrite <- !app_assoc. repeat split; assumption.
Qed.

(** X24.  A start that succeeds: after the welcome line the client is
    connected, the session is asked for the tools, the resources and
    the prompts, in this order and once each, and the line that follows
    reports the sizes of the two catalogs, which count the names and
    not the listed entries.  The tools go to the session loop as their
    name, description and input schema; the LLM is not asked and no
    line is read. *)
Theorem startup_lists_tools_then_catalogs (env : Env) (w : World)
  (tools : list Tool) (resources : list Resource) (prompts : list Prompt) :
  _connected w = false ->
  stdio_client env = inr tt ->
  session_initialize env = inr tt ->
  session_list_tools env (length (mcp_log w)) = inr tools ->
  session_list_resources env (S (length (mcp_log w))) = inr resources ->
  session_list_prompts env (S (S (length (mcp_log w)))) = inr prompts ->
  exists w',
    Agent.startup env w
    = (Ret (map (fun tool => {| tp_name := tool_name tool;
                                tp_description := tool_description tool;
                                tp_input_schema := tool_inputSchema tool |})
              tools), w')
    /\ _connected w' = true
    /\ mcp_log w' = mcp_log w ++ [ReqListTools; ReqListResources; ReqListPrompts]
    /\ available_resources w' = Dict.of_list resource_name resources
    /\ available_prompts w' = Dict.of_list prompt_name prompts
    /\ stdout w'
       = stdout w
         ++ [Agent.welcome;
             "Loaded "
             +++ PyStr.of_nat (length (Dict.of_list resource_name resources))
             +++ " resources and "
             +++ PyStr.of_nat (length (Dict.of_list prompt_name prompts))
             +++ " prompts"]
    /\ llm_calls w' = llm_calls w
    /\ stdin w' = stdin w.
Proof. exact (startup_returns env w tools resources prompts). Qed.

Lemma startup_lists_tools_then_catalogs_witness :
  exists w',
    Agent.startup Scenes.doubled (initial_world []) = (Ret [], w')
    /\ mcp_log w' = [ReqListTools; ReqListResources; ReqListPrompts]
    /\ stdout w' = [Agent.welcome; "Loaded 2 resources and 1 prompts"].
Proof.
  destruct (startup_lists_tools_then_catalogs Scenes.doubled (initial_world [])
              [] [Scenes.first_pi; Demo.math_constants; Scenes.second_pi]
              [Demo.step_by_step] eq_refl eq_refl eq_refl eq_refl eq_refl
              eq_refl) as (w' & H & _ & L & _ & _ & O & _).
  exists w'. split; [exact H|]. split; [exact L|exact O].
Defined.

(** ** The end of [run] *)

Lemma goodbye_returns (env : Env) (turns fuel : nat) (tools : list ToolParam)
  (w : World) (line : string) (rest : list string) :
  stdin w = line :: rest ->
  PyStr.lower line = "goodbye" ->
  exists w',
    Agent.session_loop env turns (S fuel) tools w = (Ret tt, w')
    /\ stdin w' = rest
    /\ stdout w' = stdout w ++ ["You: "; "AI Assistant: Goodbye!"]
    /\ _connected w' = _connected w.
Proof.
  intros I G. cbn [Agent.session_loop].
  rewrite (bind_ret _ _ _ _ _ (input_reads w line rest I)).
  rewrite G. cbn [String.eqb Ascii.eqb Bool.eqb].
  eexists. split; [reflexivity|]. cbn. rewrite <- app_assoc.
  repeat split.
Qed.

(** X18.  The [finally] clause of [run] closes the exit stack of the
    client however the [try] block ended, and resets the flag behind
    the closing.  When the closing returns, the client is disconnected
    once [run] has ended.  When the closing raises, [run] raises its
    exception, whatever the block did, and the flag is not reset: a
    session that started and was ended by the farewell then ends in this
    exception, with a client that still counts as connected. *)
Theorem cleanup_decides_the_end (env : Env) (turns : nat) :
  (forall fuel w w' r,
      Agent.run env turns fuel w = (r, w') ->
      r <> Timeout ->
      match exit_stack_aclose env with
      | inr _ => _connected w' = false
      | inl e' => r = Raise e'
      end)
  /\ (forall fuel w tools resources prompts line rest,
        _connected w = false ->
        stdio_client env = inr tt ->
        session_initialize env = inr tt ->
        session_list_tools env (length (mcp_log w)) = inr tools ->
        session_list_resources env (S (length (mcp_log w))) = inr resources ->
        session_list_prompts env (S (S (length (mcp_log w)))) = inr prompts ->
        stdin w = line :: rest ->
        PyStr.lower line = "goodbye" ->
        exists w1,
          Agent.run env turns (S fuel) w
          = match exit_stack_aclose env with
            | inr _ => (Ret tt, set_connected false w1)
            | inl e' => (Raise e', w1)
            end
          /\ _connected w1 = true
          /\ stdin w1 = rest
          /\ stdout w1
             = stdout w
               ++ [Agent.welcome;
                   "Loaded "
                   +++ PyStr.of_nat
                         (length (Dict.of_list resource_name resources))
                   +++ " resources and "
                   +++ PyStr.of_nat (length (Dict.of_list prompt_name prompts))
                   +++ " prompts";
                   "You: "; "AI Assistant: Goodbye!"]).
Proof.
  split.
  - intros fuel w w' r.
    unfold Agent.run, try_finally, MCPClient.disconnect.
    destruct (bind (Agent.startup env) _ w) as [[a|e|] w1];
      unfold bind, lift, modify, ret, raise;
      destruct (exit_stack_aclose env) as [e'|[]]; cbn;
      intros H N; inversion H; subst; try reflexivity;
      now contradiction N.
  - intros fuel w tools resources prompts line rest C S1 S2 T R P I G.
    destruct (startup_returns env w tools resources prompts C S1 S2 T R P)
      as (w0 & H0 & C0 & _ & _ & _ & O0 & _ & I0).
    rewrite <- I0 in I.
    destruct (goodbye_returns env turns fuel
                (map (fun tool => {| tp_name := tool_name tool;
                                     tp_description := tool_description tool;
                                     tp_input_schema := tool_inputSchema tool |})
                   tools) w0 line rest I G)
      as (w1 & H1 & I1 & O1 & C1).
    exists w1. split.
    + rewrite (run_after_startup env _ _ w w0 _ H0).
      unfold try_finally, MCPClient.disconnect. rewrite H1.
      unfold bind, lift, modify, ret, raise.
      now destruct (exit_stack_aclose env) as [e'|[]].
    + split; [congruence|]. split; [exact I1|].
      rewrite O1, O0. now rewrite <- app_assoc.
Qed.

Lemma cleanup_decides_the_end_witness :
  exists w1,
    Agent.run Scenes.unclosable 5 5 (initial_world ["Goodbye"])
    = (Raise Scenes.broken_pipe, w1)
    /\ _connected w1 = true
    /\ stdin w1 = []
    /\ stdout w1
       = [Agent.welcome; "Loaded 1 resources and 1 prompts"; "You: ";
          "AI Assistant: Goodbye!"].
Proof.
  exact (proj2 (cleanup_decides_the_end Scenes.unclosable 5) 4
           (initial_world ["Goodbye"]) [Demo.add_tool] [Demo.math_constants]
           [Demo.step_by_step] "Goodbye" [] eq_refl eq_refl eq_refl eq_refl
           eq_refl eq_refl eq_refl eq_refl).
Defined.

(** ** The text of the resources of a selection *)

Lemma load_resource_extends (env : Env) (name : string) (acc : list UserBlock)
  (w : World) :
  exists l w', Agent.load_resource env name acc w = (Ret (acc ++ l), w').
Proof.
  unfold Agent.load_resource, MCPClient.get_resource, MCPClient.session_request.
  run_world.
  destruct (Dict.get name (available_resources w)) as [resource|]; cbn.
  2:{ eexists [], _. rewrite app_nil_r. reflexivity. }
  destruct (_connected w); cbn.
  2:{ eexists [], _. rewrite app_nil_r. reflexivity. }
  destruct (session_read_resource env (length (mcp_log w)) (resource_uri resource))
    as [e|contents]; cbn.
  { eexists [], _. rewrite app_nil_r. reflexivity. }
  destruct (load_contents_extends name contents acc) as [l E].
  destruct contents; cbv beta match; rewrite E; eauto.
Qed.

(** The loading only adds blocks. *)
Lemma load_resources_from_extends (env : Env) (names : list json) :
  forall (acc blocks : list UserBlock) (w w' : World),
    Agent.load_resources_from env names acc w = (Ret blocks, w') ->
    exists l, blocks = acc ++ l.
Proof.
  induction names as [|r names IH]; intros acc blocks w w' H.
  - cbn in H. inversion H; subst. exists []. now rewrite app_nil_r.
  - cbn [Agent.load_resources_from] in H.
    cbv [bind get_world lift ret raise py_key] in H.
    destruct r; try discriminate H; try exact (IH _ _ _ _ H).
    destruct (Dict.mem s (available_resources w)); [|exact (IH _ _ _ _ H)].
    destruct (load_resource_extends env s acc w) as (l1 & w1 & H1).
    rewrite H1 in H. destruct (IH _ _ _ _ H) as [l ->].
    exists (l1 ++ l). now rewrite app_assoc.
Qed.

Lemma fetches_same_catalog (w w' : World) (names : list json) :
  available_resources w' = available_resources w ->
  fetches w' names = fetches w names.
Proof. unfold fetches. now intros ->. Qed.

(** A text part that the loop reaches, in the resource of a name at any
    place of the selection, has its block in the result. *)
Lemma load_resources_from_reaches (env : Env) (before : list json) :
  forall (after : list json) (acc blocks : list UserBlock) (w w' : World)
         (name : string) (resource : Resource)
         (pre post : list ResourceContents) (uri : string)
         (mime : option string) (text : string),
    _connected w = true ->
    forallb hashable before = true ->
    Dict.get name (available_resources w) = Some resource ->
    session_read_resource env (length (mcp_log w) + length (fetches w before))
      (resource_uri resource)
    = inr (pre ++ TextResourceContents uri mime text :: post) ->
    forallb loadable pre = true ->
    Agent.load_resources_from env (before ++ JString name :: after) acc w
    = (Ret blocks, w') ->
    In (UText (Agent.resource_text name text)) blocks.
Proof.
  induction before as [|b before IH];
    intros after acc blocks w w' name resource pre post uri mime text
      C Hh G R L H.
  - cbn in R. rewrite Nat.add_0_r in R.
    assert (E : exists c contents,
               pre ++ TextResourceContents uri mime text :: post
               = c :: contents) by (destruct pre; cbn; eauto).
    destruct E as (c & contents & E). rewrite E in R.
    pose proof (load_resource_parts env name acc w resource c contents C G R)
      as H1.
    rewrite <- E, (load_contents_loadable name pre _ acc L) in H1.
    cbn [Agent.load_contents] in H1.
    destruct (load_contents_extends name post
                ((acc ++ flat_map (part_blocks name) pre)
                 ++ [UText (Agent.resource_text name text)])) as [l El].
    rewrite El in H1.
    cbn [app Agent.load_resources_from] in H.
    cbv [bind get_world lift ret raise py_key] in H.
    rewrite (get_mem _ _ _ G) in H.
    rewrite H1 in H.
    destruct (load_resources_from_extends env after _ _ _ _ H) as [l' ->].
    apply in_or_app. left. apply in_or_app. left.
    apply in_or_app. right. now left.
  - cbn in Hh. apply andb_prop in Hh. destruct Hh as [Hb Hh].
    cbn [app Agent.load_resources_from] in H.
    cbv [bind get_world lift ret raise py_key] in H.
    unfold fetches in R. cbn [flat_map] in R. fold (fetches w before) in R.
    destruct b; try discriminate Hb;
      try exact (IH after acc blocks w w' name resource pre post uri mime text
                   C Hh G R L H).
    unfold Dict.mem in H.
    destruct (Dict.get s (available_resources w)) as [r0|] eqn:G0.
    2:{ exact (IH after acc blocks w w' name resource pre post uri mime text
                 C Hh G R L H). }
    destruct (load_resource_fetches env s acc w r0 C G0)
      as (acc1 & w1 & H1 & L1 & A1 & C1 & _).
    rewrite H1 in H.
    apply (IH after acc1 blocks w1 w' name resource pre post uri mime text
             C1 Hh); auto.
    + now rewrite A1.
    + rewrite L1, length_app, (fetches_same_catalog w w1 before A1).
      cbn [length app] in *.
      now replace (length (mcp_log w) + 1 + length (fetches w before))
        with (length (mcp_log w) + S (length (fetches w before))) by lia.
Qed.

(** X25.  The text of the selected resources, for any selection on a
    connected client.  Every text block of the result is the tag
    [[Resource: name]], a newline and, character for character, the
    text of a text part fetched for a selected name of the catalog.
    And a text part has this block in the result, wherever its name
    stands in the selection, when the parts before it in its resource
    are text or recognised images. *)
Theorem reached_text_is_loaded_unchanged (env : Env) (names : list json)
  (w : World) :
  _connected w = true ->
  forallb hashable names = true ->
  exists blocks w',
    Agent._load_selected_resources env names w = (Ret blocks, w')
    /\ (forall s, In (UText s) blocks ->
          exists name, In (JString name) names /\ from_text_part env w name s)
    /\ (forall before after name resource pre post uri mime text,
          names = before ++ JString name :: after ->
          Dict.get name (available_resources w) = Some resource ->
          session_read_resource env
            (length (mcp_log w) + length (fetches w before))
            (resource_uri resource)
          = inr (pre ++ TextResourceContents uri mime text :: post) ->
          forallb loadable pre = true ->
          In (UText ("[Resource: " +++ name +++ "]" +++ LF +++ text)) blocks).
Proof.
  intros C Hh. unfold Agent._load_selected_resources.
  destruct (load_resources_from_texts env names [] w Hh)
    as (blocks & w' & H & _ & T).
  exists blocks, w'. split; [exact H|]. split.
  - intros s Hs. destruct (T s Hs) as [[]|F]. exact F.
  - intros before after name resource pre post uri mime text E G R L.
    subst names. rewrite forallb_app in Hh. apply andb_prop in Hh.
    exact (load_resources_from_reaches env before after [] blocks w w' name
             resource pre post uri mime text C (proj1 Hh) G R L H).
Qed.

Lemma reached_text_is_loaded_unchanged_witness :
  exists blocks w',
    Agent._load_selected_resources Scenes.mixed
      [JString "ghost"; JString "math-constants"; JNumber "7";
       JString "math-constants"] (Demo.ready [])
    = (Ret blocks, w')
    /\ In (UText ("[Resource: math-constants]" +++ LF +++ "pi = 3.14159"))
         blocks
    /\ length blocks = 4.
Proof.
  destruct (reached_text_is_loaded_unchanged Scenes.mixed
              [JString "ghost"; JString "math-constants"; JNumber "7";
               JString "math-constants"] (Demo.ready []) eq_refl eq_refl)
    as (blocks & w' & H & _ & R).
  exists blocks, w'. split; [exact H|]. split.
  - apply (R [JString "ghost"; JString "math-constants"; JNumber "7"] []
             "math-constants" Demo.math_constants []
             (tl Scenes.mixed_contents) "resource://math-constants"
             (Some "text/plain") "pi = 3.14159"); reflexivity.
  - assert (E : Ret blocks
                = fst (Agent._load_selected_resources Scenes.mixed
                         [JString "ghost"; JString "math-constants";
                          JNumber "7"; JString "math-constants"]
                         (Demo.ready []))) by now rewrite H.
    vm_compute in E. now inversion E.
Defined.
